(** * Transcript generator: record extraction, session grouping and year pairing

    A shallow embedding of [src/components/transcript-generator.js] (both
    generator variants share the functions modelled here verbatim) and the
    properties of its pipeline:

      raw rows -> formatSession / splitCatNoAndCourse -> grouping fold
               -> academic years -> table rows,

    and of the guards on the selected file's name, in the generator's second
    variant and in [src/components/worksheet-checker.js].

    Strings are sequences of code units; the embedding covers the code units
    below 256 (Latin-1), written as Rocq [string]s. *)

From Stdlib Require Import Bool Arith ZArith Lia List Ascii String.
From Stdlib Require Import DecimalString DecimalPos.
From Stdlib Require Import Sorting.Sorted Sorting.Permutation.
From Equations Require Import Equations.
Import ListNotations.

Local Open Scope string_scope.
Local Open Scope list_scope.
Local Open Scope nat_scope.

(* ================================================================== *)
(** * Characters and strings of the host language *)
(* ================================================================== *)

Module Str.

Definition code (c : ascii) : nat := nat_of_ascii c.

(** [\d] *)
Definition isDigit (c : ascii) : bool := (48 <=? code c) && (code c <=? 57).

(** [\s], and the characters [String.prototype.trim] strips: WhiteSpace and
    LineTerminator (TAB, LF, VT, FF, CR, SP, NBSP in this range). *)
Definition isSpace (c : ascii) : bool :=
  let n := code c in
  ((9 <=? n) && (n <=? 13)) || (n =? 32) || (n =? 160).

(** LineTerminator: what [.] refuses. *)
Definition isLineTerminator (c : ascii) : bool :=
  let n := code c in (n =? 10) || (n =? 13).

(** [.] without the [s] flag. *)
Definition isDot (c : ascii) : bool := negb (isLineTerminator c).

Definition isUpper (c : ascii) : bool :=
  let n := code c in
  ((65 <=? n) && (n <=? 90)) || ((192 <=? n) && (n <=? 222) && negb (n =? 215)).

Definition isLower (c : ascii) : bool :=
  let n := code c in
  ((97 <=? n) && (n <=? 122)) || ((224 <=? n) && (n <=? 254) && negb (n =? 247)).

Definition lowerChar (c : ascii) : ascii :=
  if isUpper c then ascii_of_nat (code c + 32) else c.

Definition upperChar (c : ascii) : ascii :=
  if isLower c then ascii_of_nat (code c - 32) else c.

Fixpoint map (f : ascii -> ascii) (s : string) : string :=
  match s with
  | EmptyString => EmptyString
  | String c s' => String (f c) (map f s')
  end.

Fixpoint forallb (p : ascii -> bool) (s : string) : bool :=
  match s with
  | EmptyString => true
  | String c s' => p c && forallb p s'
  end.

Fixpoint rev_onto (s acc : string) : string :=
  match s with
  | EmptyString => acc
  | String c s' => rev_onto s' (String c acc)
  end.

Definition rev (s : string) : string := rev_onto s EmptyString.

Fixpoint dropWhile (p : ascii -> bool) (s : string) : string :=
  match s with
  | EmptyString => EmptyString
  | String c s' => if p c then dropWhile p s' else s
  end.

(** [String.prototype.toLowerCase] *)
Definition toLowerCase (s : string) : string := map lowerChar s.

Definition trimStart (s : string) : string := dropWhile isSpace s.

(** [String.prototype.trim] *)
Definition trim (s : string) : string :=
  rev (dropWhile isSpace (rev (dropWhile isSpace s))).

(** [String.prototype.startsWith] *)
Definition startsWith (s p : string) : bool := String.prefix p s.

(** [s.slice(-n)]: the last [n] code units, the whole string when shorter. *)
Definition sliceLast (n : nat) (s : string) : string :=
  substring (String.length s - n) n s.

(** A string is truthy unless it is empty. *)
Definition nonEmpty (s : string) : bool :=
  match s with EmptyString => false | _ => true end.

Definition digitValue (c : ascii) : Z := Z.of_nat (code c - 48).

(** The value of a run of decimal digits, most significant first. *)
Fixpoint digitsValue (acc : Z) (s : string) : Z :=
  match s with
  | EmptyString => acc
  | String c s' => digitsValue (10 * acc + digitValue c) s'
  end.

(** The longest prefix of digits and what follows it. *)
Fixpoint spanDigits (s : string) : string * string :=
  match s with
  | EmptyString => (EmptyString, EmptyString)
  | String c s' =>
      if isDigit c then let '(d, r) := spanDigits s' in (String c d, r)
      else (EmptyString, s)
  end.

(** [parseInt(s, 10)]; [None] is NaN.  Leading white space is skipped, a
    sign is read, then the longest run of digits; exact for values a Number
    holds exactly, which covers every year key the program builds. *)
Definition parseInt (s : string) : option Z :=
  let t := trimStart s in
  let neg := match t with String c _ => Ascii.eqb c "-" | _ => false end in
  let plus := match t with String c _ => Ascii.eqb c "+" | _ => false end in
  let u := match t with String _ u => if neg || plus then u else t | _ => t end in
  match fst (spanDigits u) with
  | EmptyString => None
  | d => Some (if neg then - digitsValue 0 d else digitsValue 0 d)%Z
  end.

(** [String(n)] for an integer-valued Number [n] (below 10^21 in size). *)
Definition ofZ (z : Z) : string := NilZero.string_of_int (Z.to_int z).

End Str.

(* ================================================================== *)
(** * Regular expressions: backtracking matcher *)
(* ================================================================== *)

Module RegExp.
Import Str.

(** The fragment of pattern syntax the program uses.  A quantifier always
    applies to a character class there, so [Quant] carries the class. *)
Inductive regex : Type :=
| Char (c : ascii)
| Quant (p : ascii -> bool) (lo : nat) (hi : option nat)
| Seq (r1 r2 : regex)
| Alt (r1 r2 : regex)
| Group (n : nat) (r : regex)
| Bol
| Eol.

Fixpoint lit (s : string) : regex :=
  match s with
  | EmptyString => Quant (fun _ => false) 0 (Some 0)
  | String c EmptyString => Char c
  | String c s' => Seq (Char c) (lit s')
  end.

Record MatchState : Type := mkState {
  endIndex : nat;
  rest : string;
  captures : list (nat * string)
}.

(** Canonicalize, as used when the [i] flag is set. *)
Definition canonicalize (ignoreCase : bool) (c : ascii) : ascii :=
  if ignoreCase then upperChar c else c.

Definition more (hi : option nat) : bool :=
  match hi with Some 0 => false | _ => true end.

Definition less (hi : option nat) : option nat :=
  match hi with Some n => Some (pred n) | None => None end.

(** Greedy repetition of a class: the alternatives [(count, rest)] in the
    order backtracking tries them, the longest first. *)
Fixpoint quant (p : ascii -> bool) (lo : nat) (hi : option nat)
         (n : nat) (s : string) : list (nat * string) :=
  let stop := if lo =? 0 then [(n, s)] else [] in
  match s with
  | String c s' =>
      if p c && more hi then quant p (pred lo) (less hi) (S n) s' ++ stop
      else stop
  | EmptyString => stop
  end.

(** All the ways [r] matches at a state, in backtracking order: the head
    is the match the engine reports. *)
Fixpoint run (ignoreCase : bool) (r : regex) (st : MatchState)
  : list MatchState :=
  match r with
  | Char c =>
      match rest st with
      | String x s' =>
          if Ascii.eqb (canonicalize ignoreCase x) (canonicalize ignoreCase c)
          then [mkState (S (endIndex st)) s' (captures st)] else []
      | EmptyString => []
      end
  | Quant p lo hi =>
      List.map (fun ns => mkState (endIndex st + fst ns) (snd ns) (captures st))
               (quant p lo hi 0 (rest st))
  | Seq r1 r2 => flat_map (run ignoreCase r2) (run ignoreCase r1 st)
  | Alt r1 r2 => run ignoreCase r1 st ++ run ignoreCase r2 st
  | Group n r =>
      List.map (fun st' =>
                  mkState (endIndex st') (rest st')
                          ((n, substring 0 (endIndex st' - endIndex st) (rest st))
                             :: captures st'))
               (run ignoreCase r st)
  | Bol => if endIndex st =? 0 then [st] else []
  | Eol => match rest st with EmptyString => [st] | _ => [] end
  end.

(** The first start index, from [idx] on, at which the pattern matches. *)
Fixpoint search (ignoreCase : bool) (r : regex) (idx : nat) (s : string)
  : option MatchState :=
  match run ignoreCase r (mkState idx s []) with
  | st :: _ => Some st
  | [] =>
      match s with
      | String _ s' => search ignoreCase r (S idx) s'
      | EmptyString => None
      end
  end.

(** [RegExp.prototype.exec] of a pattern without the [g] and [y] flags. *)
Definition exec (ignoreCase : bool) (r : regex) (s : string)
  : option MatchState :=
  search ignoreCase r 0 s.

(** [RegExp.prototype.test] *)
Definition test (ignoreCase : bool) (r : regex) (s : string) : bool :=
  match exec ignoreCase r s with Some _ => true | None => false end.

(** [match[n]]: the text of capture group [n]. *)
Fixpoint assocGroup (n : nat) (caps : list (nat * string)) : string :=
  match caps with
  | [] => EmptyString
  | (k, v) :: caps' => if k =? n then v else assocGroup n caps'
  end.

Definition group (n : nat) (m : MatchState) : string :=
  assocGroup n (captures m).

End RegExp.

(* ================================================================== *)
(** * Values and dates of the host language *)
(* ================================================================== *)

Module JS.
Import Str.

Inductive Month : Type :=
| Jan | Feb | Mar | Apr | May | Jun | Jul | Aug | Sep | Oct | Nov | Dec.

(** The host's date library, which the program only calls: how a string
    parses to a time value ([None] is NaN; outside the one interchange
    format the result is the host's choice), the calendar fields of a time
    value in the local time zone, and the string form of a valid date. *)
Record Host : Type := mkHost {
  Date_parse : string -> option Z;
  getMonth : Z -> Month;
  getFullYear : Z -> Z;
  Date_toString : Z -> string
}.

(** The values a worksheet cell or a caller can hand to the program.
    [JSNumber] holds the integer-valued Numbers; [JSDate] holds a Date
    object's time value, [None] for an invalid date. *)
Inductive Value : Type :=
| JSUndefined
| JSNull
| JSBoolean (b : bool)
| JSNaN
| JSNumber (z : Z)
| JSString (s : string)
| JSDate (t : option Z).

(** ToBoolean *)
Definition truthy (v : Value) : bool :=
  match v with
  | JSUndefined | JSNull | JSNaN => false
  | JSBoolean b => b
  | JSNumber z => negb (z =? 0)%Z
  | JSString s => nonEmpty s
  | JSDate _ => true
  end.

(** [v || ""] *)
Definition orEmpty (v : Value) : Value :=
  if truthy v then v else JSString "".

Section WithHost.
Variable host : Host.

(** [String(v)] *)
Definition ToString (v : Value) : string :=
  match v with
  | JSUndefined => "undefined"
  | JSNull => "null"
  | JSBoolean true => "true"
  | JSBoolean false => "false"
  | JSNaN => "NaN"
  | JSNumber z => ofZ z
  | JSString s => s
  | JSDate None => "Invalid Date"
  | JSDate (Some t) => Date_toString host t
  end.

(** TimeClip *)
Definition timeClip (z : Z) : option Z :=
  if (Z.abs z <=? 8640000000000000)%Z then Some z else None.

(** The time value of [new Date(v)]; [None] is an invalid date. *)
Definition newDate (v : Value) : option Z :=
  match v with
  | JSUndefined => None
  | JSNull => Some 0%Z
  | JSBoolean b => Some (if b then 1 else 0)%Z
  | JSNaN => None
  | JSNumber z => timeClip z
  | JSString s => Date_parse host s
  | JSDate t => t
  end.
End WithHost.

(** [toLocaleString("en-US", { month: "short" })] *)
Definition monthShort (m : Month) : string :=
  match m with
  | Jan => "Jan" | Feb => "Feb" | Mar => "Mar" | Apr => "Apr"
  | May => "May" | Jun => "Jun" | Jul => "Jul" | Aug => "Aug"
  | Sep => "Sep" | Oct => "Oct" | Nov => "Nov" | Dec => "Dec"
  end.

(** [xs.includes(s)] on an array of strings. *)
Definition includes (xs : list string) (s : string) : bool :=
  existsb (String.eqb s) xs.

End JS.

Import Str RegExp JS.

(* ================================================================== *)
(** * The program: field parsing and session classification *)
(* ================================================================== *)

Infix "~>" := Seq (at level 61, right associativity).
Infix "</>" := Alt (at level 62, right associativity).

(** The source pattern: start of input, a group of one or more [\d], one or
    more [\s], a group of any number of [.], end of input; no flags. *)
Definition catNoRegex : regex :=
  Bol ~> Group 1 (Quant isDigit 1 None) ~> Quant isSpace 1 None
      ~> Group 2 (Quant isDot 0 None) ~> Eol.

(** Splits "Cat. No. and Course Name" into [catNo, courseName]; the caller
    passes the cell's value. *)
Definition splitCatNoAndCourse (host : Host) (value : Value) : string * string :=
  let strVal := trim (ToString host (orEmpty value)) in
  match exec false catNoRegex strVal with
  | Some m => (group 1 m, group 2 m)
  | None => ("", strVal)
  end.

(** Converts a date-like value into "Mon-YY Sem I/II" when it makes a valid
    date, and returns its string otherwise. *)
Definition formatSession (host : Host) (value : Value) : string :=
  match newDate host value with
  | None => ToString host (orEmpty value)
  | Some date =>
      let monthAbbr := monthShort (getMonth host date) in
      let twoDigitYear := sliceLast 2 (ofZ (getFullYear host date)) in
      let semester :=
        if includes ["Jan"; "Feb"; "Mar"; "Apr"; "May"; "Jun"] monthAbbr
        then "Sem II" else "Sem I" in
      (monthAbbr ++ "-" ++ twoDigitYear ++ " " ++ semester)%string
  end.

(** The pattern "/(Aug|Sep|Oct|Nov|Dec)-(\d{2,4})\s+Sem\s*I/i". *)
Definition semIRegex : regex :=
  Group 1 (lit "Aug" </> lit "Sep" </> lit "Oct" </> lit "Nov" </> lit "Dec")
    ~> Char "-" ~> Group 2 (Quant isDigit 2 (Some 4)) ~> Quant isSpace 1 None
    ~> lit "Sem" ~> Quant isSpace 0 None ~> Char "I".

(** The pattern "/(Jan|Feb|Mar|Apr|May|Jun)-(\d{2,4})\s+Sem\s*II/i". *)
Definition semIIRegex : regex :=
  Group 1 (lit "Jan" </> lit "Feb" </> lit "Mar" </> lit "Apr" </> lit "May"
             </> lit "Jun")
    ~> Char "-" ~> Group 2 (Quant isDigit 2 (Some 4)) ~> Quant isSpace 1 None
    ~> lit "Sem" ~> Quant isSpace 0 None ~> lit "II".

Inductive Matched : Type := SemI | SemII.

Record AcademicYear : Type := mkAcademicYear {
  year : string;
  matched : option Matched
}.

(** [String(parseInt(digits, 10) - 1)]; NaN cannot arise from a digit group,
    its string is kept for completeness. *)
Definition adjustedYear (digits : string) : string :=
  match parseInt digits with
  | Some n => ofZ (n - 1)
  | None => "NaN"
  end.

(** Determines the academic year: "Aug-18 Sem I" => year=18;
    "Jan-18 Sem II" => year=17. *)
Definition getAcademicYear (sessionLabel : string) : AcademicYear :=
  match exec true semIRegex sessionLabel with
  | Some m => mkAcademicYear (group 2 m) (Some SemI)
  | None =>
      match exec true semIIRegex sessionLabel with
      | Some m => mkAcademicYear (adjustedYear (group 2 m)) (Some SemII)
      | None => mkAcademicYear "Unknown" None
      end
  end.

(* ================================================================== *)
(** * Objects used as maps *)
(* ================================================================== *)

Module JSObject.

(** Own properties in the order they were created. *)
Definition t (V : Type) : Type := list (string * V).

Definition empty {V : Type} : t V := [].

Fixpoint getOwn {V : Type} (k : string) (o : t V) : option V :=
  match o with
  | [] => None
  | (k', v) :: o' => if String.eqb k k' then Some v else getOwn k o'
  end.

(** [o[k] = v]: an existing property keeps its place, a new one goes last. *)
Fixpoint set {V : Type} (k : string) (v : V) (o : t V) : t V :=
  match o with
  | [] => [(k, v)]
  | (k', v') :: o' =>
      if String.eqb k k' then (k', v) :: o' else (k', v') :: set k v o'
  end.

(** The property names every object literal inherits from
    [Object.prototype]; all of them hold truthy values without a [push]. *)
Definition inherited : list string :=
  ["constructor"; "__defineGetter__"; "__defineSetter__"; "hasOwnProperty";
   "__lookupGetter__"; "__lookupSetter__"; "isPrototypeOf";
   "propertyIsEnumerable"; "toString"; "valueOf"; "__proto__";
   "toLocaleString"].

(** Whether [o[k]] is truthy, for an object literal whose own values are
    arrays or objects. *)
Definition has {V : Type} (k : string) (o : t V) : bool :=
  match getOwn k o with
  | Some _ => true
  | None => includes inherited k
  end.

(** An array index: a canonical decimal numeral below 2^32 - 1. *)
Definition arrayIndex (k : string) : option Z :=
  match k with
  | EmptyString => None
  | String c k' =>
      if Str.forallb isDigit k
         && (negb (Ascii.eqb c "0") || negb (nonEmpty k'))
         && (digitsValue 0 k <? 4294967295)%Z
      then Some (digitsValue 0 k) else None
  end.

Definition isArrayIndex (k : string) : bool :=
  match arrayIndex k with Some _ => true | None => false end.

Definition indexOf (k : string) : Z :=
  match arrayIndex k with Some n => n | None => 0%Z end.

Fixpoint insertByIndex {V : Type} (e : string * V) (es : list (string * V))
  : list (string * V) :=
  match es with
  | [] => [e]
  | e' :: es' =>
      if (indexOf (fst e) <=? indexOf (fst e'))%Z then e :: es
      else e' :: insertByIndex e es'
  end.

Definition sortByIndex {V : Type} (es : list (string * V))
  : list (string * V) :=
  fold_right insertByIndex [] es.

(** [Object.entries(o)]: array indices in ascending order, then the other
    names in creation order. *)
Definition entries {V : Type} (o : t V) : list (string * V) :=
  sortByIndex (filter (fun e => isArrayIndex (fst e)) o)
    ++ filter (fun e => negb (isArrayIndex (fst e))) o.

(** [Object.keys(o)] *)
Definition keys {V : Type} (o : t V) : list string :=
  List.map fst (entries o).

End JSObject.

(* ================================================================== *)
(** * The program: extraction, grouping, pairing *)
(* ================================================================== *)

Record RowData : Type := mkRowData {
  sem : Value;
  catAndCourse : Value;
  grade : Value;
  semHrs : Value
}.

Record Processed : Type := mkProcessed {
  rawSem : Value;
  Sem : string;
  Course : string;
  CatNo : string;
  Grade : Value;
  SemHrs : Value
}.

(** What a bucket holds for one course; the fields are the source's
    [Course], [CatNo], [Grade], [SemHrs]. *)
Record CourseEntry : Type := mkCourseEntry {
  entryCourse : string;
  entryCatNo : string;
  entryGrade : Value;
  entrySemHrs : Value
}.

Inductive ColumnKey : Type := KCourse | KCatNo | KGrade | KSemHrs.

(** [r[columnKey]] *)
Definition column (columnKey : ColumnKey) (r : CourseEntry) : Value :=
  match columnKey with
  | KCourse => JSString (entryCourse r)
  | KCatNo => JSString (entryCatNo r)
  | KGrade => entryGrade r
  | KSemHrs => entrySemHrs r
  end.

(** A table cell is its paragraphs' texts; a table row is its cells. *)
Definition TableCell : Type := list string.
Definition TableRow : Type := list TableCell.

Definition multiLineCell (lines : list string) : TableCell := lines.

Definition footerMarkers : list string :=
  ["total number of semester hours earned";
   "number of semester hours required for graduation";
   "cumulative grade point average"].

Definition GroupedData : Type := JSObject.t (list CourseEntry).
Definition AcademicYears : Type := JSObject.t (JSObject.t (list CourseEntry)).

Section Pipeline.
Variable host : Host.

(** [String(v || "").trim()] *)
Definition cellText (v : Value) : string :=
  trim (ToString host (orEmpty v)).

(** Extracts column lines from an array of records. *)
Definition getColumnLines (records : list CourseEntry) (columnKey : ColumnKey)
  : list string :=
  filter nonEmpty (List.map (fun r => cellText (column columnKey r)) records).

(** Step 2: the rows [eachRow] visits, as (row number, [row.values]) with
    the values' index 0 unused; rows 1 and 2 are headers. *)
Definition extractRows (sheet : list (nat * list Value)) : list RowData :=
  flat_map
    (fun visited =>
       let '(rowNumber, rowValues) := visited in
       if 3 <=? rowNumber then
         [mkRowData (orEmpty (nth 1 rowValues JSUndefined))
                    (orEmpty (nth 2 rowValues JSUndefined))
                    (orEmpty (nth 3 rowValues JSUndefined))
                    (orEmpty (nth 4 rowValues JSUndefined))]
       else [])
    sheet.

(** Step 3: format each row. *)
Definition processRow (item : RowData) : Processed :=
  let formattedSem := formatSession host (sem item) in
  let '(catNo, courseName) := splitCatNoAndCourse host (catAndCourse item) in
  mkProcessed (sem item) formattedSem courseName catNo (grade item) (semHrs item).

Definition isTrulyBlankRow (row : Processed) : bool :=
  negb (nonEmpty (cellText (rawSem row)))
  && negb (nonEmpty (cellText (JSString (Course row))))
  && negb (nonEmpty (cellText (Grade row)))
  && negb (nonEmpty (cellText (SemHrs row))).

(** The test that skips the known "bottom" lines. *)
Definition isFooter (course : string) : bool :=
  let courseLower := trim (toLowerCase course) in
  existsb (startsWith courseLower) footerMarkers.

(** The session key a row that is not blank is filed under:
    [row.Sem.trim()] when the row has a raw session, the running key
    otherwise, and "NoSession" when that leaves nothing. *)
Definition sessionKeyFor (currentSessionKey : option string) (row : Processed)
  : string :=
  let key :=
    if nonEmpty (cellText (rawSem row)) then Some (trim (Sem row))
    else currentSessionKey in
  match key with
  | Some k => if nonEmpty k then k else "NoSession"
  | None => "NoSession"
  end.

(** Step 4, one row of the [forEach]: the state is [groupedData] and
    [currentSessionKey]; [None] is the TypeError of calling [push] on an
    inherited property. *)
Definition groupStep (st : GroupedData * option string) (row : Processed)
  : option (GroupedData * option string) :=
  let '(groupedData, currentSessionKey) := st in
  if isTrulyBlankRow row then Some (groupedData, None)
  else
    let key := sessionKeyFor currentSessionKey row in
    let groupedData :=
      if negb (JSObject.has key groupedData)
      then JSObject.set key [] groupedData else groupedData in
    if negb (isFooter (Course row)) then
      match JSObject.getOwn key groupedData with
      | Some bucket =>
          Some (JSObject.set key
                  (bucket ++ [mkCourseEntry (Course row) (CatNo row)
                                            (Grade row) (SemHrs row)])
                  groupedData,
                Some key)
      | None => None
      end
    else Some (groupedData, Some key).

Fixpoint groupFrom (st : GroupedData * option string) (rows : list Processed)
  : option (GroupedData * option string) :=
  match rows with
  | [] => Some st
  | row :: rows' =>
      match groupStep st row with
      | Some st' => groupFrom st' rows'
      | None => None
      end
  end.

Definition groupRows (processed : list Processed) : option GroupedData :=
  option_map fst (groupFrom (JSObject.empty, None) processed).

(** Step 5, one bucket: its year is created when [academicYears[year]] is
    falsy, then the bucket is stored under its label in the year. *)
Definition addSession (academicYears : AcademicYears)
           (entry : string * list CourseEntry) : AcademicYears :=
  let '(sessionLabel, courses) := entry in
  let y := year (getAcademicYear sessionLabel) in
  let academicYears :=
    if negb (JSObject.has y academicYears)
    then JSObject.set y JSObject.empty academicYears else academicYears in
  match JSObject.getOwn y academicYears with
  | Some sessions =>
      JSObject.set y (JSObject.set sessionLabel courses sessions) academicYears
  | None => academicYears
  end.

Definition buildAcademicYears (groupedData : GroupedData) : AcademicYears :=
  fold_left addSession (JSObject.entries groupedData) JSObject.empty.

(** Step 7: the table rows. *)
Definition headerRow : TableRow :=
  [multiLineCell ["SESSION"]; multiLineCell ["COURSE"];
   multiLineCell ["CAT. NO."]; multiLineCell ["GRADE"];
   multiLineCell ["SEM. HRS."];
   multiLineCell ["SESSION"]; multiLineCell ["COURSE"];
   multiLineCell ["CAT. NO."]; multiLineCell ["GRADE"];
   multiLineCell ["SEM. HRS."]].

(** [Array.from({ length: 10 }, () => multiLineCell([""]))] *)
Definition blankRow : TableRow := repeat (multiLineCell [""]) 10.

Fixpoint insertNumber (n : Z) (ns : list Z) : list Z :=
  match ns with
  | [] => [n]
  | m :: ns' => if (n <=? m)%Z then n :: ns else m :: insertNumber n ns'
  end.

(** [ns.sort((a, b) => a - b)] *)
Definition sortNumbers (ns : list Z) : list Z := fold_right insertNumber [] ns.

Definition isNaN (n : option Z) : bool :=
  match n with Some _ => false | None => true end.

Definition allYearKeys (academicYears : AcademicYears) : list string :=
  filter (fun y => negb (String.eqb y "Unknown")) (JSObject.keys academicYears).

Definition numericYears (academicYears : AcademicYears) : list Z :=
  sortNumbers
    (flat_map (fun y => match parseInt y with Some n => [n] | None => [] end)
              (allYearKeys academicYears)).

Definition leftoverYearKeys (academicYears : AcademicYears) : list string :=
  filter (fun y => isNaN (parseInt y)) (allYearKeys academicYears).

Definition sortedYears (academicYears : AcademicYears) : list string :=
  List.map ofZ (numericYears academicYears) ++ leftoverYearKeys academicYears.

(** [keys.shift() || null], with what is left of [keys]. *)
Definition shiftKey (keys : list string) : option string * list string :=
  match keys with
  | [] => (None, [])
  | k :: keys' => ((if nonEmpty k then Some k else None), keys')
  end.

(** [key ? sessionsObj[key] : []]; the outer [None] is [undefined]. *)
Definition coursesOf (sessionsObj : JSObject.t (list CourseEntry))
           (key : option string) : option (list CourseEntry) :=
  match key with
  | Some k => JSObject.getOwn k sessionsObj
  | None => Some []
  end.

Definition keyText (key : option string) : string :=
  match key with Some k => k | None => "" end.

(** The five cells of one half of a paired row. *)
Definition cellGroup (key : option string) (courses : list CourseEntry)
  : list TableCell :=
  [multiLineCell [keyText key];
   multiLineCell (getColumnLines courses KCourse);
   multiLineCell (getColumnLines courses KCatNo);
   multiLineCell (getColumnLines courses KGrade);
   multiLineCell (getColumnLines courses KSemHrs)].

(** One turn of the pairing loop's body; [None] is the TypeError of
    mapping over [undefined]. *)
Definition pairedRow (sessionsObj : JSObject.t (list CourseEntry))
           (leftKey rightKey : option string) : option TableRow :=
  match coursesOf sessionsObj leftKey, coursesOf sessionsObj rightKey with
  | Some leftCourses, Some rightCourses =>
      Some (cellGroup leftKey leftCourses ++ cellGroup rightKey rightCourses)
  | _, _ => None
  end.

End Pipeline.

(** The loop [while (leftKeys.length > 0 || rightKeys.length > 0)]: each turn
    shifts both queues, pushes the paired row and a blank row. *)
Equations? pairLoop (host : Host) (sessionsObj : JSObject.t (list CourseEntry))
          (leftKeys rightKeys : list string) : option (list TableRow)
  by wf (List.length leftKeys + List.length rightKeys) lt :=
  pairLoop host sessionsObj [] [] := Some [];
  pairLoop host sessionsObj leftKeys rightKeys :=
    match pairedRow host sessionsObj (fst (shiftKey leftKeys))
                    (fst (shiftKey rightKeys)) with
    | Some row =>
        match pairLoop host sessionsObj (snd (shiftKey leftKeys))
                       (snd (shiftKey rightKeys)) with
        | Some rows => Some (row :: blankRow :: rows)
        | None => None
        end
    | None => None
    end.
Proof.
  destruct rightKeys; simpl; lia.
Qed.

Section Table.
Variable host : Host.

(** The rows one academic year contributes.  [None] is the TypeError of
    [Object.keys(undefined)] for a year the object does not hold; under an
    inherited name it would find a function, which has no keys. *)
Definition yearRows (academicYears : AcademicYears) (yearStr : string)
  : option (list TableRow) :=
  match JSObject.getOwn yearStr academicYears with
  | None => if includes JSObject.inherited yearStr then Some [] else None
  | Some sessionsObj =>
      let sessionLabels := JSObject.keys sessionsObj in
      let leftKeys := filter (test true semIRegex) sessionLabels in
      let rightKeys := filter (test true semIIRegex) sessionLabels in
      pairLoop host sessionsObj leftKeys rightKeys
  end.

Fixpoint forYears (academicYears : AcademicYears) (years : list string)
  : option (list TableRow) :=
  match years with
  | [] => Some []
  | yearStr :: years' =>
      match yearRows academicYears yearStr with
      | Some rows =>
          match forYears academicYears years' with
          | Some more => Some (rows ++ more)
          | None => None
          end
      | None => None
      end
  end.

Definition buildRows (academicYears : AcademicYears) : option (list TableRow) :=
  option_map (cons headerRow)
             (forYears academicYears (sortedYears academicYears)).

(** From the visited worksheet rows to the rows of the table; [None] when
    the run ends in the handler's [catch]. *)
Definition handleGenerateTranscript (sheet : list (nat * list Value))
  : option (list TableRow) :=
  match groupRows host (List.map (processRow host) (extractRows sheet)) with
  | Some groupedData => buildRows (buildAcademicYears groupedData)
  | None => None
  end.

End Table.

(* ================================================================== *)
(** * The program: the guards on the file's name *)
(* ================================================================== *)

(** [String.prototype.endsWith] *)
Definition endsWith (s searchString : string) : bool :=
  (String.length searchString <=? String.length s)
  && String.eqb (substring (String.length s - String.length searchString)
                           (String.length searchString) s)
                searchString.

(** The guard of [worksheet-checker.js] on the selected file's name: the
    file is refused when the name, in lower case, ends in neither
    extension. *)
Definition refusedByName (name : string) : bool :=
  negb (endsWith (toLowerCase name) ".xlsx")
  && negb (endsWith (toLowerCase name) ".xls").

(** The test of the generator's second variant for the in-memory
    conversion of an .xls file. *)
Definition convertedFirst (name : string) : bool :=
  let fileName := toLowerCase name in
  endsWith fileName ".xls".

(* ================================================================== *)
(** * A host to evaluate on *)
(* ================================================================== *)

(** A host whose local time zone is UTC and whose [Date.parse] accepts the
    date-only interchange form "YYYY-MM-DD" and nothing else.  Engines read
    more forms than this one, each its own, and some read a free text with
    a number in it as a date: what holds on every engine is proved for an
    arbitrary host, and an evaluation on this host shows the run of the
    program on one engine that is as strict as this. *)
Module UTC.
Local Open Scope Z_scope.

Definition msPerDay : Z := 86400000.

(** Year, month (1..12) and day of a day number counted from 1970-01-01. *)
Definition civilFromDays (days : Z) : Z * Z * Z :=
  let z := days + 719468 in
  let era := z / 146097 in
  let doe := z - era * 146097 in
  let yoe := (doe - doe / 1460 + doe / 36524 - doe / 146096) / 365 in
  let doy := doe - (365 * yoe + yoe / 4 - yoe / 100) in
  let mp := (5 * doy + 2) / 153 in
  let d := doy - (153 * mp + 2) / 5 + 1 in
  let m := if mp <? 10 then mp + 3 else mp - 9 in
  ((yoe + era * 400 + (if m <=? 2 then 1 else 0)), m, d).

Definition daysFromCivil (y m d : Z) : Z :=
  let y := if m <=? 2 then y - 1 else y in
  let era := y / 400 in
  let yoe := y - era * 400 in
  let doy := (153 * (if 2 <? m then m - 3 else m + 9) + 2) / 5 + d - 1 in
  let doe := yoe * 365 + yoe / 4 - yoe / 100 + doy in
  era * 146097 + doe - 719468.

Definition monthOf (m : Z) : Month :=
  match m with
  | 1 => Jan | 2 => Feb | 3 => Mar | 4 => Apr | 5 => May | 6 => Jun
  | 7 => Jul | 8 => Aug | 9 => Sep | 10 => Oct | 11 => Nov | _ => Dec
  end.

Definition getMonth (t : Z) : Month :=
  let '(_, m, _) := civilFromDays (t / msPerDay) in monthOf m.

Definition getFullYear (t : Z) : Z :=
  let '(y, _, _) := civilFromDays (t / msPerDay) in y.

Definition pad (width : nat) (z : Z) : string :=
  let s := ofZ z in
  (Str.sliceLast (width - String.length s) "0000" ++ s)%string.

Definition weekDay (days : Z) : string :=
  match (days + 4) mod 7 with
  | 0 => "Sun" | 1 => "Mon" | 2 => "Tue" | 3 => "Wed" | 4 => "Thu"
  | 5 => "Fri" | _ => "Sat"
  end.

Definition toString (t : Z) : string :=
  let days := t / msPerDay in
  let ms := t mod msPerDay in
  let '(y, m, d) := civilFromDays days in
  (weekDay days ++ " " ++ monthShort (monthOf m) ++ " " ++ pad 2 d ++ " "
     ++ pad 4 y ++ " " ++ pad 2 (ms / 3600000) ++ ":"
     ++ pad 2 (ms / 60000 mod 60) ++ ":" ++ pad 2 (ms / 1000 mod 60)
     ++ " GMT+0000 (Coordinated Universal Time)")%string.

Definition parse (s : string) : option Z :=
  let y := substring 0 4 s in
  let m := substring 5 2 s in
  let d := substring 8 2 s in
  if (String.length s =? 10)%nat
     && Str.forallb isDigit (y ++ m ++ d)%string
     && String.eqb (substring 4 1 s) "-" && String.eqb (substring 7 1 s) "-"
  then
    let t := daysFromCivil (digitsValue 0 y) (digitsValue 0 m) (digitsValue 0 d) in
    if Z.eqb (digitsValue 0 m) (snd (fst (civilFromDays t)))
       && Z.eqb (digitsValue 0 d) (snd (civilFromDays t))
    then Some (t * msPerDay) else None
  else None.

Definition host : Host := mkHost parse getMonth getFullYear toString.

End UTC.

(* ================================================================== *)
(** * Sample records *)
(* ================================================================== *)

Definition sampleEntry (course catNo grade : string) : CourseEntry :=
  mkCourseEntry course catNo (JSString grade) (JSNumber 3).

Definition sampleRow (session course catNo grade : string) : Processed :=
  mkProcessed (JSString session) session course catNo (JSString grade)
              (JSNumber 3).

Definition blankProcessed : Processed :=
  mkProcessed (JSString "") "" "" "" (JSString "") (JSString "").

Definition footerProcessed : Processed :=
  mkProcessed (JSString "") "" "Cumulative Grade Point Average: 3.2" ""
              (JSString "") (JSString "").

Definition footerSession (session : string) : Processed :=
  mkProcessed (JSString session) session
              "Total Number of Semester Hours Earned: 12" ""
              (JSString "") (JSString "").

Definition continuationRow (course catNo grade : string) : Processed :=
  mkProcessed (JSString "") "" course catNo (JSString grade) (JSNumber 3).

(** The sample of the specification: three buckets, two years. *)
Definition sampleBuckets : GroupedData :=
  [("Aug-18 Sem I", [sampleEntry "Intro" "101" "A"]);
   ("Jan-19 Sem II", [sampleEntry "Greek" "102" "B"]);
   ("Aug-19 Sem I", [sampleEntry "Hebrew" "103" "C"])].

(** Buckets across a change of century: the autumn of 99 and the spring of
    00, whose academic years are 99 and -1. *)
Definition centuryBuckets : GroupedData :=
  [("Aug-99 Sem I", [sampleEntry "Intro" "101" "A"]);
   ("Jan-00 Sem II", [sampleEntry "Greek" "102" "B"])].

(** A worksheet to evaluate on: two header rows, an autumn session of two
    courses, the second on a continuation row, a footer line, and a spring
    session; row 5 is empty and is not visited. *)
Definition sampleSheet : list (nat * list Value) :=
  [(1, [JSUndefined; JSString "Sem."; JSString "Cat.No. And Course Name";
        JSString "Grade"; JSString "Sem.Hrs"; JSString "GPA"]);
   (2, [JSUndefined]);
   (3, [JSUndefined; JSString "2018-08-20"; JSString "101 Intro to Theology";
        JSString "A"; JSNumber 3; JSNumber 4]);
   (4, [JSUndefined; JSUndefined; JSString "102  Greek I"; JSString "B";
        JSNumber 3]);
   (6, [JSUndefined; JSUndefined;
        JSString "Total Number of Semester Hours Earned: 6"]);
   (7, [JSUndefined; JSString "2019-01-15"; JSString "201 Hebrew";
        JSString "A-"; JSNumber 3])].

Definition sampleProcessed : list Processed :=
  [sampleRow "Aug-18 Sem I" "Intro" "101" "A";
   continuationRow "Greek" "102" "B";
   blankProcessed;
   footerProcessed;
   sampleRow "Jan-19 Sem II" "Hebrew" "201" "A"].

(* ================================================================== *)
(** * Vocabulary of the properties *)
(* ================================================================== *)

(** A line feed. *)
Definition LF : string := String (ascii_of_nat 10) EmptyString.

(** How the specification words the semester rule: January to June are
    second-semester months, every other month (July with them) is a
    first-semester month. *)
Definition semesterOf (m : Month) : string :=
  match m with
  | Jan | Feb | Mar | Apr | May | Jun => "Sem II"
  | _ => "Sem I"
  end.

(** The course-only fields a row contributes to its bucket. *)
Definition entryOf (row : Processed) : CourseEntry :=
  mkCourseEntry (Course row) (CatNo row) (Grade row) (SemHrs row).

(** The courses filed under a key, none when the key has no bucket. *)
Definition bucketOf (key : string) (groupedData : GroupedData)
  : list CourseEntry :=
  match JSObject.getOwn key groupedData with
  | Some bucket => bucket
  | None => []
  end.

(** A row carries a session value that canonicalizes to [label]. *)
Definition namesSession (host : Host) (row : Processed) (label : string) : Prop :=
  nonEmpty (cellText host (rawSem row)) = true /\ trim (Sem row) = label.

(** No bucket holds a course whose text passes the footer test. *)
Definition footerFree (groupedData : GroupedData) : Prop :=
  Forall (fun kv => Forall (fun e => isFooter (entryCourse e) = false) (snd kv))
         groupedData.

(** How the specification words the pairing loop: one label is popped from
    each queue, first in first out, and a side that has run out gives an
    empty slot while the other goes on. *)
Fixpoint queuePairs (leftKeys rightKeys : list string)
  : list (option string * option string) :=
  match leftKeys with
  | [] => List.map (fun r => (None, fst (shiftKey [r]))) rightKeys
  | l :: leftKeys' =>
      match rightKeys with
      | [] => (fst (shiftKey [l]), None) :: queuePairs leftKeys' []
      | r :: rightKeys' =>
          (fst (shiftKey [l]), fst (shiftKey [r])) :: queuePairs leftKeys' rightKeys'
      end
  end.

(** Every element through a function that may throw. *)
Fixpoint traverse {A B : Type} (f : A -> option B) (xs : list A)
  : option (list B) :=
  match xs with
  | [] => Some []
  | x :: xs' =>
      match f x with
      | Some y =>
          match traverse f xs' with
          | Some ys => Some (y :: ys)
          | None => None
          end
      | None => None
      end
  end.

(** Each paired row followed by one blank row. *)
Definition withSeparators (paired : list TableRow) : list TableRow :=
  flat_map (fun p => [p; blankRow]) paired.

(** A session slot of a paired row: empty, or a label of the year's sessions
    that the pattern accepts. *)
Definition slotKey (pattern : regex) (sessionsObj : JSObject.t (list CourseEntry))
           (key : option string) : Prop :=
  match key with
  | None => True
  | Some label =>
      In label (JSObject.keys sessionsObj) /\ test true pattern label = true
  end.

(** A row the pairing loop emits for some year of [academicYears]. *)
Definition PairedRow (host : Host) (academicYears : AcademicYears)
           (p : TableRow) : Prop :=
  exists yearStr sessionsObj leftKey rightKey,
    JSObject.getOwn yearStr academicYears = Some sessionsObj
    /\ slotKey semIRegex sessionsObj leftKey
    /\ slotKey semIIRegex sessionsObj rightKey
    /\ (leftKey <> None \/ rightKey <> None)
    /\ pairedRow host sessionsObj leftKey rightKey = Some p.

(** The rows one year contributes: the year is an own key of the academic
    years, and its rows are the queue pairing of its first-semester and its
    second-semester labels, in key order, each pair followed by a blank
    row. *)
Definition YearBlock (host : Host) (academicYears : AcademicYears)
           (yearStr : string) (block : list TableRow) : Prop :=
  exists sessionsObj paired,
    JSObject.getOwn yearStr academicYears = Some sessionsObj
    /\ block = withSeparators paired
    /\ Forall2 (fun lr p => pairedRow host sessionsObj (fst lr) (snd lr) = Some p)
               (queuePairs
                  (filter (test true semIRegex) (JSObject.keys sessionsObj))
                  (filter (test true semIIRegex) (JSObject.keys sessionsObj)))
               paired.

(** A label the classifier files under the "Unknown" year. *)
Definition classifiedUnknown (label : string) : Prop :=
  getAcademicYear label = mkAcademicYear "Unknown" None.

(** A table row shows [label] in one of its two session cells. *)
Definition shows (p : TableRow) (label : string) : Prop :=
  nth 0 p [] = [label] \/ nth 5 p [] = [label].

(** The integers the year keys parse to, in key order. *)
Definition parsedYears (keys : list string) : list Z :=
  flat_map (fun y => match parseInt y with Some n => [n] | None => [] end) keys.

(** A year holds a session with its courses. *)
Definition holds (academicYears : AcademicYears) (y label : string)
           (courses : list CourseEntry) : Prop :=
  exists sessionsObj,
    JSObject.getOwn y academicYears = Some sessionsObj
    /\ JSObject.getOwn label sessionsObj = Some courses.

(** A year key that is the decimal numeral of the integer it parses to
    (no leading zero, no sign but a minus); a key that does not parse is
    canonical too. *)
Definition canonicalYear (y : string) : Prop :=
  forall n, parseInt y = Some n -> ofZ n = y.

(** Letters compared without regard to case. *)
Definition sameLetters (a b : string) : Prop :=
  Str.map upperChar a = Str.map upperChar b.

Definition firstHalfMonths : list string := ["Aug"; "Sep"; "Oct"; "Nov"; "Dec"].

Definition secondHalfMonths : list string :=
  ["Jan"; "Feb"; "Mar"; "Apr"; "May"; "Jun"].

(** How the specification words the two patterns, read the way the source
    patterns are written: somewhere in the label, after [pre], stands a month
    of the list, a dash, two to four digits [yy], white space, "Sem",
    optional white space and the half ("I" or "II"), letters in either
    case; anything may follow. *)
Definition SessionAt (months : list string) (half : string)
           (label pre yy : string) : Prop :=
  exists mon gap1 sem gap2 hf post,
    label = (pre ++ mon ++ "-" ++ yy ++ gap1 ++ sem ++ gap2 ++ hf ++ post)%string
    /\ (exists m, In m months /\ sameLetters mon m)
    /\ Str.forallb isDigit yy = true
    /\ 2 <= String.length yy <= 4
    /\ Str.forallb isSpace gap1 = true
    /\ 1 <= String.length gap1
    /\ sameLetters sem "Sem"
    /\ Str.forallb isSpace gap2 = true
    /\ sameLetters hf half.

(** The first place in the label where the pattern stands. *)
Definition FirstSessionAt (months : list string) (half : string)
           (label pre yy : string) : Prop :=
  SessionAt months half label pre yy
  /\ forall pre' yy', SessionAt months half label pre' yy' ->
                      String.length pre <= String.length pre'.

(** The label holds the pattern nowhere. *)
Definition SessionNowhere (months : list string) (half : string) (label : string)
  : Prop :=
  forall pre yy, ~ SessionAt months half label pre yy.

(** An alternation of literals. *)
Fixpoint alts (ws : list string) : regex :=
  match ws with
  | [] => lit ""
  | [w] => lit w
  | w :: ws' => Alt (lit w) (alts ws')
  end.

(** The common form of the two session patterns. *)
Definition sessionPattern (months : list string) (half : string) : regex :=
  Group 1 (alts months)
    ~> Char "-" ~> Group 2 (Quant isDigit 2 (Some 4)) ~> Quant isSpace 1 None
    ~> lit "Sem" ~> Quant isSpace 0 None ~> lit half.

(** A year key that parses to an integer and is its decimal numeral. *)
Definition numeralYear (y : string) : Prop :=
  exists n, parseInt y = Some n /\ ofZ n = y.



(** What the matcher is meant to accept, stated without backtracking. *)
Module RegExpSpec.

Definition within (hi : option nat) (n : nat) : Prop :=
  match hi with Some h => n <= h | None => True end.

(** The matcher moved from [st] to [st'] over the text [w], captures
    untouched. *)
Definition Consumes (st st' : MatchState) (w : string) : Prop :=
  rest st = (w ++ rest st')%string
  /\ endIndex st' = endIndex st + String.length w
  /\ captures st' = captures st.

(** What each pattern accepts, as a relation between states. *)
Fixpoint Matches (i : bool) (r : regex) (st st' : MatchState) : Prop :=
  match r with
  | Char c =>
      exists x, Consumes st st' (String x "")
                /\ canonicalize i x = canonicalize i c
  | Quant p lo hi =>
      exists w, Consumes st st' w /\ Str.forallb p w = true
                /\ lo <= String.length w /\ within hi (String.length w)
  | Seq r1 r2 => exists mid, Matches i r1 st mid /\ Matches i r2 mid st'
  | Alt r1 r2 => Matches i r1 st st' \/ Matches i r2 st st'
  | Group n r =>
      exists st0,
        Matches i r st st0
        /\ st' = mkState (endIndex st0) (rest st0)
                         ((n, substring 0 (endIndex st0 - endIndex st) (rest st))
                            :: captures st0)
  | Bol => endIndex st = 0 /\ st' = st
  | Eol => rest st = "" /\ st' = st
  end.

End RegExpSpec.

Import RegExpSpec.

(** How the specification words the footer test: the course text, trimmed
    and compared without regard to case, starts with one of the markers. *)
Definition FooterText (course : string) : Prop :=
  exists marker head tail,
    In marker footerMarkers
    /\ trim course = (head ++ tail)%string
    /\ toLowerCase head = marker.

(** A text that does not begin with white space. *)
Definition startsClear (s : string) : Prop :=
  match s with String c _ => isSpace c = false | EmptyString => True end.

(** A text that does not end with white space. *)
Definition endsClear (s : string) : Prop := startsClear (Str.rev s).

(** A row that contributes a course: neither a session boundary nor one of
    the "bottom" lines. *)
Definition keptRow (host : Host) (row : Processed) : bool :=
  negb (isTrulyBlankRow host row) && negb (isFooter (Course row)).

(** The course entries of all the buckets, bucket after bucket. *)
Definition allEntries (groupedData : GroupedData) : list CourseEntry :=
  List.concat (List.map snd groupedData).

(** A character of a decimal numeral: a digit or the minus sign. *)
Definition isNumeralChar (c : ascii) : bool := isDigit c || Ascii.eqb c "-".

(** The course cells of a table row: the second cell of each half. *)
Definition courseLines (p : TableRow) : list string := nth 1 p [] ++ nth 6 p [].

(* ================================================================== *)
(** * Column lines *)
(* ================================================================== *)

Section ColumnLines.
Variable host : Host.

Lemma getColumnLines_length_le (records : list CourseEntry) (k : ColumnKey) :
  List.length (getColumnLines host records k) <= List.length records.
Proof.
  unfold getColumnLines.
  etransitivity; [apply filter_length_le | rewrite length_map; reflexivity].
Qed.

(** When no record has a blank field in a column, the column has one line
    per record, in the records' order. *)
Lemma getColumnLines_filled (records : list CourseEntry) (k : ColumnKey) :
  Forall (fun r => nonEmpty (cellText host (column k r)) = true) records ->
  getColumnLines host records k
  = List.map (fun r => cellText host (column k r)) records.
Proof.
  unfold getColumnLines.
  induction 1 as [|r rs Hr _ IH]; simpl; [reflexivity|].
  rewrite Hr, IH. reflexivity.
Qed.

(** A column has one line per record whose field is not blank: a blank
    field anywhere leaves the column short. *)
Lemma getColumnLines_length (records : list CourseEntry) (k : ColumnKey) :
  List.length (getColumnLines host records k)
  = List.length
      (filter (fun r => nonEmpty (cellText host (column k r))) records).
Proof.
  unfold getColumnLines.
  induction records as [|r rs IH]; cbn [List.map filter]; [reflexivity|].
  destruct (nonEmpty (cellText host (column k r))); cbn [List.length];
    rewrite IH; reflexivity.
Qed.

End ColumnLines.

(** C2: a bucket of N records should give N lines in every column of its
    cell group.  The code filters each column for blank lines on its own, so
    a record without a category number leaves the category column one line
    short of the course column: here one course line, no category line. *)
Theorem getColumnLines_misaligned :
  forall host : Host,
    let bucket := [sampleEntry "Chapel" "" "P"] in
    List.length bucket = 1
    /\ getColumnLines host bucket KCourse = ["Chapel"]
    /\ getColumnLines host bucket KCatNo = []
    /\ getColumnLines host bucket KGrade = ["P"]
    /\ getColumnLines host bucket KSemHrs = ["3"].
Proof.
  intros host bucket. repeat split.
Qed.

(** In a bucket of two, the second record's category number moves up to
    the first course's line. *)
Lemma getColumnLines_shifted :
  forall host : Host,
    let bucket := [sampleEntry "Chapel" "" "P"; sampleEntry "Greek I" "201" "B"] in
    getColumnLines host bucket KCourse = ["Chapel"; "Greek I"]
    /\ getColumnLines host bucket KCatNo = ["201"].
Proof.
  intros host bucket. split; reflexivity.
Qed.

(** The same through the whole handler: two courses of one session, the
    second without a category number and hours, give a cell group with two
    course lines and one line in the category and hours columns. *)
Lemma handleGenerateTranscript_misaligned :
  handleGenerateTranscript UTC.host
    [(3, [JSUndefined; JSString "2018-08-20"; JSString "101 Intro";
          JSString "A"; JSNumber 3]);
     (4, [JSUndefined; JSString ""; JSString "Chapel"; JSString "P"])]
  = Some [headerRow;
          [["Aug-18 Sem I"]; ["Intro"; "Chapel"]; ["101"]; ["A"; "P"]; ["3"];
           [""]; []; []; []; []];
          blankRow].
Proof. reflexivity. Qed.

(* ================================================================== *)
(** * Field parser *)
(* ================================================================== *)

(** C8: a digits-then-blank prefix should always be split off.  The
    pattern's last group is a run of [.], which stops at a line terminator,
    so a cell whose course name continues on a second line is not split: the
    category number comes back empty and the course keeps the digits. *)
Theorem splitCatNoAndCourse_multiline :
  forall host : Host,
    splitCatNoAndCourse host (JSString ("101 Intro to" ++ LF ++ "Theology"))
    = ("", ("101 Intro to" ++ LF ++ "Theology")%string)
    /\ splitCatNoAndCourse host (JSString "101 Intro to Theology")
       = ("101", "Intro to Theology").
Proof.
  intros host. split; reflexivity.
Qed.

(* ================================================================== *)
(** * Session classifier: formatSession *)
(* ================================================================== *)

Lemma includes_semester (m : Month) :
  (if includes ["Jan"; "Feb"; "Mar"; "Apr"; "May"; "Jun"] (monthShort m)
   then "Sem II" else "Sem I") = semesterOf m.
Proof. destruct m; reflexivity. Qed.

(** C5, as the code has it: a value that makes a valid date gives
    "{Mon}-{YY} Sem II" for January to June and "{Mon}-{YY} Sem I" for every
    other month, YY being the last two characters of the year; a value that
    makes no valid date gives its own string when it is truthy and the empty
    string when it is falsy. *)
Theorem formatSession_cases :
  forall (host : Host) (value : Value),
    match newDate host value with
    | Some date =>
        formatSession host value
        = (monthShort (getMonth host date) ++ "-"
             ++ sliceLast 2 (ofZ (getFullYear host date)) ++ " "
             ++ semesterOf (getMonth host date))%string
    | None =>
        formatSession host value
        = if truthy value then ToString host value else ""
    end.
Proof.
  intros host value. unfold formatSession.
  destruct (newDate host value) as [date|].
  - rewrite includes_semester. reflexivity.
  - unfold orEmpty. destruct (truthy value); reflexivity.
Qed.

(** C5 as stated fails: [undefined] makes no valid date on any host, its
    string form is "undefined", and formatSession returns the empty string. *)
Lemma formatSession_undefined :
  exists value : Value,
    forall host : Host,
      newDate host value = None
      /\ ToString host value = "undefined"
      /\ formatSession host value = ""
      /\ formatSession host value <> ToString host value.
Proof.
  exists JSUndefined. intros host. repeat split. discriminate.
Qed.

Lemma formatSession_examples :
  formatSession UTC.host (JSString "2018-08-20") = "Aug-18 Sem I"
  /\ formatSession UTC.host (JSDate (Some 1547424000000%Z)) = "Jan-19 Sem II"
  /\ formatSession UTC.host (JSString "2018-07-04") = "Jul-18 Sem I"
  /\ formatSession UTC.host (JSString "Aug-18 Sem I") = "Aug-18 Sem I".
Proof. repeat split; vm_compute; reflexivity. Qed.

(* ================================================================== *)
(** * Strings: append, map, trim *)
(* ================================================================== *)

Lemma append_nil_r (s : string) : (s ++ "")%string = s.
Proof. induction s; simpl; congruence. Qed.

Lemma append_assoc (a b c : string) :
  ((a ++ b) ++ c)%string = (a ++ (b ++ c))%string.
Proof. induction a; simpl; congruence. Qed.

Lemma length_append (a b : string) :
  String.length (a ++ b) = String.length a + String.length b.
Proof. induction a; simpl; congruence. Qed.

Lemma map_append (f : ascii -> ascii) (a b : string) :
  Str.map f (a ++ b) = (Str.map f a ++ Str.map f b)%string.
Proof. induction a; simpl; congruence. Qed.

Lemma map_length (f : ascii -> ascii) (a : string) :
  String.length (Str.map f a) = String.length a.
Proof. induction a; simpl; congruence. Qed.

Lemma rev_onto_map (f : ascii -> ascii) (s acc : string) :
  rev_onto (Str.map f s) (Str.map f acc)
  = Str.map f (rev_onto s acc).
Proof.
  revert acc. induction s as [|c s IH]; intros acc; simpl; [reflexivity|].
  apply (IH (String c acc)).
Qed.

Lemma rev_map (f : ascii -> ascii) (s : string) :
  Str.rev (Str.map f s) = Str.map f (Str.rev s).
Proof. apply (rev_onto_map f s EmptyString). Qed.

Lemma dropWhile_map (p : ascii -> bool) (f : ascii -> ascii) (s : string) :
  (forall c, p (f c) = p c) ->
  dropWhile p (Str.map f s) = Str.map f (dropWhile p s).
Proof.
  intros Hp. induction s as [|c s IH]; simpl; [reflexivity|].
  rewrite Hp. destruct (p c); [exact IH | reflexivity].
Qed.

Lemma isSpace_lowerChar (c : ascii) : isSpace (lowerChar c) = isSpace c.
Proof.
  destruct c as [[] [] [] [] [] [] [] []]; vm_compute; reflexivity.
Qed.

Lemma trim_toLowerCase (s : string) :
  trim (toLowerCase s) = toLowerCase (trim s).
Proof.
  unfold trim, toLowerCase.
  rewrite (dropWhile_map isSpace lowerChar s isSpace_lowerChar).
  rewrite rev_map.
  rewrite (dropWhile_map isSpace lowerChar _ isSpace_lowerChar).
  apply rev_map.
Qed.

Lemma prefix_append (p s : string) : String.prefix p (p ++ s) = true.
Proof.
  induction p as [|c p IH]; simpl; [destruct s; reflexivity|].
  destruct (ascii_dec c c); [exact IH | congruence].
Qed.

Lemma prefix_split (p s : string) :
  String.prefix p s = true -> exists t, s = (p ++ t)%string.
Proof.
  revert s. induction p as [|c p IH]; intros s H.
  - exists s. reflexivity.
  - destruct s as [|d s]; simpl in H; [discriminate|].
    destruct (ascii_dec c d); [|discriminate]. subst d.
    destruct (IH s H) as [t ->]. exists t. reflexivity.
Qed.

Lemma map_split (f : ascii -> ascii) (s a b : string) :
  Str.map f s = (a ++ b)%string ->
  exists h t, s = (h ++ t)%string /\ Str.map f h = a /\ Str.map f t = b.
Proof.
  revert s. induction a as [|c a IH]; intros s H; simpl in H.
  - exists EmptyString, s. auto.
  - destruct s as [|d s]; simpl in H; [discriminate|].
    injection H as Hc Hs. destruct (IH s Hs) as (h & t & -> & Hh & Ht).
    exists (String d h), t. simpl. rewrite Hc, Hh. auto.
Qed.

Lemma isDigit_not_space (c : ascii) : isDigit c = true -> isSpace c = false.
Proof. destruct c as [[] [] [] [] [] [] [] []]; vm_compute; congruence. Qed.

Lemma isDigit_not_sign (c : ascii) :
  isDigit c = true -> Ascii.eqb c "-" = false /\ Ascii.eqb c "+" = false.
Proof. destruct c as [[] [] [] [] [] [] [] []]; vm_compute; auto; congruence. Qed.

(** The code's footer test is the specification's. *)
Lemma isFooter_iff (course : string) :
  isFooter course = true <-> FooterText course.
Proof.
  unfold isFooter, FooterText. rewrite trim_toLowerCase, existsb_exists.
  split.
  - intros (marker & Hin & Hp). unfold startsWith in Hp.
    apply prefix_split in Hp. destruct Hp as [t Ht].
    apply map_split in Ht. destruct Ht as (h & tl & Hs & Hh & _).
    exists marker, h, tl. auto.
  - intros (marker & h & tl & Hin & Hs & Hh).
    exists marker. split; [exact Hin|].
    unfold startsWith, toLowerCase. rewrite Hs, map_append.
    unfold toLowerCase in Hh. rewrite Hh. apply prefix_append.
Qed.

(* ================================================================== *)
(** * Regular expressions: what the matcher accepts *)
(* ================================================================== *)

Module RegExpFacts.

Lemma quant_In p lo hi n s n' s' :
  In (n', s') (quant p lo hi n s)
  <-> exists w, s = (w ++ s')%string /\ Str.forallb p w = true
                /\ lo <= String.length w /\ within hi (String.length w)
                /\ n' = n + String.length w.
Proof.
  revert lo hi n. induction s as [|c s IH]; intros lo hi n.
  - cbn [quant]. destruct lo; cbn.
    + split.
      * intros [H|[]]. inversion H; subst. exists "". cbn.
        repeat split; try lia. destruct hi; cbn; lia.
      * intros (w & Hw & _ & _ & _ & Hn). destruct w; [|discriminate].
        cbn in Hw, Hn. subst. left. f_equal. lia.
    + split; [intros []|].
      intros (w & Hw & _ & Hlo & _). destruct w; [cbn in Hlo; lia | discriminate].
  - cbn [quant].
    assert (Hstop : In (n', s') (if lo =? 0 then [(n, String c s)] else [])
                    <-> lo = 0 /\ n' = n /\ s' = String c s).
    { destruct lo; cbn; [|intuition discriminate].
      split; [intros [H|[]]; inversion H; auto | intros (_ & -> & ->); auto]. }
    assert (Hempty : (lo = 0 /\ n' = n /\ s' = String c s)
                     <-> exists w, String c s = (w ++ s')%string
                                   /\ Str.forallb p w = true
                                   /\ lo <= String.length w
                                   /\ within hi (String.length w)
                                   /\ n' = n + String.length w /\ w = "").
    { split.
      - intros (-> & -> & ->). exists "". cbn.
        repeat split; try lia. destruct hi; cbn; lia.
      - intros (w & Hw & _ & Hlo & _ & Hn & ->). cbn in *.
        repeat split; [lia | lia | congruence]. }
    destruct (p c && more hi) eqn:Hgo.
    + rewrite in_app_iff, IH, Hstop, Hempty.
      apply andb_true_iff in Hgo. destruct Hgo as [Hp Hmore].
      split.
      * intros [(w & Hw & Hall & Hlo & Hhi & Hn)|(w & Hw & Hall & Hlo & Hhi & Hn & _)].
        -- exists (String c w). cbn. rewrite Hp, Hall, Hw.
           repeat split; try lia.
           destruct hi as [[|h]|]; cbn in *; try discriminate; lia.
        -- exists w. auto.
      * intros (w & Hw & Hall & Hlo & Hhi & Hn).
        destruct w as [|d w].
        -- right. exists "". auto 10.
        -- left. cbn in Hw. inversion Hw; subst d. exists w.
           cbn in Hall, Hlo, Hhi, Hn. apply andb_true_iff in Hall.
           repeat split; try tauto; try lia.
           destruct hi as [[|h]|]; cbn in *; try discriminate; try lia; exact I.
    + rewrite Hstop, Hempty. split.
      * intros (w & H). exists w. tauto.
      * intros (w & Hw & Hall & Hlo & Hhi & Hn).
        exists w. repeat split; try assumption.
        destruct w as [|d w]; [reflexivity|]. exfalso.
        cbn in Hw. inversion Hw; subst d.
        cbn in Hall, Hhi. apply andb_true_iff in Hall.
        apply andb_false_iff in Hgo. destruct Hgo as [Hgo|Hgo]; [intuition congruence|].
        destruct hi as [[|h]|]; cbn in *; try discriminate. lia.
Qed.

(** The backtracking matcher finds exactly what the relation accepts. *)
Lemma run_Matches i r st st' : In st' (run i r st) <-> Matches i r st st'.
Proof.
  revert st st'. induction r as [c|p lo hi|r1 IH1 r2 IH2|r1 IH1 r2 IH2|n r IH| |];
    intros st st'; cbn [run Matches].
  - unfold Consumes. destruct st as [idx s caps], st' as [idx' s' caps'].
    cbn [rest endIndex captures]. destruct s as [|x s].
    + split; [intros [] | intros (x & (H & _) & _); discriminate].
    + destruct (Ascii.eqb _ _) eqn:E.
      * apply Ascii.eqb_eq in E. split.
        -- intros [H|[]]. inversion H; subst. exists x. cbn.
           repeat split; try lia. exact E.
        -- intros (y & (H & Hidx & Hcaps) & _). cbn in H, Hidx.
           inversion H; subst. left. f_equal. lia.
      * apply Ascii.eqb_neq in E. split; [intros []|].
        intros (y & (H & _) & Hc). cbn in H. inversion H; subst. contradiction.
  - rewrite in_map_iff. unfold Consumes.
    destruct st as [idx s caps], st' as [idx' s' caps'].
    cbn [rest endIndex captures]. split.
    + intros ([n' s''] & Heq & Hin). cbn [fst snd] in Heq.
      inversion Heq; subst. apply quant_In in Hin.
      destruct Hin as (w & Hw & Hall & Hlo & Hhi & Hn).
      exists w. cbn in Hn. subst. auto 10.
    + intros (w & (Hw & Hidx & Hcaps) & Hall & Hlo & Hhi).
      exists (String.length w, s'). cbn [fst snd]. split; [subst; reflexivity|].
      apply quant_In. exists w. auto 10.
  - rewrite in_flat_map. split; intros (mid & H1 & H2); exists mid;
      (split; [apply IH1; exact H1 | apply IH2; exact H2]).
  - rewrite in_app_iff, IH1, IH2. reflexivity.
  - rewrite in_map_iff. split.
    + intros (st0 & Heq & Hin). exists st0. split; [apply IH; exact Hin | auto].
    + intros (st0 & Hm & Heq). exists st0. split; [auto | apply IH; exact Hm].
  - destruct (endIndex st =? 0) eqn:E.
    + apply Nat.eqb_eq in E. cbn. intuition.
    + apply Nat.eqb_neq in E. cbn. intuition.
  - destruct (rest st); cbn; intuition; discriminate.
Qed.

Lemma Consumes_trans st mid st' a b :
  Consumes st mid a -> Consumes mid st' b -> Consumes st st' (a ++ b).
Proof.
  intros (Ha & Hia & Hca) (Hb & Hib & Hcb). unfold Consumes.
  rewrite Ha, Hb, append_assoc, Hib, Hia, Hcb, Hca, length_append.
  repeat split. lia.
Qed.

Lemma Consumes_here st w s' :
  rest st = (w ++ s')%string ->
  Consumes st (mkState (endIndex st + String.length w) s' (captures st)) w.
Proof. intros H. unfold Consumes. cbn. auto. Qed.

Lemma Matches_lit i w st st' :
  Matches i (lit w) st st'
  <-> exists x, Consumes st st' x
                /\ Str.map (canonicalize i) x = Str.map (canonicalize i) w.
Proof.
  revert st. induction w as [|c w IH]; intros st.
  - cbn [lit Matches]. split.
    + intros (x & Hc & _ & _ & Hhi). cbn in Hhi.
      destruct x; [|cbn in Hhi; lia]. exists "". auto.
    + intros (x & Hc & Hx). destruct x; [|discriminate].
      exists "". cbn. auto.
  - destruct w as [|d w].
    + cbn [lit Matches]. split.
      * intros (x & Hc & Hx). exists (String x ""). cbn. rewrite Hx. auto.
      * intros (x & Hc & Hx). destruct x as [|y [|z x]]; try discriminate.
        cbn in Hx. inversion Hx. exists y. auto.
    + change (lit (String c (String d w)))
        with (Seq (Char c) (lit (String d w))).
      cbn [Matches]. split.
      * intros (mid & (x & Hc & Hx) & Htail).
        apply IH in Htail. destruct Htail as (t & Ht & Hmap).
        exists (String x t). split.
        -- exact (Consumes_trans _ _ _ _ _ Hc Ht).
        -- cbn [Str.map]. rewrite Hx, Hmap. reflexivity.
      * intros (x & Hc & Hx). destruct x as [|y t]; [discriminate|].
        cbn [Str.map] in Hx. inversion Hx as [[Hy Ht]].
        destruct Hc as (Hrest & Hidx & Hcaps). cbn in Hrest, Hidx.
        exists (mkState (S (endIndex st)) (t ++ rest st') (captures st)).
        split.
        -- exists y. unfold Consumes. cbn. repeat split; try assumption; lia.
        -- apply IH. exists t. unfold Consumes. cbn.
           repeat split; try assumption; try congruence; lia.
Qed.

Lemma substring_prefix (w s : string) :
  substring 0 (String.length w) (w ++ s) = w.
Proof.
  induction w as [|c w IH]; cbn; [destruct s; reflexivity|].
  rewrite IH. reflexivity.
Qed.

End RegExpFacts.

Module SessionPatterns.
Import RegExpFacts.

Lemma semIRegex_pattern : semIRegex = sessionPattern firstHalfMonths "I".
Proof. reflexivity. Qed.

Lemma semIIRegex_pattern : semIIRegex = sessionPattern secondHalfMonths "II".
Proof. reflexivity. Qed.

Lemma Matches_alts i ws st st' :
  ws <> [] ->
  (Matches i (alts ws) st st' <-> exists w, In w ws /\ Matches i (lit w) st st').
Proof.
  induction ws as [|w ws IH]; intros Hne; [congruence|].
  destruct ws as [|w' ws].
  - cbn [alts]. split.
    + intros H. exists w. split; [left; reflexivity | exact H].
    + intros (x & [->|[]] & H). exact H.
  - change (alts (w :: w' :: ws)) with (Alt (lit w) (alts (w' :: ws))).
    cbn [Matches]. rewrite IH by discriminate. split.
    + intros [H|(x & Hx & H)].
      * exists w. split; [left; reflexivity | exact H].
      * exists x. split; [right; exact Hx | exact H].
    + intros (x & [->|Hx] & H); [left; exact H|].
      right. exists x. split; assumption.
Qed.

Lemma upperChar_dash (x : ascii) : upperChar x = "-"%char -> x = "-"%char.
Proof.
  destruct x as [[] [] [] [] [] [] [] []]; vm_compute; congruence.
Qed.

(** What a match of a session pattern looks like. *)
Lemma session_sound months half st st' :
  months <> [] ->
  Matches true (sessionPattern months half) st st' ->
  exists mon yy gap1 sem gap2 hf,
    rest st = (mon ++ "-" ++ yy ++ gap1 ++ sem ++ gap2 ++ hf ++ rest st')%string
    /\ (exists m, In m months /\ sameLetters mon m)
    /\ Str.forallb isDigit yy = true
    /\ 2 <= String.length yy <= 4
    /\ Str.forallb isSpace gap1 = true
    /\ 1 <= String.length gap1
    /\ sameLetters sem "Sem"
    /\ Str.forallb isSpace gap2 = true
    /\ sameLetters hf half
    /\ group 2 st' = yy.
Proof.
  intros Hne H. unfold sessionPattern in H. cbn [Matches] in H.
  destruct H as (m1 & (s0 & Hmon & E1) & m2 & (x & Hdash & Hx)
                 & m3 & (s2 & (yy & Hyy & Hd & Hlo & Hhi) & E3)
                 & m4 & (gap1 & Hg1 & Hs1 & Hlo1 & _)
                 & m5 & Hsem & m6 & (gap2 & Hg2 & Hs2 & _) & Hhalf).
  apply (Matches_alts true months st s0 Hne) in Hmon.
  destruct Hmon as (m & Hm & Hmon).
  apply Matches_lit in Hmon. destruct Hmon as (mon & Hcm & Hmon).
  apply Matches_lit in Hsem. destruct Hsem as (sem & Hcs & Hsem).
  apply Matches_lit in Hhalf. destruct Hhalf as (hf & Hch & Hhf).
  cbn in Hx. apply upperChar_dash in Hx. subst x.
  exists mon, yy, gap1, sem, gap2, hf.
  destruct Hcm as (R0 & I0 & C0). destruct Hdash as (R1 & I1 & C1).
  destruct Hyy as (R2 & I2 & C2). destruct Hg1 as (R3 & I3 & C3).
  destruct Hcs as (R4 & I4 & C4). destruct Hg2 as (R5 & I5 & C5).
  destruct Hch as (R6 & I6 & C6).
  subst m1 m3. cbn [rest endIndex captures] in *.
  split.
  { rewrite R0, R1, R2, R3, R4, R5, R6. reflexivity. }
  split; [exists m; split; [exact Hm | exact Hmon]|].
  split; [exact Hd|]. split; [cbn in Hhi; lia|].
  split; [exact Hs1|]. split; [exact Hlo1|].
  split; [exact Hsem|]. split; [exact Hs2|]. split; [exact Hhf|].
  unfold group. rewrite C6, C5, C4, C3. cbn [assocGroup Nat.eqb].
  rewrite I2, R2. replace (endIndex m2 + String.length yy - endIndex m2)
    with (String.length yy) by lia.
  apply substring_prefix.
Qed.

(** Every text of that form is matched. *)
Lemma session_complete months half st mon yy gap1 sem gap2 hf post :
  months <> [] ->
  rest st = (mon ++ "-" ++ yy ++ gap1 ++ sem ++ gap2 ++ hf ++ post)%string ->
  (exists m, In m months /\ sameLetters mon m) ->
  Str.forallb isDigit yy = true ->
  2 <= String.length yy <= 4 ->
  Str.forallb isSpace gap1 = true ->
  1 <= String.length gap1 ->
  sameLetters sem "Sem" ->
  Str.forallb isSpace gap2 = true ->
  sameLetters hf half ->
  exists st', Matches true (sessionPattern months half) st st'.
Proof.
  intros Hne Hrest (m & Hm & Hmon) Hd Hlen Hs1 Hlen1 Hsem Hs2 Hhf.
  unfold sessionPattern. cbn [Matches].
  set (t1 := ("-" ++ yy ++ gap1 ++ sem ++ gap2 ++ hf ++ post)%string) in *.
  set (t2 := (yy ++ gap1 ++ sem ++ gap2 ++ hf ++ post)%string) in *.
  set (t3 := (gap1 ++ sem ++ gap2 ++ hf ++ post)%string) in *.
  set (t4 := (sem ++ gap2 ++ hf ++ post)%string) in *.
  set (t5 := (gap2 ++ hf ++ post)%string) in *.
  set (t6 := (hf ++ post)%string) in *.
  set (s0 := mkState (endIndex st + String.length mon) t1 (captures st)).
  set (m1 := mkState (endIndex s0) (rest s0)
               ((1, substring 0 (endIndex s0 - endIndex st) (rest st))
                  :: captures s0)).
  set (m2 := mkState (endIndex m1 + 1) t2 (captures m1)).
  set (s2 := mkState (endIndex m2 + String.length yy) t3 (captures m2)).
  set (m3 := mkState (endIndex s2) (rest s2)
               ((2, substring 0 (endIndex s2 - endIndex m2) (rest m2))
                  :: captures s2)).
  set (m4 := mkState (endIndex m3 + String.length gap1) t4 (captures m3)).
  set (m5 := mkState (endIndex m4 + String.length sem) t5 (captures m4)).
  set (m6 := mkState (endIndex m5 + String.length gap2) t6 (captures m5)).
  set (m7 := mkState (endIndex m6 + String.length hf) post (captures m6)).
  exists m7, m1. split.
  { exists s0. split; [|reflexivity].
    apply (Matches_alts true months st s0 Hne). exists m. split; [exact Hm|].
    apply Matches_lit. exists mon. split; [|exact Hmon].
    apply Consumes_here. exact Hrest. }
  exists m2. split.
  { exists "-"%char. split; [|reflexivity].
    exact (Consumes_here m1 "-" t2 eq_refl). }
  exists m3. split.
  { exists s2. split; [|reflexivity].
    exists yy. split; [exact (Consumes_here m2 yy t3 eq_refl)|].
    split; [exact Hd|]. cbn. lia. }
  exists m4. split.
  { exists gap1. split; [exact (Consumes_here m3 gap1 t4 eq_refl)|].
    split; [exact Hs1|]. cbn. lia. }
  exists m5. split.
  { apply Matches_lit. exists sem. split; [|exact Hsem].
    exact (Consumes_here m4 sem t5 eq_refl). }
  exists m6. split.
  { exists gap2. split; [exact (Consumes_here m5 gap2 t6 eq_refl)|].
    split; [exact Hs2|]. cbn. lia. }
  apply Matches_lit. exists hf. split; [|exact Hhf].
  exact (Consumes_here m6 hf post eq_refl).
Qed.

End SessionPatterns.

Module SearchFacts.
Import RegExpFacts.

Lemma search_first i r pre : forall idx s s' st' others,
  s = (pre ++ s')%string ->
  run i r (mkState (idx + String.length pre) s' []) = st' :: others ->
  (forall pre1 s1, s = (pre1 ++ s1)%string ->
                   String.length pre1 < String.length pre ->
                   run i r (mkState (idx + String.length pre1) s1 []) = []) ->
  search i r idx s = Some st'.
Proof.
  induction pre as [|c pre IH]; intros idx s s' st' others Hs Hrun Hmin.
  - cbn in Hs, Hrun. subst s'. rewrite Nat.add_0_r in Hrun.
    destruct s; cbn [search]; rewrite Hrun; reflexivity.
  - cbn in Hs. subst s. cbn [search].
    assert (E0 := Hmin "" (String c (pre ++ s')) eq_refl).
    cbn [String.length] in E0. rewrite Nat.add_0_r in E0.
    rewrite E0 by lia.
    apply (IH (S idx) _ s' st' others eq_refl).
    + cbn [String.length] in Hrun. rewrite Nat.add_succ_r in Hrun. exact Hrun.
    + intros pre1 s1 Hs1 Hlt.
      specialize (Hmin (String c pre1) s1). cbn in Hmin.
      rewrite Nat.add_succ_r in Hmin. apply Hmin; [rewrite Hs1; reflexivity | lia].
Qed.

Lemma search_Some i r : forall s idx st',
  search i r idx s = Some st' ->
  exists pre s' others,
    s = (pre ++ s')%string
    /\ run i r (mkState (idx + String.length pre) s' []) = st' :: others
    /\ forall pre1 s1, s = (pre1 ++ s1)%string ->
                       String.length pre1 < String.length pre ->
                       run i r (mkState (idx + String.length pre1) s1 []) = [].
Proof.
  induction s as [|c s IH]; intros idx st'; cbn [search].
  - destruct (run i r (mkState idx "" [])) as [|st1 others] eqn:E; [discriminate|].
    intros H; inversion H; subst. exists "", "", others. cbn.
    rewrite Nat.add_0_r. repeat split; [exact E|]. intros; lia.
  - destruct (run i r (mkState idx (String c s) [])) as [|st1 others] eqn:E.
    + intros H. destruct (IH _ _ H) as (pre & s' & others & Hs & Hrun & Hmin).
      exists (String c pre), s', others. cbn. rewrite Nat.add_succ_r.
      repeat split; [rewrite Hs; reflexivity | exact Hrun|].
      intros pre1 s1 Hs1 Hlt. destruct pre1 as [|d pre1].
      * cbn in Hs1. subst s1. cbn. rewrite Nat.add_0_r. exact E.
      * cbn in Hs1. inversion Hs1; subst d. cbn. rewrite Nat.add_succ_r.
        apply Hmin; [assumption | cbn in Hlt; lia].
    + intros H; inversion H; subst. exists "", (String c s), others. cbn.
      rewrite Nat.add_0_r. repeat split; [exact E|]. intros; lia.
Qed.

Lemma search_None i r : forall s idx,
  search i r idx s = None ->
  forall pre s', s = (pre ++ s')%string ->
                 run i r (mkState (idx + String.length pre) s' []) = [].
Proof.
  induction s as [|c s IH]; intros idx; cbn [search].
  - destruct (run i r (mkState idx "" [])) eqn:E; [|discriminate].
    intros _ pre s' Hs. destruct pre; [|discriminate]. cbn in Hs. subst s'.
    cbn. rewrite Nat.add_0_r. exact E.
  - destruct (run i r (mkState idx (String c s) [])) eqn:E; [|discriminate].
    intros H pre s' Hs. destruct pre as [|d pre].
    + cbn in Hs. subst s'. cbn. rewrite Nat.add_0_r. exact E.
    + cbn in Hs. inversion Hs; subst d. cbn. rewrite Nat.add_succ_r.
      apply (IH _ H). assumption.
Qed.

End SearchFacts.

(* ================================================================== *)
(** * Session classifier: getAcademicYear *)
(* ================================================================== *)

Module Classifier.
Import RegExpFacts SessionPatterns SearchFacts.

Lemma append_same_length (a b x y : string) :
  (a ++ x)%string = (b ++ y)%string -> String.length a = String.length b ->
  a = b /\ x = y.
Proof.
  revert b. induction a as [|c a IH]; intros [|d b] H Hlen; cbn in *;
    try discriminate; [auto|].
  inversion H; subst d. destruct (IH b) as [-> ->]; [assumption | lia | auto].
Qed.

Lemma isSpace_not_digit (c : ascii) : isSpace c = true -> isDigit c = false.
Proof. destruct c as [[] [] [] [] [] [] [] []]; vm_compute; congruence. Qed.

(** A run of digits that stops at white space is determined by the text. *)
Lemma digits_run_unique (a b g h x y : string) :
  Str.forallb isDigit a = true -> Str.forallb isDigit b = true ->
  Str.forallb isSpace g = true -> Str.forallb isSpace h = true ->
  1 <= String.length g -> 1 <= String.length h ->
  (a ++ g ++ x)%string = (b ++ h ++ y)%string -> a = b.
Proof.
  intros Ha Hb Hg Hh Hlg Hlh. revert b Hb.
  induction a as [|c a IH]; intros [|d b] Hb H; cbn in *.
  - reflexivity.
  - destruct g as [|e g]; [cbn in Hlg; lia|]. cbn in H, Hg.
    inversion H; subst e. apply andb_true_iff in Hg, Hb.
    rewrite (isSpace_not_digit d (proj1 Hg)) in Hb. intuition discriminate.
  - destruct h as [|e h]; [cbn in Hlh; lia|]. cbn in H, Hh.
    inversion H; subst e. apply andb_true_iff in Hh, Ha.
    rewrite (isSpace_not_digit c (proj1 Hh)) in Ha. intuition discriminate.
  - inversion H; subst d. apply andb_true_iff in Ha, Hb.
    f_equal. apply IH; tauto.
Qed.

Lemma sameLetters_length (a b : string) :
  sameLetters a b -> String.length a = String.length b.
Proof.
  unfold sameLetters. intros H.
  rewrite <- (map_length upperChar a), H. apply map_length.
Qed.

Section OnePattern.
Variables (months : list string) (half : string).
Hypothesis months_some : months <> [].
Hypothesis months_three : Forall (fun m => String.length m = 3) months.

(** A match of the pattern at an index is a place where the session
    text stands. *)
Lemma run_SessionAt label pre s' st' :
  label = (pre ++ s')%string ->
  In st' (run true (sessionPattern months half) (mkState (String.length pre) s' [])) ->
  SessionAt months half label pre (group 2 st').
Proof.
  intros Hlabel Hin. apply run_Matches in Hin.
  apply (session_sound months half _ _ months_some) in Hin.
  destruct Hin as (mon & yy & gap1 & sem & gap2 & hf & Hrest & Hm & Hd & Hlen
                   & Hs1 & Hl1 & Hsem & Hs2 & Hhf & Hgroup).
  cbn [rest] in Hrest. rewrite Hgroup.
  exists mon, gap1, sem, gap2, hf, (rest st').
  rewrite Hlabel, Hrest. auto 12.
Qed.

Lemma SessionAt_run label pre yy :
  SessionAt months half label pre yy ->
  exists s' st' others,
    label = (pre ++ s')%string
    /\ run true (sessionPattern months half) (mkState (String.length pre) s' []) = st' :: others.
Proof.
  intros (mon & gap1 & sem & gap2 & hf & post & Hlabel & Hm & Hd & Hlen
          & Hs1 & Hl1 & Hsem & Hs2 & Hhf).
  destruct (session_complete months half
              (mkState (String.length pre)
                       (mon ++ "-" ++ yy ++ gap1 ++ sem ++ gap2 ++ hf ++ post) [])
              mon yy gap1 sem gap2 hf post months_some eq_refl
              Hm Hd Hlen Hs1 Hl1 Hsem Hs2 Hhf) as [st' Hst'].
  apply run_Matches in Hst'.
  destruct (run true (sessionPattern months half) _) as [|st1 others] eqn:E; [destruct Hst'|].
  eexists _, st1, others. split; [exact Hlabel | exact E].
Qed.

(** At one place the digit group is determined. *)
Lemma SessionAt_unique label pre yy yy' :
  SessionAt months half label pre yy ->
  SessionAt months half label pre yy' -> yy = yy'.
Proof.
  intros (mon & gap1 & sem & gap2 & hf & post & Hlabel & (m & Hm & Hmon) & Hd
          & _ & Hs1 & Hl1 & _)
         (mon' & gap1' & sem' & gap2' & hf' & post' & Hlabel' & (m' & Hm' & Hmon')
          & Hd' & _ & Hs1' & Hl1' & _).
  rewrite Hlabel in Hlabel'.
  apply append_same_length in Hlabel'; [|reflexivity].
  destruct Hlabel' as [_ H].
  rewrite Forall_forall in months_three.
  apply append_same_length in H.
  - destruct H as [_ H]. cbn in H. inversion H as [H'].
    exact (digits_run_unique yy yy' gap1 gap1' _ _ Hd Hd' Hs1 Hs1' Hl1 Hl1' H').
  - rewrite (sameLetters_length _ _ Hmon), (sameLetters_length _ _ Hmon').
    rewrite (months_three m Hm), (months_three m' Hm'). reflexivity.
Qed.

(** [exec] reports the first place where the session text stands. *)
Lemma exec_first label pre yy :
  FirstSessionAt months half label pre yy ->
  exists m, exec true (sessionPattern months half) label = Some m /\ group 2 m = yy.
Proof.
  intros [Hat Hmin].
  destruct (SessionAt_run label pre yy Hat) as (s' & st' & others & Hlabel & Hrun).
  exists st'. split.
  - unfold exec. apply (search_first true (sessionPattern months half) pre 0 label s' st' others Hlabel Hrun).
    intros pre1 s1 Hs1 Hlt. cbn [Nat.add].
    destruct (run true (sessionPattern months half) (mkState (String.length pre1) s1 []))
      as [|st1 others1] eqn:E; [reflexivity|].
    exfalso.
    assert (H1 : SessionAt months half label pre1 (group 2 st1)).
    { apply (run_SessionAt label pre1 s1 st1 Hs1). rewrite E. left. reflexivity. }
    specialize (Hmin _ _ H1). lia.
  - apply (SessionAt_unique label pre); [|exact Hat].
    apply (run_SessionAt label pre s' st' Hlabel). rewrite Hrun. left. reflexivity.
Qed.

Lemma exec_Some label m :
  exec true (sessionPattern months half) label = Some m ->
  exists pre, FirstSessionAt months half label pre (group 2 m).
Proof.
  unfold exec. intros H. apply search_Some in H.
  destruct H as (pre & s' & others & Hlabel & Hrun & Hmin).
  cbn [Nat.add] in Hrun, Hmin. exists pre. split.
  - apply (run_SessionAt label pre s' m Hlabel). rewrite Hrun. left. reflexivity.
  - intros pre' yy' Hat.
    destruct (Nat.le_gt_cases (String.length pre) (String.length pre'))
      as [Hle|Hlt]; [exact Hle|].
    destruct (SessionAt_run label pre' yy' Hat) as (s1 & st1 & o1 & Hs1 & Hrun1).
    rewrite (Hmin pre' s1 Hs1 Hlt) in Hrun1. discriminate.
Qed.

Lemma exec_nowhere label :
  SessionNowhere months half label -> exec true (sessionPattern months half) label = None.
Proof.
  intros Hno. destruct (exec true (sessionPattern months half) label) as [m|] eqn:E; [|reflexivity].
  destruct (exec_Some label m E) as (pre & Hat & _).
  exfalso. exact (Hno _ _ Hat).
Qed.

Lemma exec_None label :
  exec true (sessionPattern months half) label = None -> SessionNowhere months half label.
Proof.
  unfold exec. intros H pre yy Hat.
  destruct (SessionAt_run label pre yy Hat) as (s' & st' & others & Hlabel & Hrun).
  assert (E := search_None true (sessionPattern months half) label 0 H pre s' Hlabel).
  cbn [Nat.add] in E. rewrite E in Hrun. discriminate.
Qed.

End OnePattern.

End Classifier.

Lemma spanDigits_all (s : string) :
  Str.forallb isDigit s = true -> spanDigits s = (s, "").
Proof.
  induction s as [|c s IH]; cbn; [reflexivity|].
  intros H. apply andb_true_iff in H. destruct H as [Hc Hs].
  rewrite Hc, (IH Hs). reflexivity.
Qed.

Lemma parseInt_digits (yy : string) :
  Str.forallb isDigit yy = true -> 1 <= String.length yy ->
  parseInt yy = Some (digitsValue 0 yy).
Proof.
  destruct yy as [|c yy]; [cbn; lia|]. intros Hd _.
  assert (Hc : isDigit c = true) by (cbn in Hd; apply andb_true_iff in Hd; tauto).
  unfold parseInt, trimStart. cbn [dropWhile].
  rewrite (isDigit_not_space c Hc).
  destruct (isDigit_not_sign c Hc) as [-> ->]. cbn [orb].
  rewrite (spanDigits_all _ Hd). reflexivity.
Qed.

Lemma firstHalfMonths_three :
  Forall (fun m => String.length m = 3) firstHalfMonths.
Proof. repeat constructor. Qed.

Lemma secondHalfMonths_three :
  Forall (fun m => String.length m = 3) secondHalfMonths.
Proof. repeat constructor. Qed.

(** C1, as the code has it: the first pattern is tested first.  A label in
    which the first pattern stands is classified by the digits of its first
    occurrence, half I, whether or not the second pattern stands in it too;
    a label without the first pattern in which the second stands is
    classified by those digits decremented by one, written in decimal, half
    II; a label with neither is "Unknown" with no half; every label is one
    of the three.  The two examples of the specification are instances. *)
Theorem getAcademicYear_cases :
  forall label : string,
    (forall pre yy,
        FirstSessionAt firstHalfMonths "I" label pre yy ->
        getAcademicYear label = mkAcademicYear yy (Some SemI))
    /\ (forall pre yy,
           SessionNowhere firstHalfMonths "I" label ->
           FirstSessionAt secondHalfMonths "II" label pre yy ->
           getAcademicYear label
           = mkAcademicYear (ofZ (digitsValue 0 yy - 1)) (Some SemII))
    /\ (SessionNowhere firstHalfMonths "I" label ->
        SessionNowhere secondHalfMonths "II" label ->
        getAcademicYear label = mkAcademicYear "Unknown" None)
    /\ ((exists pre yy, FirstSessionAt firstHalfMonths "I" label pre yy)
        \/ (SessionNowhere firstHalfMonths "I" label
            /\ exists pre yy, FirstSessionAt secondHalfMonths "II" label pre yy)
        \/ (SessionNowhere firstHalfMonths "I" label
            /\ SessionNowhere secondHalfMonths "II" label))
    /\ getAcademicYear "Aug-18 Sem I" = mkAcademicYear "18" (Some SemI)
    /\ getAcademicYear "Jan-18 Sem II" = mkAcademicYear "17" (Some SemII).
Proof.
  intros label.
  assert (HI : firstHalfMonths <> []) by discriminate.
  assert (HII : secondHalfMonths <> []) by discriminate.
  repeat split.
  - intros pre yy Hfirst. unfold getAcademicYear. rewrite SessionPatterns.semIRegex_pattern.
    destruct (Classifier.exec_first _ "I" HI firstHalfMonths_three label pre yy Hfirst)
      as (m & -> & ->). reflexivity.
  - intros pre yy Hno Hfirst. unfold getAcademicYear.
    rewrite SessionPatterns.semIRegex_pattern, SessionPatterns.semIIRegex_pattern.
    rewrite (Classifier.exec_nowhere _ "I" HI label Hno).
    destruct (Classifier.exec_first _ "II" HII secondHalfMonths_three label pre yy Hfirst)
      as (m & -> & ->).
    destruct Hfirst as [(mon & gap1 & sem & gap2 & hf & post & _ & _ & Hd & Hlen & _) _].
    unfold adjustedYear. rewrite (parseInt_digits yy Hd) by lia. reflexivity.
  - intros HnoI HnoII. unfold getAcademicYear.
    rewrite SessionPatterns.semIRegex_pattern, SessionPatterns.semIIRegex_pattern.
    rewrite (Classifier.exec_nowhere _ "I" HI label HnoI).
    rewrite (Classifier.exec_nowhere _ "II" HII label HnoII). reflexivity.
  - destruct (exec true (sessionPattern firstHalfMonths "I") label) as [m|] eqn:EI.
    + left. destruct (Classifier.exec_Some _ "I" HI label m EI) as [pre H].
      exists pre, (group 2 m). exact H.
    + right. apply (Classifier.exec_None _ "I" HI) in EI.
      destruct (exec true (sessionPattern secondHalfMonths "II") label) as [m|] eqn:EII.
      * left. split; [exact EI|].
        destruct (Classifier.exec_Some _ "II" HII label m EII) as [pre H].
        exists pre, (group 2 m). exact H.
      * right. split; [exact EI|]. apply (Classifier.exec_None _ "II" HII). exact EII.
Qed.

(* ================================================================== *)
(** * Field parser: the general case *)
(* ================================================================== *)

Module FieldParser.
Import RegExpFacts.

(** The greedy alternative comes first: the whole run of the class. *)
Lemma quant_greedy p lo n a b :
  Str.forallb p a = true -> lo <= String.length a ->
  match b with String c _ => p c = false | EmptyString => True end ->
  exists others,
    quant p lo None n (a ++ b) = (n + String.length a, b) :: others.
Proof.
  revert lo n. induction a as [|c a IH]; intros lo n Ha Hlo Hb.
  - cbn in Hlo. assert (lo = 0) by lia. subst lo. cbn [append String.length].
    rewrite Nat.add_0_r. destruct b as [|c b]; cbn [quant Nat.eqb].
    + exists []. reflexivity.
    + rewrite Hb. cbn. exists []. reflexivity.
  - cbn in Ha. apply andb_true_iff in Ha. destruct Ha as [Hc Ha].
    cbn [append quant]. rewrite Hc. cbn [andb more less].
    destruct (IH (pred lo) (S n) Ha) as [others E]; [cbn in Hlo; lia | exact Hb|].
    rewrite E. cbn [String.length]. rewrite Nat.add_succ_r.
    eexists. reflexivity.
Qed.

Lemma catNoRegex_greedy (d w r : string) :
  Str.forallb isDigit d = true -> 1 <= String.length d ->
  Str.forallb isSpace w = true -> 1 <= String.length w ->
  match r with String c _ => isSpace c = false | EmptyString => True end ->
  Str.forallb isDot r = true ->
  exists m,
    exec false catNoRegex (d ++ w ++ r) = Some m
    /\ group 1 m = d /\ group 2 m = r.
Proof.
  intros Hd Hld Hw Hlw Hr Hdot.
  assert (Hwd : match (w ++ r)%string with
                | String c _ => isDigit c = false | EmptyString => True end).
  { destruct w as [|c w]; [cbn in Hlw; lia|]. cbn in Hw |- *.
    apply andb_true_iff in Hw. apply Classifier.isSpace_not_digit. tauto. }
  destruct (quant_greedy isDigit 1 0 d (w ++ r) Hd Hld Hwd) as [o1 E1].
  destruct (quant_greedy isSpace 1 0 w r Hw Hlw Hr) as [o2 E2].
  destruct (quant_greedy isDot 0 0 r "" Hdot (Nat.le_0_l _) I) as [o3 E3].
  rewrite append_nil_r in E3.
  assert (Hrun : exists m others,
             run false catNoRegex (mkState 0 (d ++ w ++ r) []) = m :: others
             /\ group 1 m = d /\ group 2 m = r).
  { unfold catNoRegex. cbn [run endIndex rest captures Nat.eqb flat_map].
    rewrite E1. cbn [List.map flat_map fst snd endIndex rest captures app].
    rewrite E2. cbn [List.map flat_map fst snd endIndex rest captures app].
    rewrite E3. cbn [List.map flat_map fst snd endIndex rest captures app].
    eexists _, _. split; [reflexivity|].
    unfold group. cbn [captures assocGroup Nat.eqb endIndex rest Nat.add].
    split.
    - rewrite Nat.sub_0_r. apply substring_prefix.
    - replace (String.length d + String.length w + String.length r
               - (String.length d + String.length w))
        with (String.length r) by lia.
      rewrite <- (append_nil_r r) at 2. apply substring_prefix. }
  destruct Hrun as (m & others & Hrun & H1 & H2).
  exists m. split; [|split; assumption].
  unfold exec. apply (SearchFacts.search_first false catNoRegex "" 0 _ _ m others eq_refl).
  - exact Hrun.
  - intros pre1 s1 _ Hlt. cbn in Hlt. lia.
Qed.

(** Whatever the pattern matches has that form. *)
Lemma catNoRegex_sound (t : string) (m : MatchState) :
  exec false catNoRegex t = Some m ->
  exists d w r,
    t = (d ++ w ++ r)%string
    /\ Str.forallb isDigit d = true /\ 1 <= String.length d
    /\ Str.forallb isSpace w = true /\ 1 <= String.length w
    /\ Str.forallb isDot r = true.
Proof.
  unfold exec. intros H. apply SearchFacts.search_Some in H.
  destruct H as (pre & s' & others & Ht & Hrun & _).
  assert (Hin : In m (run false catNoRegex (mkState (0 + String.length pre) s' [])))
    by (rewrite Hrun; left; reflexivity).
  apply run_Matches in Hin. unfold catNoRegex in Hin. cbn [Matches] in Hin.
  destruct Hin as (m0 & (Hidx & E0) & m1 & (s1 & (d & Hcd & Hd & Hld & _) & E1)
                   & m2 & (w & Hcw & Hw & Hlw & _)
                   & m3 & (s3 & (r & Hcr & Hdot & _) & E3) & Hend & E4).
  subst m0 m1 m3. unfold Consumes in *. cbn [endIndex rest captures] in *.
  destruct pre; [|cbn in Hidx; lia]. cbn in Ht. subst s'.
  destruct Hcd as (R1 & _). destruct Hcw as (R2 & _). destruct Hcr as (R3 & _).
  exists d, w, r.
  rewrite R1, R2, R3, Hend, append_nil_r. auto 10.
Qed.

End FieldParser.

(** What the field parser returns, case by case: a prefix of digits and
    white space before a one-line remainder is split off; a text of any
    other form comes back whole, with no category number. *)
Lemma splitCatNoAndCourse_cases (host : Host) (value : Value) :
  let strVal := trim (ToString host (orEmpty value)) in
  (forall d w r,
      strVal = (d ++ w ++ r)%string ->
      Str.forallb isDigit d = true -> 1 <= String.length d ->
      Str.forallb isSpace w = true -> 1 <= String.length w ->
      match r with String c _ => isSpace c = false | EmptyString => True end ->
      Str.forallb isDot r = true ->
      splitCatNoAndCourse host value = (d, r))
  /\ ((forall d w r,
          strVal = (d ++ w ++ r)%string ->
          Str.forallb isDigit d = true -> 1 <= String.length d ->
          Str.forallb isSpace w = true -> 1 <= String.length w ->
          Str.forallb isDot r = false) ->
      splitCatNoAndCourse host value = ("", strVal)).
Proof.
  intros strVal. unfold splitCatNoAndCourse. fold strVal. split.
  - intros d w r Ht Hd Hld Hw Hlw Hr Hdot.
    destruct (FieldParser.catNoRegex_greedy d w r Hd Hld Hw Hlw Hr Hdot)
      as (m & Hm & H1 & H2).
    rewrite Ht, Hm, H1, H2. reflexivity.
  - intros Hnone. destruct (exec false catNoRegex strVal) as [m|] eqn:E;
      [|reflexivity].
    exfalso. apply FieldParser.catNoRegex_sound in E.
    destruct E as (d & w & r & Ht & Hd & Hld & Hw & Hlw & Hdot).
    rewrite (Hnone d w r Ht Hd Hld Hw Hlw) in Hdot. discriminate.
Qed.

(* ================================================================== *)
(** * Objects: lookup after assignment *)
(* ================================================================== *)

Section ObjectFacts.
Context {V : Type}.
Implicit Types (o : JSObject.t V) (k : string) (v : V).

Lemma getOwn_set_same o k v : JSObject.getOwn k (JSObject.set k v o) = Some v.
Proof.
  induction o as [|[k' v'] o IH]; simpl.
  - rewrite String.eqb_refl. reflexivity.
  - destruct (String.eqb k k') eqn:E; simpl; rewrite E; [reflexivity | exact IH].
Qed.

Lemma getOwn_set_other o k k' v :
  k' <> k -> JSObject.getOwn k' (JSObject.set k v o) = JSObject.getOwn k' o.
Proof.
  intros Hne. induction o as [|[k0 v0] o IH]; simpl.
  - apply String.eqb_neq in Hne. rewrite Hne. reflexivity.
  - destruct (String.eqb k k0) eqn:E; simpl.
    + apply String.eqb_eq in E. subst k0.
      apply String.eqb_neq in Hne. rewrite Hne. reflexivity.
    + rewrite IH. reflexivity.
Qed.

Lemma getOwn_In o k v : JSObject.getOwn k o = Some v -> In (k, v) o.
Proof.
  induction o as [|[k' v'] o IH]; simpl; [discriminate|].
  destruct (String.eqb k k') eqn:E.
  - apply String.eqb_eq in E. intros [= ->]. subst. left. reflexivity.
  - intros H. right. exact (IH H).
Qed.

Lemma getOwn_None_notin o k :
  JSObject.getOwn k o = None <-> ~ In k (List.map fst o).
Proof.
  induction o as [|[k' v'] o IH]; simpl; [tauto|].
  destruct (String.eqb k k') eqn:E.
  - apply String.eqb_eq in E. subst. split; [discriminate | intros H; exfalso; auto].
  - apply String.eqb_neq in E. rewrite IH. intuition congruence.
Qed.

Lemma In_getOwn o k v :
  NoDup (List.map fst o) -> In (k, v) o -> JSObject.getOwn k o = Some v.
Proof.
  induction o as [|[k' v'] o IH]; simpl; [tauto|].
  intros Hnd [H|H].
  - injection H as -> ->. rewrite String.eqb_refl. reflexivity.
  - inversion Hnd as [|? ? Hnotin Hnd']; subst.
    destruct (String.eqb k k') eqn:E.
    + apply String.eqb_eq in E. subst k'. exfalso. apply Hnotin.
      apply (in_map fst) in H. exact H.
    + auto.
Qed.

Lemma set_Forall (P : string * V -> Prop) o k v :
  Forall P o -> (forall k', P (k', v)) -> Forall P (JSObject.set k v o).
Proof.
  intros Ho Hv. induction Ho as [|[k' v'] o Hx Ho IH]; simpl.
  - constructor; [apply Hv | constructor].
  - destruct (String.eqb k k'); constructor; auto.
Qed.

Lemma set_keys_In o k v k' :
  In k' (List.map fst (JSObject.set k v o)) <-> k' = k \/ In k' (List.map fst o).
Proof.
  induction o as [|[k0 v0] o IH]; simpl.
  - intuition.
  - destruct (String.eqb k k0) eqn:E; simpl.
    + apply String.eqb_eq in E. subst. intuition.
    + rewrite IH. intuition.
Qed.

Lemma set_NoDup o k v :
  NoDup (List.map fst o) -> NoDup (List.map fst (JSObject.set k v o)).
Proof.
  induction o as [|[k0 v0] o IH]; simpl; intros Hnd.
  - constructor; [intros [] | constructor].
  - inversion Hnd as [|? ? Hnotin Hnd']; subst.
    destruct (String.eqb k k0) eqn:E; simpl.
    + constructor; assumption.
    + constructor; [|auto].
      rewrite set_keys_In. intros [->|H]; [|auto].
      rewrite String.eqb_refl in E. discriminate.
Qed.

End ObjectFacts.

(* ================================================================== *)
(** * Record grouper *)
(* ================================================================== *)

Section Grouper.
Variable host : Host.

Lemma groupStep_blank g cur row :
  isTrulyBlankRow host row = true ->
  groupStep host (g, cur) row = Some (g, None).
Proof. intros H. unfold groupStep. rewrite H. reflexivity. Qed.

Lemma groupFrom_app st rows1 rows2 :
  groupFrom host st (rows1 ++ rows2)
  = match groupFrom host st rows1 with
    | Some st' => groupFrom host st' rows2
    | None => None
    end.
Proof.
  revert st. induction rows1 as [|r rows1 IH]; intros st; cbn [groupFrom app];
    [reflexivity|].
  destruct (groupStep host st r); [apply IH | reflexivity].
Qed.


(** What one row that is not blank does to the state. *)
Lemma groupStep_filed g cur row :
  isTrulyBlankRow host row = false ->
  let key := sessionKeyFor host cur row in
  includes JSObject.inherited key = false ->
  exists g',
    groupStep host (g, cur) row = Some (g', Some key)
    /\ JSObject.getOwn key g'
       = Some (bucketOf key g
                 ++ (if isFooter (Course row) then [] else [entryOf row]))
    /\ (forall k, k <> key -> JSObject.getOwn k g' = JSObject.getOwn k g).
Proof.
  intros Hnb key Hinh. unfold groupStep. rewrite Hnb. fold key.
  unfold JSObject.has, bucketOf.
  destruct (JSObject.getOwn key g) as [bucket|] eqn:Hown; rewrite ?Hinh;
    cbn [negb app].
  - destruct (isFooter (Course row)) eqn:Hf; cbn [negb].
    + exists g. rewrite app_nil_r. auto.
    + rewrite Hown. eexists. split; [reflexivity|]. split.
      * apply getOwn_set_same.
      * intros k Hk. apply getOwn_set_other. exact Hk.
  - destruct (isFooter (Course row)) eqn:Hf; cbn [negb].
    + eexists. split; [reflexivity|]. split.
      * apply getOwn_set_same.
      * intros k Hk. apply getOwn_set_other. exact Hk.
    + rewrite getOwn_set_same. eexists. split; [reflexivity|]. split.
      * rewrite getOwn_set_same. reflexivity.
      * intros k Hk. rewrite !getOwn_set_other by exact Hk. reflexivity.
Qed.



(** A row that is not blank touches the bucket of its own key only. *)
Lemma groupStep_other g cur row g' cur' :
  isTrulyBlankRow host row = false ->
  groupStep host (g, cur) row = Some (g', cur') ->
  cur' = Some (sessionKeyFor host cur row)
  /\ forall k, k <> sessionKeyFor host cur row ->
               JSObject.getOwn k g' = JSObject.getOwn k g.
Proof.
  intros Hnb. unfold groupStep. rewrite Hnb.
  set (key := sessionKeyFor host cur row).
  set (g1 := if negb (JSObject.has key g) then JSObject.set key [] g else g).
  assert (H1 : forall k, k <> key -> JSObject.getOwn k g1 = JSObject.getOwn k g).
  { intros k Hk. unfold g1. destruct (negb (JSObject.has key g));
      [apply getOwn_set_other; exact Hk | reflexivity]. }
  destruct (negb (isFooter (Course row))).
  - destruct (JSObject.getOwn key g1) as [bucket|]; [|discriminate].
    intros [= <- <-]. split; [reflexivity|].
    intros k Hk. rewrite getOwn_set_other by exact Hk. apply H1, Hk.
  - intros [= <- <-]. split; [reflexivity | exact H1].
Qed.

Lemma groupStep_footerFree g cur row g' cur' :
  footerFree g -> groupStep host (g, cur) row = Some (g', cur') ->
  footerFree g'.
Proof.
  intros Hg. unfold groupStep.
  destruct (isTrulyBlankRow host row);
    [intros H; inversion H; subst; exact Hg|].
  set (key := sessionKeyFor host cur row).
  set (g1 := if negb (JSObject.has key g) then JSObject.set key [] g else g).
  assert (H1 : footerFree g1).
  { unfold g1. destruct (negb (JSObject.has key g)); [|exact Hg].
    apply set_Forall; [exact Hg | intros; constructor]. }
  destruct (isFooter (Course row)) eqn:Hf; cbn [negb].
  - intros H; inversion H; subst. exact H1.
  - destruct (JSObject.getOwn key g1) as [bucket|] eqn:Hown; [|discriminate].
    intros H; inversion H; subst. apply set_Forall; [exact H1|]. intros k0. cbn [snd].
    apply Forall_app. split.
    + apply getOwn_In in Hown. unfold footerFree in H1.
      rewrite Forall_forall in H1. exact (H1 _ Hown).
    + constructor; [exact Hf | constructor].
Qed.

Lemma groupFrom_footerFree rows st st' :
  footerFree (fst st) -> groupFrom host st rows = Some st' ->
  footerFree (fst st').
Proof.
  revert st. induction rows as [|row rows IH]; intros [g cur]; cbn [groupFrom].
  - intros Hg [= <-]. exact Hg.
  - intros Hg. destruct (groupStep host (g, cur) row) as [[g1 cur1]|] eqn:Hstep;
      [|discriminate].
    apply IH. exact (groupStep_footerFree _ _ _ _ _ Hg Hstep).
Qed.

(** C7: a record whose course text, trimmed and compared without regard
    to case, starts with one of the three footer markers is in no bucket of
    the grouped output. *)
Theorem footer_rows_excluded :
  forall (rows : list Processed) (groupedData : GroupedData) (row : Processed),
    groupRows host rows = Some groupedData ->
    FooterText (Course row) ->
    forall (key : string) (bucket : list CourseEntry),
      JSObject.getOwn key groupedData = Some bucket ->
      ~ In (entryOf row) bucket.
Proof.
  intros rows g row Hrun Hfooter key bucket Hown Hin.
  unfold groupRows in Hrun.
  destruct (groupFrom host (JSObject.empty, None) rows) as [[g0 cur]|] eqn:Hfold;
    [|discriminate].
  cbn in Hrun. inversion Hrun; subst.
  assert (Hclean : footerFree g).
  { apply (groupFrom_footerFree rows (JSObject.empty, None) (g, cur));
      [constructor | exact Hfold]. }
  apply getOwn_In in Hown. unfold footerFree in Hclean.
  rewrite Forall_forall in Hclean. specialize (Hclean _ Hown). cbn [snd] in Hclean.
  rewrite Forall_forall in Hclean. specialize (Hclean _ Hin).
  apply isFooter_iff in Hfooter.
  change (isFooter (Course row) = false) in Hclean. congruence.
Qed.

(** After a boundary, the bucket of a label other than "NoSession" is left
    as it was by every row that does not itself name that label. *)
Lemma groupFrom_untouched label post :
  label <> "NoSession" ->
  Forall (fun row => ~ namesSession host row label) post ->
  forall g cur g' cur',
    cur <> Some label ->
    groupFrom host (g, cur) post = Some (g', cur') ->
    JSObject.getOwn label g' = JSObject.getOwn label g.
Proof.
  intros Hns Hall. induction Hall as [|row post Hrow _ IH];
    intros g cur g' cur' Hcur; cbn [groupFrom].
  - intros H; inversion H; subst. reflexivity.
  - destruct (groupStep host (g, cur) row) as [[g1 cur1]|] eqn:Hstep;
      [|discriminate].
    intros Hrest.
    destruct (isTrulyBlankRow host row) eqn:Hb.
    + rewrite (groupStep_blank g cur row Hb) in Hstep.
      inversion Hstep; subst g1 cur1.
      apply (IH g None g' cur'); [discriminate | exact Hrest].
    + destruct (groupStep_other g cur row g1 cur1 Hb Hstep) as [-> Hother].
      assert (Hkey : sessionKeyFor host cur row <> label).
      { unfold sessionKeyFor, namesSession in *.
        destruct (nonEmpty (cellText host (rawSem row))).
        - destruct (nonEmpty (trim (Sem row))); [|congruence].
          intros E. apply Hrow. split; [reflexivity | exact E].
        - destruct cur as [c|]; [|congruence].
          destruct (nonEmpty c); congruence. }
      rewrite (IH g1 (Some (sessionKeyFor host cur row)) g' cur');
        [apply Hother; congruence | congruence | exact Hrest].
Qed.

End Grouper.

(* ================================================================== *)
(** * The session boundary and the rows after it *)
(* ================================================================== *)

Section Boundary.
Variable host : Host.

Lemma sessionKeyFor_nonEmpty cur row :
  nonEmpty (sessionKeyFor host cur row) = true.
Proof.
  unfold sessionKeyFor.
  destruct (nonEmpty (cellText host (rawSem row))).
  - destruct (nonEmpty (trim (Sem row))) eqn:E; [exact E | reflexivity].
  - destruct cur as [k|]; [|reflexivity].
    destruct (nonEmpty k) eqn:E; [exact E | reflexivity].
Qed.

(** The keys of the buckets are never empty and never a name that every
    object inherits. *)
Lemma groupStep_sound_keys g cur row g' cur' :
  (forall k, In k (List.map fst g) ->
             nonEmpty k = true /\ includes JSObject.inherited k = false) ->
  groupStep host (g, cur) row = Some (g', cur') ->
  forall k, In k (List.map fst g') ->
            nonEmpty k = true /\ includes JSObject.inherited k = false.
Proof.
  intros Hown. unfold groupStep.
  destruct (isTrulyBlankRow host row).
  - intros H. inversion H; subst. exact Hown.
  - set (key := sessionKeyFor host cur row).
    set (g1 := if negb (JSObject.has key g) then JSObject.set key [] g else g).
    assert (H1 : forall k, In k (List.map fst g1) ->
                           nonEmpty k = true
                           /\ includes JSObject.inherited k = false).
    { unfold g1, JSObject.has.
      destruct (JSObject.getOwn key g) eqn:E; cbn [negb]; [exact Hown|].
      destruct (includes JSObject.inherited key) eqn:Ei; cbn [negb];
        [exact Hown|].
      intros k Hk. apply set_keys_In in Hk.
      destruct Hk as [->|Hk]; [|exact (Hown k Hk)].
      split; [apply sessionKeyFor_nonEmpty | exact Ei]. }
    destruct (negb (isFooter (Course row))).
    + destruct (JSObject.getOwn key g1) as [bucket|] eqn:E; [|discriminate].
      intros H. inversion H; subst. intros k Hk.
      apply set_keys_In in Hk. destruct Hk as [->|Hk]; [|exact (H1 k Hk)].
      apply H1. apply getOwn_In in E.
      apply in_map_iff. exists (key, bucket). auto.
    + intros H. inversion H; subst. exact H1.
Qed.

Lemma groupFrom_sound_keys rows : forall g cur g' cur',
  (forall k, In k (List.map fst g) ->
             nonEmpty k = true /\ includes JSObject.inherited k = false) ->
  groupFrom host (g, cur) rows = Some (g', cur') ->
  forall k, In k (List.map fst g') ->
            nonEmpty k = true /\ includes JSObject.inherited k = false.
Proof.
  induction rows as [|row rows IH]; intros g cur g' cur' Hown H;
    cbn [groupFrom] in H.
  - inversion H; subst. exact Hown.
  - destruct (groupStep host (g, cur) row) as [[g1 cur1]|] eqn:E; [|discriminate].
    exact (IH _ _ _ _ (groupStep_sound_keys _ _ _ _ _ Hown E) H).
Qed.

(** A row that names a session is filed under it, whatever the running
    key: its course goes to the end of the bucket, unless it is a footer
    line, which leaves the bucket as it is. *)
Lemma groupStep_named g cur row label :
  namesSession host row label ->
  nonEmpty label = true ->
  includes JSObject.inherited label = false ->
  exists g',
    groupStep host (g, cur) row = Some (g', Some label)
    /\ JSObject.getOwn label g'
       = Some (bucketOf label g
                 ++ (if isFooter (Course row) then [] else [entryOf row]))
    /\ (forall k, k <> label -> JSObject.getOwn k g' = JSObject.getOwn k g).
Proof.
  intros [Hraw Hsem] Hne Hinh.
  assert (Hnb : isTrulyBlankRow host row = false).
  { unfold isTrulyBlankRow. rewrite Hraw. reflexivity. }
  assert (Hkey : sessionKeyFor host cur row = label).
  { unfold sessionKeyFor. rewrite Hraw, Hsem, Hne. reflexivity. }
  destruct (groupStep_filed host g cur row Hnb) as (g' & Hstep & Hown & Hother).
  { rewrite Hkey. exact Hinh. }
  rewrite Hkey in *. exists g'. auto.
Qed.

(** C4, as the code has it: a boundary resets the current session key and
    nothing else.  A bucket filled before the boundary takes none of the
    later records as long as no later row names its label.  Any later row
    whose own session value canonicalizes to that label, directly after the
    boundary or after any other rows, is filed under the same bucket again:
    its course is appended to the bucket, unless the row is a footer line,
    which leaves the bucket as it is.  The first such row finds the bucket
    as it stood at the boundary. *)
Theorem boundary_closes_until_renamed :
  forall (pre : list Processed) (b : Processed) (g : GroupedData)
         (cur : option string) (label : string),
    groupFrom host (JSObject.empty, None) pre = Some (g, cur) ->
    isTrulyBlankRow host b = true ->
    label <> "NoSession" ->
    (forall post g' cur',
        Forall (fun row => ~ namesSession host row label) post ->
        groupFrom host (JSObject.empty, None) (pre ++ b :: post)
        = Some (g', cur') ->
        JSObject.getOwn label g' = JSObject.getOwn label g)
    /\ (forall mid row gm curm,
           In label (List.map fst g) ->
           groupFrom host (JSObject.empty, None) (pre ++ b :: mid)
           = Some (gm, curm) ->
           namesSession host row label ->
           exists g',
             groupFrom host (JSObject.empty, None) (pre ++ b :: mid ++ [row])
             = Some (g', Some label)
             /\ JSObject.getOwn label g'
                = Some (bucketOf label gm
                          ++ (if isFooter (Course row) then []
                              else [entryOf row]))
             /\ (forall k, k <> label ->
                           JSObject.getOwn k g' = JSObject.getOwn k gm))
    /\ (forall mid row gm curm,
           In label (List.map fst g) ->
           Forall (fun r => ~ namesSession host r label) mid ->
           groupFrom host (JSObject.empty, None) (pre ++ b :: mid)
           = Some (gm, curm) ->
           namesSession host row label ->
           isFooter (Course row) = false ->
           exists g',
             groupFrom host (JSObject.empty, None) (pre ++ b :: mid ++ [row])
             = Some (g', Some label)
             /\ JSObject.getOwn label g'
                = Some (bucketOf label g ++ [entryOf row])).
Proof.
  intros pre b g cur label Hpre Hb Hns.
  assert (Hclosed : forall post g' cur',
             Forall (fun row => ~ namesSession host row label) post ->
             groupFrom host (JSObject.empty, None) (pre ++ b :: post)
             = Some (g', cur') ->
             JSObject.getOwn label g' = JSObject.getOwn label g).
  { intros post g' cur' Hall.
    rewrite groupFrom_app, Hpre. cbn [groupFrom].
    rewrite (groupStep_blank host g cur b Hb).
    apply (groupFrom_untouched host label post Hns Hall). discriminate. }
  assert (Hagain : forall mid row gm curm,
             In label (List.map fst g) ->
             groupFrom host (JSObject.empty, None) (pre ++ b :: mid)
             = Some (gm, curm) ->
             namesSession host row label ->
             exists g',
               groupFrom host (JSObject.empty, None) (pre ++ b :: mid ++ [row])
               = Some (g', Some label)
               /\ JSObject.getOwn label g'
                  = Some (bucketOf label gm
                            ++ (if isFooter (Course row) then []
                                else [entryOf row]))
               /\ (forall k, k <> label ->
                             JSObject.getOwn k g' = JSObject.getOwn k gm)).
  { intros mid row gm curm Hin Hmid Hnames.
    destruct (groupFrom_sound_keys pre JSObject.empty None g cur
                (fun k (H : In k (List.map fst JSObject.empty)) =>
                   match H with end) Hpre label Hin) as [Hne Hinh].
    destruct (groupStep_named gm curm row label Hnames Hne Hinh)
      as (g' & Hstep & Hown & Hother).
    exists g'. split; [|split; assumption].
    rewrite app_comm_cons, app_assoc, groupFrom_app, Hmid.
    cbn [groupFrom]. rewrite Hstep. reflexivity. }
  split; [exact Hclosed|]. split; [exact Hagain|].
  intros mid row gm curm Hin Hnone Hmid Hnames Hfoot.
  destruct (Hagain mid row gm curm Hin Hmid Hnames) as (g' & Hrun & Hown & _).
  exists g'. split; [exact Hrun|].
  rewrite Hown, Hfoot. unfold bucketOf.
  rewrite (Hclosed mid gm curm Hnone Hmid). reflexivity.
Qed.

End Boundary.

(* ================================================================== *)
(** * Year pairer: the shape of the table *)
(* ================================================================== *)

Section TableShape.
Variable host : Host.

Lemma pairLoop_body sessionsObj leftKeys rightKeys :
  pairLoop host sessionsObj leftKeys rightKeys
  = match leftKeys, rightKeys with
    | [], [] => Some []
    | _, _ =>
        match pairedRow host sessionsObj (fst (shiftKey leftKeys))
                        (fst (shiftKey rightKeys)) with
        | Some row =>
            match pairLoop host sessionsObj (snd (shiftKey leftKeys))
                           (snd (shiftKey rightKeys)) with
            | Some rows => Some (row :: blankRow :: rows)
            | None => None
            end
        | None => None
        end
    end.
Proof.
  destruct leftKeys as [|l ls]; [destruct rightKeys as [|r rs]|];
    simp pairLoop; reflexivity.
Qed.

(** The loop is the queue pairing of the specification, row by row. *)
Lemma pairLoop_queuePairs sessionsObj leftKeys rightKeys :
  pairLoop host sessionsObj leftKeys rightKeys
  = option_map withSeparators
      (traverse (fun lr => pairedRow host sessionsObj (fst lr) (snd lr))
                (queuePairs leftKeys rightKeys)).
Proof.
  revert rightKeys. induction leftKeys as [|l ls IHl]; intros rightKeys.
  - induction rightKeys as [|r rs IHr]; rewrite pairLoop_body;
      [reflexivity|].
    cbn [shiftKey fst snd queuePairs List.map traverse].
    destruct (pairedRow host sessionsObj None _) as [row|]; [|reflexivity].
    rewrite IHr. cbn [queuePairs].
    destruct (traverse _ _); reflexivity.
  - rewrite pairLoop_body.
    destruct rightKeys as [|r rs];
      cbn [shiftKey fst snd queuePairs List.map traverse];
      (destruct (pairedRow host sessionsObj _ _) as [row|]; [|reflexivity]);
      rewrite IHl; destruct (traverse _ _); reflexivity.
Qed.

Lemma traverse_Some {A B : Type} (f : A -> option B) xs ys :
  traverse f xs = Some ys -> Forall2 (fun x y => f x = Some y) xs ys.
Proof.
  revert ys. induction xs as [|x xs IH]; intros ys; cbn [traverse].
  - intros H; inversion H; constructor.
  - destruct (f x) as [y|] eqn:Hx; [|discriminate].
    destruct (traverse f xs) as [ys'|]; [|discriminate].
    intros H; inversion H; subst. constructor; [exact Hx | apply IH; reflexivity].
Qed.

Lemma shiftKey_single_In (k : string) (keys : list string) (P : string -> Prop) :
  In k keys -> Forall P keys ->
  match fst (shiftKey [k]) with Some label => In label keys /\ P label | None => True end.
Proof.
  intros Hin Hall. cbn. destruct (nonEmpty k); [|exact I].
  split; [exact Hin|]. rewrite Forall_forall in Hall. exact (Hall k Hin).
Qed.

Lemma shiftKey_single_Some (k : string) :
  nonEmpty k = true -> fst (shiftKey [k]) = Some k.
Proof. intros H. cbn. rewrite H. reflexivity. Qed.

(** The slots the queue pairing makes: labels drawn from the two queues,
    never both empty unless a label is the empty string. *)
Lemma queuePairs_slots (P Q : string -> Prop) (ls rs pool : list string) :
  incl ls pool -> incl rs pool -> Forall P ls -> Forall Q rs ->
  Forall (fun lr =>
            match fst lr with Some l => In l pool /\ P l | None => True end
            /\ match snd lr with Some r => In r pool /\ Q r | None => True end)
         (queuePairs ls rs).
Proof.
  intros Hl Hr HP HQ. revert rs Hr HQ.
  induction ls as [|l ls IH]; intros rs Hr HQ; cbn [queuePairs].
  - rewrite Forall_map. rewrite Forall_forall. intros r Hin.
    cbn [fst snd]. split; [exact I|].
    cbn. destruct (nonEmpty r); [|exact I].
    split; [apply Hr, Hin|]. rewrite Forall_forall in HQ. apply HQ, Hin.
  - assert (Hl' : incl ls pool) by (intros x Hx; apply Hl; right; exact Hx).
    assert (HP' : Forall P ls) by (inversion HP; assumption).
    assert (Hhead : match fst (shiftKey [l]) with
                    | Some x => In x pool /\ P x | None => True end).
    { cbn. destruct (nonEmpty l); [|exact I].
      split; [apply Hl; left; reflexivity | inversion HP; assumption]. }
    destruct rs as [|r rs]; constructor.
    + cbn [fst snd]. split; [exact Hhead | exact I].
    + apply IH; [exact Hl' | exact HP' | intros x [] | constructor].
    + cbn [fst snd]. split; [exact Hhead|].
      cbn. destruct (nonEmpty r); [|exact I].
      split; [apply Hr; left; reflexivity | inversion HQ; assumption].
    + apply IH; [exact Hl' | exact HP' | | inversion HQ; assumption].
      intros x Hx. apply Hr. right. exact Hx.
Qed.

Lemma queuePairs_some_key (ls rs : list string) :
  Forall (fun k => nonEmpty k = true) ls ->
  Forall (fun k => nonEmpty k = true) rs ->
  Forall (fun lr => fst lr <> None \/ snd lr <> None) (queuePairs ls rs).
Proof.
  intros Hl. revert rs. induction Hl as [|l ls Hne _ IH]; intros rs Hr;
    cbn [queuePairs].
  - rewrite Forall_map. induction Hr as [|r rs Hr _ IHr]; constructor; [|exact IHr].
    right. cbn. rewrite Hr. discriminate.
  - destruct rs as [|r rs]; constructor.
    + left. cbn. rewrite Hne. discriminate.
    + apply IH. constructor.
    + left. cbn. rewrite Hne. discriminate.
    + apply IH. inversion Hr; assumption.
Qed.

Lemma test_nonEmpty (pattern : regex) (k : string) :
  test true pattern "" = false ->
  test true pattern k = true -> nonEmpty k = true.
Proof. intros H0 H. destruct k; [congruence | reflexivity]. Qed.

Lemma semIRegex_empty : test true semIRegex "" = false.
Proof. reflexivity. Qed.

Lemma semIIRegex_empty : test true semIIRegex "" = false.
Proof. reflexivity. Qed.

Lemma Forall2_Forall {A B : Type} (R : A -> B -> Prop) (P : A -> Prop)
      (Q : B -> Prop) xs ys :
  (forall x y, R x y -> P x -> Q y) ->
  Forall2 R xs ys -> Forall P xs -> Forall Q ys.
Proof.
  intros HQ H2. induction H2 as [|x y xs ys Hxy _ IH]; intros HP;
    constructor; inversion HP; subst; auto.
  eapply HQ; eassumption.
Qed.

Lemma filter_Forall {A : Type} (f : A -> bool) (xs : list A) :
  Forall (fun x => f x = true) (filter f xs).
Proof. rewrite Forall_forall. intros x Hx. apply filter_In in Hx. tauto. Qed.

Lemma withSeparators_app (a b : list TableRow) :
  withSeparators (a ++ b) = withSeparators a ++ withSeparators b.
Proof. unfold withSeparators. apply flat_map_app. Qed.

(** What one year contributes: paired rows, each followed by a blank row. *)
Lemma yearRows_shape academicYears yearStr rows :
  yearRows host academicYears yearStr = Some rows ->
  exists paired,
    rows = withSeparators paired
    /\ Forall (PairedRow host academicYears) paired.
Proof.
  unfold yearRows.
  destruct (JSObject.getOwn yearStr academicYears) as [so|] eqn:Hown.
  2:{ destruct (includes JSObject.inherited yearStr); [|discriminate].
      intros H; inversion H. exists []. split; [reflexivity | constructor]. }
  rewrite pairLoop_queuePairs.
  set (ls := filter (test true semIRegex) (JSObject.keys so)).
  set (rs := filter (test true semIIRegex) (JSObject.keys so)).
  destruct (traverse _ (queuePairs ls rs)) as [paired|] eqn:Htr; [|discriminate].
  intros H; inversion H; subst. exists paired. split; [reflexivity|].
  apply traverse_Some in Htr.
  assert (Hls : Forall (fun k => test true semIRegex k = true) ls)
    by apply filter_Forall.
  assert (Hrs : Forall (fun k => test true semIIRegex k = true) rs)
    by apply filter_Forall.
  assert (Hslots := queuePairs_slots
                      (fun k => test true semIRegex k = true)
                      (fun k => test true semIIRegex k = true)
                      ls rs (JSObject.keys so)
                      (incl_filter _ _) (incl_filter _ _) Hls Hrs).
  assert (Hsome : Forall (fun lr => fst lr <> None \/ snd lr <> None)
                         (queuePairs ls rs)).
  { apply queuePairs_some_key.
    - eapply Forall_impl; [|exact Hls]. intros k.
      apply test_nonEmpty, semIRegex_empty.
    - eapply Forall_impl; [|exact Hrs]. intros k.
      apply test_nonEmpty, semIIRegex_empty. }
  assert (Hboth := Forall_and Hslots Hsome). cbv beta in Hboth.
  eapply Forall2_Forall; [|exact Htr|exact Hboth].
  intros [lk rk] p Hp [[Hl Hr] Hk]. cbn [fst snd] in *.
  exists yearStr, so, lk, rk. unfold slotKey.
  repeat split; try assumption.
Qed.

Lemma forYears_shape academicYears years rows :
  forYears host academicYears years = Some rows ->
  exists paired,
    rows = withSeparators paired
    /\ Forall (PairedRow host academicYears) paired.
Proof.
  revert rows. induction years as [|y years IH]; intros rows; cbn [forYears].
  - intros H; inversion H. exists []. split; [reflexivity | constructor].
  - destruct (yearRows host academicYears y) as [rows1|] eqn:Hy; [|discriminate].
    destruct (forYears host academicYears years) as [rows2|]; [|discriminate].
    intros H; inversion H; subst.
    destruct (yearRows_shape _ _ _ Hy) as (p1 & -> & Hp1).
    destruct (IH rows2 eq_refl) as (p2 & -> & Hp2).
    exists (p1 ++ p2). split; [symmetry; apply withSeparators_app|].
    apply Forall_app. split; assumption.
Qed.

Lemma getColumnLines_no_blank records k :
  getColumnLines host records k <> [""].
Proof.
  intros H.
  assert (Hin : In "" (getColumnLines host records k))
    by (rewrite H; left; reflexivity).
  unfold getColumnLines in Hin. apply filter_In in Hin.
  destruct Hin as [_ Hne]. discriminate.
Qed.

Lemma PairedRow_cells academicYears p :
  PairedRow host academicYears p ->
  List.length p = 10 /\ p <> blankRow.
Proof.
  intros (y & so & lk & rk & _ & _ & _ & _ & Hp).
  unfold pairedRow in Hp.
  destruct (coursesOf so lk) as [lc|]; [|discriminate].
  destruct (coursesOf so rk) as [rc|]; [|discriminate].
  inversion Hp; subst. split; [reflexivity|].
  intros Hblank. cbn in Hblank. injection Hblank as _ Hcourse _.
  exact (getColumnLines_no_blank lc KCourse Hcourse).
Qed.

(** The table is the header row, then the paired rows with their
    separators. *)
Lemma buildRows_shape academicYears rows :
  buildRows host academicYears = Some rows ->
  exists paired : list TableRow,
    rows = headerRow :: withSeparators paired
    /\ Forall (PairedRow host academicYears) paired.
Proof.
  unfold buildRows.
  destruct (forYears host academicYears (sortedYears academicYears))
    as [body|] eqn:Hbody; [|discriminate].
  intros H; inversion H; subst.
  destruct (forYears_shape _ _ _ Hbody) as (paired & -> & Hpaired).
  exists paired. split; [reflexivity | exact Hpaired].
Qed.

(** C9: in every emitted table the header row is followed by the paired
    rows, each one immediately followed by exactly one separator row whose
    ten cells are blank; a paired row has ten cells and is never itself a
    separator, so the two kinds alternate strictly. *)
Theorem separator_after_every_pair :
  forall (academicYears : AcademicYears) (rows : list TableRow),
    buildRows host academicYears = Some rows ->
    exists paired : list TableRow,
      rows = headerRow :: withSeparators paired
      /\ Forall (PairedRow host academicYears) paired
      /\ Forall (fun p => List.length p = 10 /\ p <> blankRow) paired
      /\ blankRow = repeat [""] 10.
Proof.
  intros academicYears rows Hrows.
  destruct (buildRows_shape academicYears rows Hrows) as (paired & -> & Hpaired).
  exists paired. repeat split; try assumption; try reflexivity.
  eapply Forall_impl; [|exact Hpaired].
  intros p. apply PairedRow_cells.
Qed.

End TableShape.

(* ================================================================== *)
(** * Year pairer: the order of the years *)
(* ================================================================== *)

Lemma insertNumber_perm (n : Z) (ns : list Z) :
  Permutation (insertNumber n ns) (n :: ns).
Proof.
  induction ns as [|m ns IH]; cbn [insertNumber]; [reflexivity|].
  destruct (n <=? m)%Z; [reflexivity|].
  rewrite IH. apply perm_swap.
Qed.

Lemma sortNumbers_perm (ns : list Z) : Permutation (sortNumbers ns) ns.
Proof.
  induction ns as [|n ns IH]; cbn; [reflexivity|].
  rewrite insertNumber_perm. constructor. exact IH.
Qed.

Lemma insertNumber_sorted (n : Z) (ns : list Z) :
  Sorted Z.le ns -> Sorted Z.le (insertNumber n ns).
Proof.
  induction 1 as [|m ns Hs IH Hhd]; cbn [insertNumber].
  - repeat constructor.
  - destruct (n <=? m)%Z eqn:E.
    + constructor; [constructor; assumption|]. constructor. lia.
    + constructor; [exact IH|].
      destruct ns as [|k ns]; cbn [insertNumber].
      * constructor. lia.
      * inversion Hhd; subst. destruct (n <=? k)%Z; constructor; lia.
Qed.

Lemma sortNumbers_sorted (ns : list Z) : Sorted Z.le (sortNumbers ns).
Proof.
  induction ns as [|n ns IH]; cbn; [constructor|].
  apply insertNumber_sorted, IH.
Qed.

Lemma parseInt_digit_first (c : ascii) (s : string) :
  isDigit c = true -> parseInt (String c s) <> None.
Proof.
  intros Hd. unfold parseInt, trimStart. cbn [dropWhile].
  rewrite (isDigit_not_space c Hd).
  destruct (isDigit_not_sign c Hd) as [-> ->]. cbn [orb spanDigits].
  rewrite Hd. destruct (spanDigits s). cbn [fst]. discriminate.
Qed.

Lemma arrayIndex_parses (k : string) :
  JSObject.isArrayIndex k = true -> isNaN (parseInt k) = false.
Proof.
  unfold JSObject.isArrayIndex, JSObject.arrayIndex.
  destruct k as [|c k]; [discriminate|].
  destruct (Str.forallb isDigit (String c k)) eqn:Hd; [|discriminate].
  intros _. cbn [Str.forallb] in Hd. apply andb_true_iff in Hd.
  destruct (parseInt (String c k)) eqn:E; [reflexivity|].
  exfalso. exact (parseInt_digit_first c k (proj1 Hd) E).
Qed.

Section KeyOrder.
Context {V : Type}.

Lemma insertByIndex_In (e x : string * V) (es : list (string * V)) :
  In x (JSObject.insertByIndex e es) <-> x = e \/ In x es.
Proof.
  induction es as [|e' es IH]; cbn [JSObject.insertByIndex].
  - cbn. intuition.
  - destruct (JSObject.indexOf (fst e) <=? JSObject.indexOf (fst e'))%Z; cbn.
    + intuition.
    + rewrite IH. intuition.
Qed.

Lemma sortByIndex_In (x : string * V) (es : list (string * V)) :
  In x (JSObject.sortByIndex es) <-> In x es.
Proof.
  induction es as [|e es IH]; cbn; [tauto|].
  rewrite insertByIndex_In, IH. intuition.
Qed.

(** [Object.entries] lists exactly the own properties. *)
Lemma entries_In (x : string * V) (o : JSObject.t V) :
  In x (JSObject.entries o) <-> In x o.
Proof.
  unfold JSObject.entries. rewrite in_app_iff, sortByIndex_In, !filter_In.
  destruct (JSObject.isArrayIndex (fst x)); cbn; intuition congruence.
Qed.

Lemma keys_In (k : string) (o : JSObject.t V) :
  In k (JSObject.keys o) <-> In k (List.map fst o).
Proof.
  unfold JSObject.keys. rewrite !in_map_iff.
  split; intros (x & Hk & Hx); exists x; (split; [exact Hk|]);
    apply entries_In; exact Hx.
Qed.

Lemma filter_map_filter (P : string -> bool) (Q : string * V -> bool)
      (o : list (string * V)) :
  (forall x, Q x = false -> P (fst x) = false) ->
  filter P (List.map fst (filter Q o)) = filter P (List.map fst o).
Proof.
  intros H. induction o as [|x o IH]; cbn; [reflexivity|].
  destruct (Q x) eqn:E; cbn; rewrite IH; [reflexivity|].
  rewrite (H x E). reflexivity.
Qed.

Lemma filter_none {A : Type} (P : A -> bool) (xs : list A) :
  (forall x, In x xs -> P x = false) -> filter P xs = [].
Proof.
  induction xs as [|x xs IH]; intros H; cbn; [reflexivity|].
  rewrite (H x) by (left; reflexivity). apply IH.
  intros y Hy. apply H. right. exact Hy.
Qed.

(** Names that do not parse as integers come out of [Object.keys] in the
    order the properties were created. *)
Lemma keys_not_numeric (P : string -> bool) (o : JSObject.t V) :
  (forall k, P k = true -> isNaN (parseInt k) = true) ->
  filter P (JSObject.keys o) = filter P (List.map fst o).
Proof.
  intros HP.
  assert (Hidx : forall k, JSObject.isArrayIndex k = true -> P k = false).
  { intros k Hk. destruct (P k) eqn:E; [|reflexivity].
    apply HP in E. rewrite (arrayIndex_parses k Hk) in E. discriminate. }
  unfold JSObject.keys, JSObject.entries.
  rewrite map_app, filter_app.
  rewrite (filter_none P).
  - cbn [app]. apply filter_map_filter.
    intros x Hx. apply Hidx. destruct (JSObject.isArrayIndex (fst x));
      [reflexivity | discriminate].
  - intros k Hk. apply in_map_iff in Hk. destruct Hk as (x & <- & Hx).
    apply sortByIndex_In, filter_In in Hx. apply Hidx. tauto.
Qed.

End KeyOrder.

Lemma ofZ_not_Unknown (n : Z) : ofZ n <> "Unknown".
Proof.
  unfold ofZ. destruct (Z.to_int n) as [d|d]; destruct d; cbn; discriminate.
Qed.

Lemma filter_filter {A : Type} (P Q : A -> bool) (xs : list A) :
  filter P (filter Q xs) = filter (fun x => P x && Q x) xs.
Proof.
  induction xs as [|x xs IH]; cbn; [reflexivity|].
  destruct (Q x); cbn; rewrite ?andb_true_r, ?andb_false_r;
    [destruct (P x)|]; rewrite IH; reflexivity.
Qed.

Lemma test_semI_classified (label : string) :
  test true semIRegex label = true -> ~ classifiedUnknown label.
Proof.
  unfold test, classifiedUnknown, getAcademicYear.
  destruct (exec true semIRegex label); [discriminate|]. discriminate.
Qed.

Lemma test_semII_classified (label : string) :
  test true semIIRegex label = true -> ~ classifiedUnknown label.
Proof.
  unfold test, classifiedUnknown, getAcademicYear.
  destruct (exec true semIRegex label); [discriminate|].
  destruct (exec true semIIRegex label); discriminate.
Qed.

Lemma keyText_label (key : option string) (label : string) :
  [keyText key] = [label] -> label <> "" -> key = Some label.
Proof.
  destruct key as [k|]; cbn; intros H Hne; inversion H; subst; congruence.
Qed.

(** A paired row shows no label of the "Unknown" year. *)
Lemma PairedRow_known (host : Host) (academicYears : AcademicYears) (p : TableRow) :
  PairedRow host academicYears p ->
  forall label, shows p label -> label <> "" -> ~ classifiedUnknown label.
Proof.
  intros (y & so & lk & rk & _ & Hl & Hr & _ & Hp) label Hshow Hne.
  unfold pairedRow in Hp.
  destruct (coursesOf so lk) as [lc|]; [|discriminate].
  destruct (coursesOf so rk) as [rc|]; [|discriminate].
  inversion Hp; subst. destruct Hshow as [H|H]; cbn in H.
  - apply keyText_label in H; [|exact Hne]. subst lk.
    apply test_semI_classified. exact (proj2 Hl).
  - apply keyText_label in H; [|exact Hne]. subst rk.
    apply test_semII_classified. exact (proj2 Hr).
Qed.

Lemma ofZ_own (n : Z) : includes JSObject.inherited (ofZ n) = false.
Proof.
  unfold ofZ. destruct (Z.to_int n) as [d|d]; destruct d; reflexivity.
Qed.

Lemma Forall2_impl_In {A B : Type} (R Q : A -> B -> Prop) xs ys :
  (forall x y, In x xs -> R x y -> Q x y) ->
  Forall2 R xs ys -> Forall2 Q xs ys.
Proof.
  intros H HR. induction HR as [|x y xs ys Hxy HR IH]; constructor.
  - apply H; [left; reflexivity | exact Hxy].
  - apply IH. intros x' y' Hin. apply H. right. exact Hin.
Qed.

Section YearBlocks.
Variable host : Host.

Lemma yearRows_block academicYears yearStr rows :
  yearRows host academicYears yearStr = Some rows ->
  JSObject.getOwn yearStr academicYears <> None ->
  YearBlock host academicYears yearStr rows.
Proof.
  unfold yearRows, YearBlock.
  destruct (JSObject.getOwn yearStr academicYears) as [so|]; [|congruence].
  rewrite pairLoop_queuePairs.
  destruct (traverse _ (queuePairs _ _)) as [paired|] eqn:Htr; [|discriminate].
  intros H _. inversion H; subst.
  exists so, paired. split; [reflexivity|]. split; [reflexivity|].
  apply traverse_Some in Htr. exact Htr.
Qed.

Lemma forYears_blocks academicYears years rows :
  forYears host academicYears years = Some rows ->
  exists blocks,
    rows = List.concat blocks
    /\ Forall2 (fun y block => yearRows host academicYears y = Some block)
               years blocks.
Proof.
  revert rows. induction years as [|y years IH]; intros rows; cbn [forYears].
  - intros H; inversion H. exists []. split; [reflexivity | constructor].
  - destruct (yearRows host academicYears y) as [rows1|] eqn:Hy; [|discriminate].
    destruct (forYears host academicYears years) as [rows2|]; [|discriminate].
    intros H; inversion H; subst.
    destruct (IH rows2 eq_refl) as (blocks & -> & Hall).
    exists (rows1 :: blocks). split; [reflexivity|].
    constructor; assumption.
Qed.

(** A year of the order whose rows are built is an own key: the numeral of
    a parsed key is no inherited name, so a miss throws. *)
Lemma sortedYears_looked_up academicYears y block :
  In y (sortedYears academicYears) ->
  yearRows host academicYears y = Some block ->
  JSObject.getOwn y academicYears <> None.
Proof.
  intros Hin Hrows Hnone. unfold sortedYears in Hin.
  apply in_app_or in Hin. destruct Hin as [Hin|Hin].
  - apply in_map_iff in Hin. destruct Hin as (n & <- & _).
    unfold yearRows in Hrows. rewrite Hnone, ofZ_own in Hrows. discriminate.
  - unfold leftoverYearKeys, allYearKeys in Hin.
    apply filter_In in Hin. destruct Hin as [Hin _].
    apply filter_In in Hin. destruct Hin as [Hin _].
    apply (proj1 (keys_In _ _)) in Hin.
    apply (proj1 (getOwn_None_notin _ _) Hnone Hin).
Qed.

Lemma buildRows_blocks academicYears rows :
  buildRows host academicYears = Some rows ->
  exists blocks : list (list TableRow),
    rows = headerRow :: List.concat blocks
    /\ Forall2 (YearBlock host academicYears) (sortedYears academicYears) blocks.
Proof.
  unfold buildRows.
  destruct (forYears host academicYears (sortedYears academicYears))
    as [body|] eqn:Hbody; [|discriminate].
  intros H; inversion H; subst.
  destruct (forYears_blocks _ _ _ Hbody) as (blocks & -> & Hall).
  exists blocks. split; [reflexivity|].
  eapply Forall2_impl_In; [|exact Hall].
  intros y block Hin Hy. cbv beta in Hy.
  apply yearRows_block; [exact Hy|].
  exact (sortedYears_looked_up _ _ _ Hin Hy).
Qed.

End YearBlocks.

(** C3, as the code has it: the year keys that parse as integers come first,
    as integers in ascending order; the keys that do not parse, "Unknown"
    left out, follow in the order their years were created; "Unknown" itself
    is in no position of the order and is not appended later, so no paired
    row of an emitted table shows a label classified "Unknown".  The table
    follows the order: after the header row it is the rows of the first
    year of the order, then those of the second, and so on, the rows of a
    year being the queue pairing of that year's sessions. *)
Theorem sortedYears_order :
  forall (host : Host) (academicYears : AcademicYears),
    let keys := filter (fun y => negb (String.eqb y "Unknown"))
                       (JSObject.keys academicYears) in
    sortedYears academicYears
    = List.map ofZ (numericYears academicYears) ++ leftoverYearKeys academicYears
    /\ Sorted Z.le (numericYears academicYears)
    /\ Permutation (numericYears academicYears) (parsedYears keys)
    /\ leftoverYearKeys academicYears
       = filter (fun y => isNaN (parseInt y) && negb (String.eqb y "Unknown"))
                (List.map fst academicYears)
    /\ ~ In "Unknown" (sortedYears academicYears)
    /\ (forall rows,
         buildRows host academicYears = Some rows ->
         exists paired,
           rows = headerRow :: withSeparators paired
           /\ Forall (fun p => forall label,
                          shows p label -> label <> "" ->
                          ~ classifiedUnknown label) paired)
    /\ (forall rows,
         buildRows host academicYears = Some rows ->
         exists blocks : list (list TableRow),
           rows = headerRow :: List.concat blocks
           /\ Forall2 (YearBlock host academicYears)
                      (sortedYears academicYears) blocks).
Proof.
  intros host academicYears keys.
  split; [reflexivity|].
  split; [apply sortNumbers_sorted|].
  split; [apply sortNumbers_perm|].
  assert (Hleft : leftoverYearKeys academicYears
                  = filter (fun y => isNaN (parseInt y)
                                     && negb (String.eqb y "Unknown"))
                           (List.map fst academicYears)).
  { unfold leftoverYearKeys, allYearKeys. rewrite filter_filter.
    apply keys_not_numeric. intros k Hk.
    apply andb_true_iff in Hk. tauto. }
  split; [exact Hleft|].
  split; [|split].
  - unfold sortedYears. rewrite in_app_iff. intros [H|H].
    + apply in_map_iff in H. destruct H as (n & Hn & _).
      exact (ofZ_not_Unknown n Hn).
    + rewrite Hleft in H. apply filter_In in H. destruct H as [_ H].
      rewrite String.eqb_refl, andb_false_r in H. discriminate.
  - intros rows Hrows.
    destruct (buildRows_shape host academicYears rows Hrows)
      as (paired & -> & Hpaired).
    exists paired. split; [reflexivity|].
    eapply Forall_impl; [|exact Hpaired].
    intros p. apply PairedRow_known.
  - intros rows. apply buildRows_blocks.
Qed.

(* ================================================================== *)
(** * Academic years built from the buckets *)
(* ================================================================== *)

Section EntriesOrder.
Context {V : Type}.

Lemma insertByIndex_perm (e : string * V) (es : list (string * V)) :
  Permutation (JSObject.insertByIndex e es) (e :: es).
Proof.
  induction es as [|e' es IH]; cbn [JSObject.insertByIndex]; [reflexivity|].
  destruct (JSObject.indexOf (fst e) <=? JSObject.indexOf (fst e'))%Z;
    [reflexivity|].
  rewrite IH. apply perm_swap.
Qed.

Lemma sortByIndex_perm (es : list (string * V)) :
  Permutation (JSObject.sortByIndex es) es.
Proof.
  induction es as [|e es IH]; cbn; [reflexivity|].
  rewrite insertByIndex_perm. constructor. exact IH.
Qed.

Lemma filter_split_perm {A : Type} (f : A -> bool) (xs : list A) :
  Permutation (filter f xs ++ filter (fun x => negb (f x)) xs) xs.
Proof.
  induction xs as [|x xs IH]; cbn; [reflexivity|].
  destruct (f x); cbn.
  - constructor. exact IH.
  - rewrite <- Permutation_middle. constructor. exact IH.
Qed.

Lemma entries_perm (o : JSObject.t V) : Permutation (JSObject.entries o) o.
Proof.
  unfold JSObject.entries. rewrite sortByIndex_perm. apply filter_split_perm.
Qed.

Lemma entries_NoDup (o : JSObject.t V) :
  NoDup (List.map fst o) -> NoDup (List.map fst (JSObject.entries o)).
Proof.
  apply Permutation_NoDup, Permutation_map, Permutation_sym, entries_perm.
Qed.

End EntriesOrder.

Lemma digit_first_own (c : ascii) (s : string) :
  isDigit c = true -> includes JSObject.inherited (String c s) = false.
Proof.
  destruct c as [[] [] [] [] [] [] [] []]; vm_compute; intros H;
    solve [reflexivity | discriminate H].
Qed.

(** No year key is a name that objects inherit. *)
Lemma year_own (label : string) :
  includes JSObject.inherited (year (getAcademicYear label)) = false.
Proof.
  unfold getAcademicYear.
  destruct (exec true semIRegex label) as [m|] eqn:EI.
  - rewrite SessionPatterns.semIRegex_pattern in EI.
    apply Classifier.exec_Some in EI; [|discriminate].
    destruct EI as (pre & (mon & gap1 & sem & gap2 & hf & post & _ & _ & Hd & Hlen & _) & _).
    cbn [year]. destruct (group 2 m) as [|c yy]; [cbn in Hlen; lia|].
    apply digit_first_own. cbn in Hd. apply andb_true_iff in Hd. tauto.
  - destruct (exec true semIIRegex label) as [m|]; cbn [year]; [|reflexivity].
    unfold adjustedYear. destruct (parseInt (group 2 m)); [apply ofZ_own | reflexivity].
Qed.

Lemma addSession_holds (academicYears : AcademicYears) (label : string)
      (courses : list CourseEntry) :
  holds (addSession academicYears (label, courses))
        (year (getAcademicYear label)) label courses.
Proof.
  unfold holds, addSession, JSObject.has.
  destruct (JSObject.getOwn (year (getAcademicYear label)) academicYears)
    as [so|] eqn:E; cbn [negb].
  - rewrite E. eexists. split; apply getOwn_set_same.
  - rewrite year_own. cbn [negb]. rewrite getOwn_set_same.
    eexists. split; apply getOwn_set_same.
Qed.

Lemma addSession_keeps (academicYears : AcademicYears) (entry : string * list CourseEntry)
      (y label : string) (courses : list CourseEntry) :
  fst entry <> label ->
  holds academicYears y label courses ->
  holds (addSession academicYears entry) y label courses.
Proof.
  destruct entry as [label' courses']. cbn [fst].
  intros Hne (so & Hy & Hl). unfold holds, addSession, JSObject.has.
  set (y' := year (getAcademicYear label')).
  destruct (String.eqb y y') eqn:E.
  - apply String.eqb_eq in E. rewrite <- E, Hy. cbn [negb]. rewrite Hy.
    eexists. split; [apply getOwn_set_same|].
    rewrite getOwn_set_other by congruence. exact Hl.
  - apply String.eqb_neq in E. exists so. split; [|exact Hl].
    destruct (JSObject.getOwn y' academicYears) as [so'|] eqn:E'; cbn [negb].
    + rewrite E'. rewrite getOwn_set_other by exact E. exact Hy.
    + assert (Hown := year_own label'). fold y' in Hown. rewrite Hown.
      cbn [negb]. rewrite getOwn_set_same.
      rewrite !getOwn_set_other by exact E. exact Hy.
Qed.

Lemma fold_addSession_keeps (entries : list (string * list CourseEntry))
      (academicYears : AcademicYears) (y label : string) (courses : list CourseEntry) :
  ~ In label (List.map fst entries) ->
  holds academicYears y label courses ->
  holds (fold_left addSession entries academicYears) y label courses.
Proof.
  revert academicYears. induction entries as [|e es IH]; intros ay Hnotin H;
    cbn [fold_left]; [exact H|].
  apply IH.
  - intros Hin. apply Hnotin. right. exact Hin.
  - apply addSession_keeps; [|exact H].
    intros E. apply Hnotin. left. exact E.
Qed.

Lemma fold_addSession_holds (entries : list (string * list CourseEntry))
      (academicYears : AcademicYears) (label : string) (courses : list CourseEntry) :
  NoDup (List.map fst entries) ->
  In (label, courses) entries ->
  holds (fold_left addSession entries academicYears)
        (year (getAcademicYear label)) label courses.
Proof.
  revert academicYears. induction entries as [|e es IH]; intros ay Hnd Hin;
    [destruct Hin|].
  cbn [List.map] in Hnd. inversion Hnd as [|? ? Hnotin Hnd']; subst.
  cbn [fold_left]. destruct Hin as [->|Hin].
  - apply fold_addSession_keeps; [exact Hnotin | apply addSession_holds].
  - apply IH; assumption.
Qed.

Lemma addSession_keys (academicYears : AcademicYears)
      (entry : string * list CourseEntry) (y : string) :
  In y (List.map fst (addSession academicYears entry)) ->
  y = year (getAcademicYear (fst entry)) \/ In y (List.map fst academicYears).
Proof.
  destruct entry as [label courses]. unfold addSession. cbn [fst].
  set (y' := year (getAcademicYear label)).
  set (ay1 := if negb (JSObject.has y' academicYears)
              then JSObject.set y' JSObject.empty academicYears
              else academicYears).
  assert (H1 : In y (List.map fst ay1) -> y = y' \/ In y (List.map fst academicYears)).
  { unfold ay1. destruct (negb (JSObject.has y' academicYears));
      [apply set_keys_In | auto]. }
  destruct (JSObject.getOwn y' ay1); [|exact H1].
  intros H. apply set_keys_In in H. destruct H as [H|H]; [left; exact H | auto].
Qed.

Lemma fold_addSession_keys (entries : list (string * list CourseEntry))
      (academicYears : AcademicYears) (y : string) :
  In y (List.map fst (fold_left addSession entries academicYears)) ->
  In y (List.map fst academicYears)
  \/ exists label, In label (List.map fst entries)
                   /\ y = year (getAcademicYear label).
Proof.
  revert academicYears. induction entries as [|e es IH]; intros ay H;
    cbn [fold_left] in H; [left; exact H|].
  destruct (IH _ H) as [H1|(label & Hl & Hy)].
  - apply addSession_keys in H1. destruct H1 as [H1|H1]; [|left; exact H1].
    right. exists (fst e). split; [left; reflexivity | exact H1].
  - right. exists label. split; [right; exact Hl | exact Hy].
Qed.

(** Every bucket sits in the year of its label, and every year comes from
    a label. *)
Lemma buildAcademicYears_holds (groupedData : GroupedData) (label : string)
      (courses : list CourseEntry) :
  NoDup (List.map fst groupedData) ->
  JSObject.getOwn label groupedData = Some courses ->
  holds (buildAcademicYears groupedData) (year (getAcademicYear label))
        label courses.
Proof.
  intros Hnd Hown. unfold buildAcademicYears.
  apply fold_addSession_holds; [apply entries_NoDup, Hnd|].
  apply entries_In, getOwn_In, Hown.
Qed.

Lemma buildAcademicYears_keys (groupedData : GroupedData) (y : string) :
  In y (JSObject.keys (buildAcademicYears groupedData)) ->
  exists label, In label (List.map fst groupedData)
                /\ y = year (getAcademicYear label).
Proof.
  intros H. apply (proj1 (keys_In _ _)) in H. unfold buildAcademicYears in H.
  apply fold_addSession_keys in H. destruct H as [[]|(label & Hl & Hy)].
  exists label. split; [|exact Hy].
  apply in_map_iff in Hl. destruct Hl as (x & <- & Hx).
  apply in_map, entries_In, Hx.
Qed.

(* ================================================================== *)
(** * Year pairer: which rows are emitted *)
(* ================================================================== *)

Lemma parsedYears_In (keys : list string) (n : Z) :
  In n (parsedYears keys) <-> exists k, In k keys /\ parseInt k = Some n.
Proof.
  unfold parsedYears. rewrite in_flat_map. split.
  - intros (k & Hk & Hn). exists k. split; [exact Hk|].
    destruct (parseInt k) as [m|]; [|destruct Hn].
    destruct Hn as [->|[]]. reflexivity.
  - intros (k & Hk & Hn). exists k. split; [exact Hk|].
    rewrite Hn. left. reflexivity.
Qed.

Lemma numericYears_In (academicYears : AcademicYears) (n : Z) :
  In n (numericYears academicYears)
  <-> exists k, In k (allYearKeys academicYears) /\ parseInt k = Some n.
Proof.
  unfold numericYears. rewrite <- (parsedYears_In (allYearKeys academicYears) n).
  split; apply Permutation_in;
    [apply sortNumbers_perm | apply Permutation_sym, sortNumbers_perm].
Qed.

(** With canonical keys the loop visits own keys only. *)
Lemma sortedYears_own (academicYears : AcademicYears) (y : string) :
  (forall k, In k (JSObject.keys academicYears) -> canonicalYear k) ->
  In y (sortedYears academicYears) -> In y (JSObject.keys academicYears).
Proof.
  intros Hcanon. unfold sortedYears. rewrite in_app_iff. intros [H|H].
  - apply in_map_iff in H. destruct H as (n & <- & Hn).
    apply numericYears_In in Hn. destruct Hn as (k & Hk & Hparse).
    unfold allYearKeys in Hk. apply filter_In in Hk. destruct Hk as [Hk _].
    rewrite (Hcanon k Hk n Hparse). exact Hk.
  - unfold leftoverYearKeys, allYearKeys in H.
    apply filter_In in H. destruct H as [H _].
    apply filter_In in H. tauto.
Qed.

(** A canonical key other than "Unknown" is visited. *)
Lemma sortedYears_visits (academicYears : AcademicYears) (y : string) :
  In y (JSObject.keys academicYears) -> y <> "Unknown" -> canonicalYear y ->
  In y (sortedYears academicYears).
Proof.
  intros Hy Hne Hcanon.
  assert (Hall : In y (allYearKeys academicYears)).
  { unfold allYearKeys. apply filter_In. split; [exact Hy|].
    apply String.eqb_neq in Hne. rewrite Hne. reflexivity. }
  unfold sortedYears. rewrite in_app_iff.
  destruct (parseInt y) as [n|] eqn:Hparse.
  - left. rewrite <- (Hcanon n Hparse). apply in_map.
    apply numericYears_In. exists y. split; assumption.
  - right. unfold leftoverYearKeys. apply filter_In. split; [exact Hall|].
    rewrite Hparse. reflexivity.
Qed.

Lemma traverse_succeeds {A B : Type} (f : A -> option B) (xs : list A) :
  Forall (fun x => f x <> None) xs -> exists ys, traverse f xs = Some ys.
Proof.
  induction 1 as [|x xs Hx _ [ys IH]]; cbn [traverse].
  - exists []. reflexivity.
  - destruct (f x) as [y|]; [|congruence]. rewrite IH.
    exists (y :: ys). reflexivity.
Qed.

Lemma traverse_In {A B : Type} (f : A -> option B) (xs : list A) (ys : list B)
      (x : A) :
  traverse f xs = Some ys -> In x xs -> exists y, f x = Some y /\ In y ys.
Proof.
  revert ys. induction xs as [|x' xs IH]; intros ys Htr Hin; [destruct Hin|].
  cbn [traverse] in Htr.
  destruct (f x') as [y'|] eqn:Hx'; [|discriminate].
  destruct (traverse f xs) as [ys'|]; [|discriminate].
  inversion Htr; subst. destruct Hin as [->|Hin].
  - exists y'. split; [exact Hx' | left; reflexivity].
  - destruct (IH ys' eq_refl Hin) as (y & Hy & Hiny).
    exists y. split; [exact Hy | right; exact Hiny].
Qed.

Lemma coursesOf_key (sessionsObj : JSObject.t (list CourseEntry))
      (key : option string) :
  match key with
  | Some k => In k (JSObject.keys sessionsObj)
  | None => True
  end ->
  coursesOf sessionsObj key <> None.
Proof.
  destruct key as [k|]; cbn; [|discriminate].
  intros Hk E. apply getOwn_None_notin in E. apply E.
  apply keys_In. exact Hk.
Qed.

Lemma queuePairs_left (ls rs : list string) (l : string) :
  In l ls -> nonEmpty l = true -> exists rk, In (Some l, rk) (queuePairs ls rs).
Proof.
  intros Hin Hne. revert rs. induction ls as [|l' ls IH]; intros rs;
    [destruct Hin|].
  destruct Hin as [->|Hin].
  - destruct rs as [|r rs]; cbn [queuePairs];
      rewrite (shiftKey_single_Some l Hne); eexists; left; reflexivity.
  - destruct rs as [|r rs]; cbn [queuePairs];
      [destruct (IH Hin []) as [rk H] | destruct (IH Hin rs) as [rk H]];
      exists rk; right; exact H.
Qed.

Lemma queuePairs_right (ls rs : list string) (r : string) :
  In r rs -> nonEmpty r = true -> exists lk, In (lk, Some r) (queuePairs ls rs).
Proof.
  intros Hin Hne. revert rs Hin. induction ls as [|l ls IH]; intros rs Hin.
  - cbn [queuePairs]. exists None. apply in_map_iff. exists r.
    rewrite (shiftKey_single_Some r Hne). auto.
  - destruct rs as [|r' rs]; [destruct Hin|]. cbn [queuePairs].
    destruct Hin as [->|Hin].
    + rewrite (shiftKey_single_Some r Hne). eexists. left. reflexivity.
    + destruct (IH rs Hin) as [lk H]. exists lk. right. exact H.
Qed.

Lemma withSeparators_In (paired : list TableRow) (p : TableRow) :
  In p paired -> In p (withSeparators paired).
Proof.
  intros H. unfold withSeparators. apply in_flat_map.
  exists p. split; [exact H | left; reflexivity].
Qed.

Section Emission.
Variable host : Host.

Lemma yearRows_succeeds academicYears yearStr sessionsObj :
  JSObject.getOwn yearStr academicYears = Some sessionsObj ->
  exists rows, yearRows host academicYears yearStr = Some rows.
Proof.
  intros Hown. unfold yearRows. rewrite Hown, pairLoop_queuePairs.
  set (ls := filter (test true semIRegex) (JSObject.keys sessionsObj)).
  set (rs := filter (test true semIIRegex) (JSObject.keys sessionsObj)).
  destruct (traverse_succeeds
              (fun lr => pairedRow host sessionsObj (fst lr) (snd lr))
              (queuePairs ls rs)) as [paired Hp].
  - assert (Hslots := queuePairs_slots (fun _ => True) (fun _ => True)
                        ls rs (JSObject.keys sessionsObj)
                        (incl_filter _ _) (incl_filter _ _)).
    eapply Forall_impl; [|apply Hslots; apply Forall_forall; intros; exact I].
    intros [lk rk] [Hl Hr]. cbn [fst snd] in *. unfold pairedRow.
    destruct (coursesOf sessionsObj lk) as [lc|] eqn:El.
    + destruct (coursesOf sessionsObj rk) as [rc|] eqn:Er; [discriminate|].
      exfalso. apply (coursesOf_key sessionsObj rk); [|exact Er].
      destruct rk; tauto.
    + exfalso. apply (coursesOf_key sessionsObj lk); [|exact El].
      destruct lk; tauto.
  - rewrite Hp. eexists. reflexivity.
Qed.

Lemma forYears_succeeds academicYears years :
  (forall y, In y years -> In y (JSObject.keys academicYears)) ->
  exists rows, forYears host academicYears years = Some rows.
Proof.
  induction years as [|y years IH]; intros Hown; cbn [forYears].
  - exists []. reflexivity.
  - assert (Hy : In y (List.map fst academicYears))
      by (apply keys_In, Hown; left; reflexivity).
    destruct (JSObject.getOwn y academicYears) as [so|] eqn:E;
      [|apply getOwn_None_notin in E; contradiction].
    destruct (yearRows_succeeds academicYears y so E) as [rows1 ->].
    destruct IH as [rows2 ->]; [intros k Hk; apply Hown; right; exact Hk|].
    eexists. reflexivity.
Qed.

(** With canonical year keys the table is built: no lookup fails. *)
Lemma buildRows_succeeds academicYears :
  (forall k, In k (JSObject.keys academicYears) -> canonicalYear k) ->
  exists rows, buildRows host academicYears = Some rows.
Proof.
  intros Hcanon. unfold buildRows.
  destruct (forYears_succeeds academicYears (sortedYears academicYears))
    as [rows ->].
  - intros y. apply sortedYears_own, Hcanon.
  - eexists. reflexivity.
Qed.

Lemma forYears_incl academicYears years rows y rows1 :
  forYears host academicYears years = Some rows ->
  In y years -> yearRows host academicYears y = Some rows1 ->
  incl rows1 rows.
Proof.
  revert rows. induction years as [|y' years IH]; intros rows Hrows Hin Hy;
    [destruct Hin|].
  cbn [forYears] in Hrows.
  destruct (yearRows host academicYears y') as [r1|] eqn:E1; [|discriminate].
  destruct (forYears host academicYears years) as [r2|]; [|discriminate].
  inversion Hrows; subst. destruct Hin as [->|Hin].
  - rewrite Hy in E1. inversion E1; subst. apply incl_appl, incl_refl.
  - apply incl_appr. apply (IH r2 eq_refl Hin Hy).
Qed.

(** A session of a year the loop visits gets its slot: left half for a
    label the first pattern accepts, right half for the second. *)
Lemma yearRows_shows academicYears yearStr label courses rows :
  holds academicYears yearStr label courses ->
  yearRows host academicYears yearStr = Some rows ->
  (test true semIRegex label = true ->
   exists p, In p rows /\ firstn 5 p = cellGroup host (Some label) courses)
  /\ (test true semIIRegex label = true ->
      exists p, In p rows /\ skipn 5 p = cellGroup host (Some label) courses).
Proof.
  intros (so & Hy & Hl). unfold yearRows. rewrite Hy, pairLoop_queuePairs.
  set (ls := filter (test true semIRegex) (JSObject.keys so)).
  set (rs := filter (test true semIIRegex) (JSObject.keys so)).
  destruct (traverse _ (queuePairs ls rs)) as [paired|] eqn:Htr; [|discriminate].
  intros H; inversion H; subst.
  assert (Hkey : In label (JSObject.keys so)).
  { apply keys_In. apply getOwn_In in Hl. apply (in_map fst) in Hl. exact Hl. }
  split; intros Htest.
  - destruct (queuePairs_left ls rs label) as [rk Hin].
    { apply filter_In. split; assumption. }
    { apply (test_nonEmpty semIRegex); [reflexivity | exact Htest]. }
    destruct (traverse_In _ _ _ _ Htr Hin) as (p & Hp & Hinp).
    exists p. split; [apply withSeparators_In, Hinp|].
    cbn [fst snd] in Hp. unfold pairedRow in Hp. cbn [coursesOf] in Hp.
    rewrite Hl in Hp. destruct (coursesOf so rk); [|discriminate].
    inversion Hp; subst. reflexivity.
  - destruct (queuePairs_right ls rs label) as [lk Hin].
    { apply filter_In. split; assumption. }
    { apply (test_nonEmpty semIIRegex); [reflexivity | exact Htest]. }
    destruct (traverse_In _ _ _ _ Htr Hin) as (p & Hp & Hinp).
    exists p. split; [apply withSeparators_In, Hinp|].
    cbn [fst snd] in Hp. unfold pairedRow in Hp. cbn [coursesOf] in Hp.
    rewrite Hl in Hp. destruct (coursesOf so lk); [|discriminate].
    inversion Hp; subst. reflexivity.
Qed.

End Emission.

(* ================================================================== *)
(** * Footer-only sessions *)
(* ================================================================== *)

Section FooterSessions.
Variable host : Host.

Lemma groupStep_NoDup g cur row g' cur' :
  NoDup (List.map fst g) -> groupStep host (g, cur) row = Some (g', cur') ->
  NoDup (List.map fst g').
Proof.
  intros Hnd. unfold groupStep.
  destruct (isTrulyBlankRow host row); [intros H; inversion H; subst; exact Hnd|].
  set (key := sessionKeyFor host cur row).
  set (g1 := if negb (JSObject.has key g) then JSObject.set key [] g else g).
  assert (H1 : NoDup (List.map fst g1)).
  { unfold g1. destruct (negb (JSObject.has key g)); [apply set_NoDup|]; exact Hnd. }
  destruct (negb (isFooter (Course row))).
  - destruct (JSObject.getOwn key g1); [|discriminate].
    intros H; inversion H; subst. apply set_NoDup, H1.
  - intros H; inversion H; subst. exact H1.
Qed.

Lemma groupFrom_NoDup rows st st' :
  NoDup (List.map fst (fst st)) -> groupFrom host st rows = Some st' ->
  NoDup (List.map fst (fst st')).
Proof.
  revert st. induction rows as [|row rows IH]; intros [g cur]; cbn [groupFrom].
  - intros Hnd H; inversion H; subst. exact Hnd.
  - intros Hnd. destruct (groupStep host (g, cur) row) as [[g1 cur1]|] eqn:Hstep;
      [|discriminate].
    apply IH. exact (groupStep_NoDup _ _ _ _ _ Hnd Hstep).
Qed.

Lemma groupRows_NoDup rows g :
  groupRows host rows = Some g -> NoDup (List.map fst g).
Proof.
  unfold groupRows.
  destruct (groupFrom host (JSObject.empty, None) rows) as [[g0 cur]|] eqn:E;
    [|discriminate].
  intros H; inversion H; subst.
  apply (groupFrom_NoDup rows (JSObject.empty, None) (g, cur)); [constructor | exact E].
Qed.



Lemma canonical_keys (g : GroupedData) :
  (forall l, In l (List.map fst g) -> canonicalYear (year (getAcademicYear l))) ->
  forall k, In k (JSObject.keys (buildAcademicYears g)) -> canonicalYear k.
Proof.
  intros Hcanon k Hk. apply buildAcademicYears_keys in Hk.
  destruct Hk as (l & Hl & ->). apply Hcanon, Hl.
Qed.

(** A bucket whose label one of the patterns accepts gets its slot in the
    table, with its column lines, when the year keys are canonical. *)
Lemma bucket_shown (g : GroupedData) (label : string)
      (courses : list CourseEntry) :
  NoDup (List.map fst g) ->
  JSObject.getOwn label g = Some courses ->
  test true semIRegex label = true \/ test true semIIRegex label = true ->
  numeralYear (year (getAcademicYear label)) ->
  (forall l, In l (List.map fst g) -> canonicalYear (year (getAcademicYear l))) ->
  exists rows p,
    buildRows host (buildAcademicYears g) = Some rows
    /\ In p rows
    /\ (firstn 5 p = cellGroup host (Some label) courses
        \/ skipn 5 p = cellGroup host (Some label) courses).
Proof.
  intros Hnd Hown Htest (n & Hparse & Hnum) Hcanon.
  set (ay := buildAcademicYears g).
  set (y := year (getAcademicYear label)) in *.
  assert (Hholds : holds ay y label courses)
    by (apply buildAcademicYears_holds; assumption).
  destruct (buildRows_succeeds host ay (canonical_keys g Hcanon)) as [rows Hrows].
  assert (Hvisit : In y (sortedYears ay)).
  { apply sortedYears_visits.
    - destruct Hholds as (so & Hy & _). apply keys_In.
      apply getOwn_In in Hy. apply (in_map fst) in Hy. exact Hy.
    - intros E. rewrite E in Hparse. discriminate.
    - intros m Hm. rewrite Hparse in Hm. inversion Hm; subst. exact Hnum. }
  unfold buildRows in Hrows.
  destruct (forYears host ay (sortedYears ay)) as [body|] eqn:Hbody; [|discriminate].
  cbn in Hrows. inversion Hrows; subst rows.
  destruct Hholds as (so & Hy & Hl).
  destruct (yearRows_succeeds host ay y so Hy) as [rows1 Hrows1].
  assert (Hincl := forYears_incl host ay _ body y rows1 Hbody Hvisit Hrows1).
  destruct (yearRows_shows host ay y label courses rows1
              (ex_intro _ so (conj Hy Hl)) Hrows1) as [HI HII].
  destruct Htest as [Ht|Ht]; [destruct (HI Ht) as (p & Hp & Hslot)
                             | destruct (HII Ht) as (p & Hp & Hslot)];
    exists (headerRow :: body), p;
    (split; [unfold buildRows; fold ay; rewrite Hbody; reflexivity|]);
    (split; [right; apply Hincl, Hp|]); [left | right]; exact Hslot.
Qed.

Lemma blankRow_shows (label : string) : shows blankRow label -> label = "".
Proof. intros [H|H]; cbn in H; inversion H; reflexivity. Qed.

End FooterSessions.

Section FooterOnly.
Variable host : Host.



End FooterOnly.

(* ================================================================== *)
(** * The properties on sample inputs *)
(* ================================================================== *)

Lemma aug18_first : FirstSessionAt firstHalfMonths "I" "Aug-18 Sem I" "" "18".
Proof.
  split; [|intros; cbn; lia].
  exists "Aug", " ", "Sem", " ", "I", "".
  split; [reflexivity|].
  split; [exists "Aug"; split; [left|]; reflexivity|].
  repeat split; cbn; lia.
Qed.

Lemma jan18_first : FirstSessionAt secondHalfMonths "II" "Jan-18 Sem II" "" "18".
Proof.
  split; [|intros; cbn; lia].
  exists "Jan", " ", "Sem", " ", "II", "".
  split; [reflexivity|].
  split; [exists "Jan"; split; [left|]; reflexivity|].
  repeat split; cbn; lia.
Qed.

Lemma jan18_no_first_half : SessionNowhere firstHalfMonths "I" "Jan-18 Sem II".
Proof. apply Classifier.exec_None; [discriminate | reflexivity]. Qed.

Lemma plain_no_first_half : SessionNowhere firstHalfMonths "I" "NoSession".
Proof. apply Classifier.exec_None; [discriminate | reflexivity]. Qed.

Lemma plain_no_second_half : SessionNowhere secondHalfMonths "II" "NoSession".
Proof. apply Classifier.exec_None; [discriminate | reflexivity]. Qed.

(** C1 on the two labels of the specification and on a label without a
    session. *)
Lemma getAcademicYear_cases_witness :
  FirstSessionAt firstHalfMonths "I" "Aug-18 Sem I" "" "18"
  /\ getAcademicYear "Aug-18 Sem I" = mkAcademicYear "18" (Some SemI)
  /\ SessionNowhere firstHalfMonths "I" "Jan-18 Sem II"
  /\ FirstSessionAt secondHalfMonths "II" "Jan-18 Sem II" "" "18"
  /\ getAcademicYear "Jan-18 Sem II" = mkAcademicYear "17" (Some SemII)
  /\ SessionNowhere firstHalfMonths "I" "NoSession"
  /\ SessionNowhere secondHalfMonths "II" "NoSession"
  /\ getAcademicYear "NoSession" = mkAcademicYear "Unknown" None.
Proof.
  split; [exact aug18_first|].
  split; [exact (proj1 (getAcademicYear_cases "Aug-18 Sem I") "" "18" aug18_first)|].
  split; [exact jan18_no_first_half|].
  split; [exact jan18_first|].
  split; [exact (proj1 (proj2 (getAcademicYear_cases "Jan-18 Sem II")) "" "18"
                       jan18_no_first_half jan18_first)|].
  split; [exact plain_no_first_half|].
  split; [exact plain_no_second_half|].
  exact (proj1 (proj2 (proj2 (getAcademicYear_cases "NoSession")))
               plain_no_first_half plain_no_second_half).
Defined.

(** The patterns are found anywhere in the label, in either case, with two
    to four digits. *)
Lemma getAcademicYear_examples :
  getAcademicYear "Fall term aug-2018   semi" = mkAcademicYear "2018" (Some SemI)
  /\ getAcademicYear "Aug-18 Sem II" = mkAcademicYear "18" (Some SemI)
  /\ getAcademicYear "Jan-00 Sem II" = mkAcademicYear "-1" (Some SemII)
  /\ getAcademicYear "Jan-08 Sem II" = mkAcademicYear "7" (Some SemII)
  /\ getAcademicYear "Aug-12345 Sem I" = mkAcademicYear "Unknown" None
  /\ getAcademicYear "Jul-18 Sem I" = mkAcademicYear "Unknown" None.
Proof. repeat split. Qed.

(** C1 as stated fails: the second pattern stands in the label, with the
    digits 18, and the first pattern stands further on; the first pattern
    is tested first, and the label is classified by it, not as year 17 of
    half II. *)
Lemma both_patterns_first_wins :
  FirstSessionAt secondHalfMonths "II" "Jan-18 Sem II then Aug-19 Sem I" "" "18"
  /\ test true semIIRegex "Jan-18 Sem II then Aug-19 Sem I" = true
  /\ getAcademicYear "Jan-18 Sem II then Aug-19 Sem I"
     = mkAcademicYear "19" (Some SemI)
  /\ getAcademicYear "Jan-18 Sem II then Aug-19 Sem I"
     <> mkAcademicYear "17" (Some SemII).
Proof.
  split; [|split; [reflexivity | split; [reflexivity | discriminate]]].
  split; [|intros; cbn; lia].
  exists "Jan", " ", "Sem", " ", "II", " then Aug-19 Sem I".
  split; [reflexivity|].
  split; [exists "Jan"; split; [left|]; reflexivity|].
  repeat split; cbn; lia.
Qed.

(** C4 as stated fails: the second "Aug-18 Sem I" row stands after the
    boundary and is appended to the bucket filled before it. *)
Lemma boundary_bucket_reopened :
  isTrulyBlankRow UTC.host blankProcessed = true
  /\ groupRows UTC.host [sampleRow "Aug-18 Sem I" "Intro" "101" "A"]
     = Some [("Aug-18 Sem I", [sampleEntry "Intro" "101" "A"])]
  /\ groupRows UTC.host [sampleRow "Aug-18 Sem I" "Intro" "101" "A";
                         blankProcessed;
                         sampleRow "Aug-18 Sem I" "Greek" "102" "B"]
     = Some [("Aug-18 Sem I", [sampleEntry "Intro" "101" "A";
                               sampleEntry "Greek" "102" "B"])].
Proof. repeat split. Qed.

(** C4, as the code has it, on a sample: after the boundary a continuation
    row and a spring row leave the autumn bucket alone; a second autumn row
    after them extends the bucket as it stood at the boundary, and a footer
    line naming the autumn keeps it as it is. *)
Lemma boundary_closes_until_renamed_witness :
  groupFrom UTC.host (JSObject.empty, None)
            [sampleRow "Aug-18 Sem I" "Intro" "101" "A"]
  = Some ([("Aug-18 Sem I", [sampleEntry "Intro" "101" "A"])], Some "Aug-18 Sem I")
  /\ isTrulyBlankRow UTC.host blankProcessed = true
  /\ "Aug-18 Sem I" <> "NoSession"
  /\ (forall g' cur',
         groupFrom UTC.host (JSObject.empty, None)
                   ([sampleRow "Aug-18 Sem I" "Intro" "101" "A"]
                      ++ blankProcessed
                      :: [continuationRow "Greek" "102" "B";
                          sampleRow "Jan-19 Sem II" "Hebrew" "103" "C"])
         = Some (g', cur') ->
         JSObject.getOwn "Aug-18 Sem I" g'
         = Some [sampleEntry "Intro" "101" "A"])
  /\ (exists g',
         groupFrom UTC.host (JSObject.empty, None)
                   ([sampleRow "Aug-18 Sem I" "Intro" "101" "A"]
                      ++ blankProcessed
                      :: [continuationRow "Greek" "102" "B";
                          sampleRow "Jan-19 Sem II" "Hebrew" "103" "C"]
                      ++ [sampleRow "Aug-18 Sem I" "Latin" "104" "B"])
         = Some (g', Some "Aug-18 Sem I")
         /\ JSObject.getOwn "Aug-18 Sem I" g'
            = Some ([sampleEntry "Intro" "101" "A"]
                      ++ [entryOf (sampleRow "Aug-18 Sem I" "Latin" "104" "B")]))
  /\ (exists g',
         groupFrom UTC.host (JSObject.empty, None)
                   ([sampleRow "Aug-18 Sem I" "Intro" "101" "A"]
                      ++ blankProcessed
                      :: [continuationRow "Greek" "102" "B"]
                      ++ [footerSession "Aug-18 Sem I"])
         = Some (g', Some "Aug-18 Sem I")
         /\ JSObject.getOwn "Aug-18 Sem I" g'
            = Some [sampleEntry "Intro" "101" "A"]).
Proof.
  assert (Hpre : groupFrom UTC.host (JSObject.empty, None)
                           [sampleRow "Aug-18 Sem I" "Intro" "101" "A"]
                 = Some ([("Aug-18 Sem I", [sampleEntry "Intro" "101" "A"])],
                         Some "Aug-18 Sem I")) by reflexivity.
  assert (Hb : isTrulyBlankRow UTC.host blankProcessed = true) by reflexivity.
  assert (Hns : "Aug-18 Sem I" <> "NoSession") by discriminate.
  assert (Hin : In "Aug-18 Sem I"
                   (List.map fst [("Aug-18 Sem I",
                                   [sampleEntry "Intro" "101" "A"])]))
    by (left; reflexivity).
  destruct (boundary_closes_until_renamed
              UTC.host _ blankProcessed _ _ "Aug-18 Sem I" Hpre Hb Hns)
    as (Hclosed & Hagain & Hfirst).
  split; [exact Hpre|]. split; [exact Hb|]. split; [exact Hns|].
  split; [|split].
  - intros g' cur'. apply Hclosed.
    repeat constructor; intros [Hraw Hsem]; discriminate.
  - destruct (Hfirst [continuationRow "Greek" "102" "B";
                      sampleRow "Jan-19 Sem II" "Hebrew" "103" "C"]
                     (sampleRow "Aug-18 Sem I" "Latin" "104" "B")
                     _ _ Hin
                     ltac:(repeat constructor; intros [Hraw Hsem]; discriminate)
                     eq_refl ltac:(split; reflexivity) eq_refl)
      as (g' & Hrun & Hown).
    exists g'. split; [exact Hrun | exact Hown].
  - destruct (Hagain [continuationRow "Greek" "102" "B"]
                     (footerSession "Aug-18 Sem I")
                     _ _ Hin eq_refl ltac:(split; reflexivity))
      as (g' & Hrun & Hown & _).
    exists g'. split; [exact Hrun|]. rewrite Hown. reflexivity.
Defined.


Lemma footerProcessed_text : FooterText (Course footerProcessed).
Proof. apply isFooter_iff. reflexivity. Qed.

(** C7 on a sample: a course row, then a footer row. *)
Lemma footer_rows_excluded_witness :
  groupRows UTC.host [sampleRow "Aug-18 Sem I" "Intro" "101" "A"; footerProcessed]
  = Some [("Aug-18 Sem I", [sampleEntry "Intro" "101" "A"])]
  /\ FooterText (Course footerProcessed)
  /\ JSObject.getOwn "Aug-18 Sem I"
                     [("Aug-18 Sem I", [sampleEntry "Intro" "101" "A"])]
     = Some [sampleEntry "Intro" "101" "A"]
  /\ ~ In (entryOf footerProcessed) [sampleEntry "Intro" "101" "A"].
Proof.
  split; [reflexivity|]. split; [exact footerProcessed_text|].
  split; [reflexivity|].
  exact (footer_rows_excluded
           UTC.host
           [sampleRow "Aug-18 Sem I" "Intro" "101" "A"; footerProcessed]
           _ footerProcessed eq_refl footerProcessed_text
           "Aug-18 Sem I" _ eq_refl).
Defined.

Lemma sampleBuckets_rows :
  buildRows UTC.host (buildAcademicYears sampleBuckets)
  = Some [headerRow;
          [["Aug-18 Sem I"]; ["Intro"]; ["101"]; ["A"]; ["3"];
           ["Jan-19 Sem II"]; ["Greek"]; ["102"]; ["B"]; ["3"]];
          blankRow;
          [["Aug-19 Sem I"]; ["Hebrew"]; ["103"]; ["C"]; ["3"];
           [""]; []; []; []; []];
          blankRow].
Proof. reflexivity. Qed.

(** C9 on the three sample buckets. *)
Lemma separator_after_every_pair_witness :
  buildRows UTC.host (buildAcademicYears sampleBuckets)
  = Some [headerRow;
          [["Aug-18 Sem I"]; ["Intro"]; ["101"]; ["A"]; ["3"];
           ["Jan-19 Sem II"]; ["Greek"]; ["102"]; ["B"]; ["3"]];
          blankRow;
          [["Aug-19 Sem I"]; ["Hebrew"]; ["103"]; ["C"]; ["3"];
           [""]; []; []; []; []];
          blankRow]
  /\ exists paired : list TableRow,
       [headerRow;
        [["Aug-18 Sem I"]; ["Intro"]; ["101"]; ["A"]; ["3"];
         ["Jan-19 Sem II"]; ["Greek"]; ["102"]; ["B"]; ["3"]];
        blankRow;
        [["Aug-19 Sem I"]; ["Hebrew"]; ["103"]; ["C"]; ["3"];
         [""]; []; []; []; []];
        blankRow]
       = headerRow :: withSeparators paired
       /\ Forall (PairedRow UTC.host (buildAcademicYears sampleBuckets)) paired
       /\ Forall (fun p => List.length p = 10 /\ p <> blankRow) paired
       /\ blankRow = repeat [""] 10.
Proof.
  split; [exact sampleBuckets_rows|].
  exact (separator_after_every_pair
           UTC.host (buildAcademicYears sampleBuckets) _ sampleBuckets_rows).
Defined.

(** C3 as stated fails: a course row with no session of its own is filed
    under "NoSession", which is classified "Unknown"; that year is a key of
    the academic years, no position of the order holds it, and the table
    has the header row only. *)
Lemma unknown_year_dropped :
  classifiedUnknown "NoSession"
  /\ JSObject.keys (buildAcademicYears
                      [("NoSession", [sampleEntry "Intro" "101" "A"])])
     = ["Unknown"]
  /\ sortedYears (buildAcademicYears
                    [("NoSession", [sampleEntry "Intro" "101" "A"])])
     = []
  /\ buildRows UTC.host
               (buildAcademicYears
                  [("NoSession", [sampleEntry "Intro" "101" "A"])])
     = Some [headerRow]
  /\ handleGenerateTranscript UTC.host
       [(3, [JSUndefined; JSUndefined; JSString "101 Intro"; JSString "A";
             JSNumber 3])]
     = Some [headerRow].
Proof. repeat split. Qed.

Lemma centuryBuckets_rows :
  buildRows UTC.host (buildAcademicYears centuryBuckets)
  = Some [headerRow;
          [[""]; []; []; []; [];
           ["Jan-00 Sem II"]; ["Greek"]; ["102"]; ["B"]; ["3"]];
          blankRow;
          [["Aug-99 Sem I"]; ["Intro"]; ["101"]; ["A"]; ["3"];
           [""]; []; []; []; []];
          blankRow].
Proof. reflexivity. Qed.

(** C3, as the code has it, on the autumn of 99 and the spring of 00: the
    years are created as "99" and "-1", the order is -1 before 99, and the
    table has the rows of year -1 before those of year 99. *)
Lemma sortedYears_order_witness :
  JSObject.keys (buildAcademicYears centuryBuckets) = ["99"; "-1"]
  /\ sortedYears (buildAcademicYears centuryBuckets) = ["-1"; "99"]
  /\ ~ In "Unknown" (sortedYears (buildAcademicYears centuryBuckets))
  /\ exists blocks : list (list TableRow),
       [headerRow;
        [[""]; []; []; []; [];
         ["Jan-00 Sem II"]; ["Greek"]; ["102"]; ["B"]; ["3"]];
        blankRow;
        [["Aug-99 Sem I"]; ["Intro"]; ["101"]; ["A"]; ["3"];
         [""]; []; []; []; []];
        blankRow]
       = headerRow :: List.concat blocks
       /\ Forall2 (YearBlock UTC.host (buildAcademicYears centuryBuckets))
                  (sortedYears (buildAcademicYears centuryBuckets)) blocks.
Proof.
  split; [reflexivity|]. split; [reflexivity|].
  destruct (sortedYears_order UTC.host (buildAcademicYears centuryBuckets))
    as (_ & _ & _ & _ & Hunknown & _ & Hblocks).
  split; [exact Hunknown|].
  exact (Hblocks _ centuryBuckets_rows).
Defined.



(** The pairing sample of the specification: buckets for autumn 18, spring
    19 and autumn 19 give two paired rows, each with its separator, year 18
    before year 19. *)
Lemma yearPairer_sample :
  sortedYears (buildAcademicYears sampleBuckets) = ["18"; "19"]
  /\ exists p18 p19,
       buildRows UTC.host (buildAcademicYears sampleBuckets)
       = Some [headerRow; p18; blankRow; p19; blankRow]
       /\ shows p18 "Aug-18 Sem I" /\ shows p18 "Jan-19 Sem II"
       /\ shows p19 "Aug-19 Sem I".
Proof.
  split; [reflexivity|]. eexists _, _. split; [reflexivity|].
  repeat split; (left; reflexivity) || (right; reflexivity).
Qed.

(** A two-digit year with a leading zero: the year key "08" is looked up as
    "8", which the object does not hold, and the run ends in the handler. *)
Lemma leading_zero_year_throws :
  JSObject.keys (buildAcademicYears
                   [("Aug-08 Sem I", [sampleEntry "Intro" "101" "A"])])
  = ["08"]
  /\ sortedYears (buildAcademicYears
                    [("Aug-08 Sem I", [sampleEntry "Intro" "101" "A"])])
     = ["8"]
  /\ buildRows UTC.host
               (buildAcademicYears
                  [("Aug-08 Sem I", [sampleEntry "Intro" "101" "A"])])
     = None.
Proof. repeat split. Qed.

(** A session value that names a property every object inherits: a course
    row under it ends the run, a footer row under it leaves no bucket. *)
Lemma inherited_name_session :
  groupRows UTC.host [sampleRow "toString" "Intro" "101" "A"] = None
  /\ groupRows UTC.host [footerSession "toString"] = Some [].
Proof. split; reflexivity. Qed.

(** The end-to-end sample of the specification: the autumn and the spring
    of the same calendar year fall in different academic years. *)
Lemma handleGenerateTranscript_sample :
  handleGenerateTranscript UTC.host
    [(1, [JSUndefined; JSString "Sem."]);
     (2, [JSUndefined]);
     (3, [JSUndefined; JSString "2018-08-20"; JSString "101 Course A";
          JSString "A"; JSNumber 3]);
     (4, [JSUndefined; JSString " "]);
     (5, [JSUndefined; JSString "2018-01-15"; JSString "102 Course B";
          JSString "B"; JSNumber 3])]
  = Some [headerRow;
          [[""]; []; []; []; [];
           ["Jan-18 Sem II"]; ["Course B"]; ["102"]; ["B"]; ["3"]];
          blankRow;
          [["Aug-18 Sem I"]; ["Course A"]; ["101"]; ["A"]; ["3"];
           [""]; []; []; []; []];
          blankRow].
Proof. reflexivity. Qed.

(* ================================================================== *)
(** * Strings: reversal and trimming *)
(* ================================================================== *)

Lemma rev_onto_append (s acc : string) :
  rev_onto s acc = (Str.rev s ++ acc)%string.
Proof.
  unfold Str.rev. revert acc.
  induction s as [|c s IH]; intros acc; cbn [rev_onto]; [reflexivity|].
  rewrite (IH (String c acc)), (IH (String c "")), append_assoc. reflexivity.
Qed.

Lemma rev_cons (c : ascii) (s : string) :
  Str.rev (String c s) = (Str.rev s ++ String c "")%string.
Proof. unfold Str.rev at 1. cbn [rev_onto]. apply rev_onto_append. Qed.

Lemma rev_append (a b : string) :
  Str.rev (a ++ b) = (Str.rev b ++ Str.rev a)%string.
Proof.
  induction a as [|c a IH]; cbn [append].
  - change (Str.rev "") with "". rewrite append_nil_r. reflexivity.
  - rewrite !rev_cons, IH, append_assoc. reflexivity.
Qed.

Lemma rev_involutive (s : string) : Str.rev (Str.rev s) = s.
Proof.
  induction s as [|c s IH]; [reflexivity|].
  rewrite rev_cons, rev_append, IH. reflexivity.
Qed.

Lemma rev_length (s : string) : String.length (Str.rev s) = String.length s.
Proof.
  induction s as [|c s IH]; [reflexivity|].
  rewrite rev_cons, length_append, IH. cbn. lia.
Qed.

Lemma forallb_append (p : ascii -> bool) (a b : string) :
  Str.forallb p (a ++ b) = Str.forallb p a && Str.forallb p b.
Proof.
  induction a as [|c a IH]; cbn; [reflexivity|].
  rewrite IH, andb_assoc. reflexivity.
Qed.

Lemma forallb_rev (p : ascii -> bool) (s : string) :
  Str.forallb p (Str.rev s) = Str.forallb p s.
Proof.
  induction s as [|c s IH]; [reflexivity|].
  rewrite rev_cons, forallb_append, IH. cbn. rewrite andb_true_r.
  apply andb_comm.
Qed.

(** What [dropWhile] removes satisfies the test, what it leaves does not
    begin with a character that does. *)
Lemma dropWhile_split (p : ascii -> bool) (s : string) :
  exists a, s = (a ++ dropWhile p s)%string /\ Str.forallb p a = true.
Proof.
  induction s as [|c s (a & Hs & Ha)]; cbn [dropWhile].
  - exists "". auto.
  - destruct (p c) eqn:Hc.
    + exists (String c a). cbn. rewrite Hc, Ha, <- Hs. auto.
    + exists "". auto.
Qed.

Lemma dropWhile_clear (s : string) : startsClear (dropWhile isSpace s).
Proof.
  induction s as [|c s IH]; cbn [dropWhile]; [exact I|].
  destruct (isSpace c) eqn:Hc; [exact IH | exact Hc].
Qed.

Lemma dropWhile_fixed (s : string) :
  startsClear s -> dropWhile isSpace s = s.
Proof. destruct s as [|c s]; cbn; [reflexivity | intros ->; reflexivity]. Qed.

Lemma startsClear_append (a b : string) :
  a <> "" -> startsClear (a ++ b) <-> startsClear a.
Proof. destruct a; [congruence | reflexivity]. Qed.

Lemma dropWhile_append_clear (a b : string) :
  b <> "" -> startsClear b ->
  exists a', dropWhile isSpace (a ++ b) = (a' ++ b)%string.
Proof.
  intros Hb Hc. induction a as [|c a (a' & IH)]; cbn [append dropWhile].
  - exists "". apply dropWhile_fixed. exact Hc.
  - destruct (isSpace c); [exists a'; exact IH | exists (String c a); reflexivity].
Qed.

(** A trimmed text begins and ends clear of white space. *)
Lemma trim_endsClear (s : string) : endsClear (trim s).
Proof.
  unfold endsClear, trim. rewrite rev_involutive. apply dropWhile_clear.
Qed.

Lemma trim_startsClear (s : string) : startsClear (trim s).
Proof.
  unfold trim.
  assert (H := dropWhile_clear s).
  destruct (dropWhile isSpace s) as [|c u]; [exact I|].
  rewrite rev_cons.
  destruct (dropWhile_append_clear (Str.rev u) (String c "")) as [a' E];
    [discriminate | exact H |].
  rewrite E, rev_append. exact H.
Qed.

(** A text clear at both ends is left as it is. *)
Lemma trim_fixed (s : string) : startsClear s -> endsClear s -> trim s = s.
Proof.
  intros Hs He. unfold trim.
  rewrite (dropWhile_fixed s Hs), (dropWhile_fixed _ He).
  apply rev_involutive.
Qed.

Lemma trim_idempotent (s : string) : trim (trim s) = trim s.
Proof. apply trim_fixed; [apply trim_startsClear | apply trim_endsClear]. Qed.

Lemma trim_spaces (s : string) :
  exists a b, s = (a ++ trim s ++ b)%string
              /\ Str.forallb isSpace a = true /\ Str.forallb isSpace b = true.
Proof.
  unfold trim.
  destruct (dropWhile_split isSpace s) as (a & Hs & Ha).
  destruct (dropWhile_split isSpace (Str.rev (dropWhile isSpace s)))
    as (b & Hr & Hb).
  exists a, (Str.rev b). split; [|split].
  - rewrite <- rev_append, <- Hr, rev_involutive. exact Hs.
  - exact Ha.
  - rewrite forallb_rev. exact Hb.
Qed.

Lemma endsClear_suffix (a b : string) :
  endsClear (a ++ b) -> b <> "" -> endsClear b.
Proof.
  unfold endsClear. rewrite rev_append. intros H Hb.
  apply (startsClear_append (Str.rev b) (Str.rev a)); [|exact H].
  intros E. apply Hb. rewrite <- (rev_involutive b), E. reflexivity.
Qed.

Lemma spaces_not_endsClear (a : string) :
  Str.forallb isSpace a = true -> 1 <= String.length a -> ~ endsClear a.
Proof.
  unfold endsClear. intros Ha Hl.
  rewrite <- forallb_rev in Ha. rewrite <- rev_length in Hl.
  destruct (Str.rev a) as [|c r]; [cbn in Hl; lia|].
  cbn in Ha |- *. apply andb_true_iff in Ha. destruct Ha as [-> _].
  discriminate.
Qed.

(* ================================================================== *)
(** * Field parser: what a split returns *)
(* ================================================================== *)

Module FieldSplit.

(** The match is the greedy one: all the digits, all the white space. *)
Lemma catNoRegex_exact (t : string) (m : MatchState) :
  exec false catNoRegex t = Some m ->
  exists w,
    t = (group 1 m ++ w ++ group 2 m)%string
    /\ Str.forallb isDigit (group 1 m) = true /\ 1 <= String.length (group 1 m)
    /\ Str.forallb isSpace w = true /\ 1 <= String.length w
    /\ startsClear (group 2 m)
    /\ Str.forallb isDot (group 2 m) = true.
Proof.
  intros E. destruct (FieldParser.catNoRegex_sound t m E)
    as (d & w & r & Ht & Hd & Hld & Hw & Hlw & Hdot).
  destruct (dropWhile_split isSpace r) as (w' & Hr & Hw').
  set (r' := dropWhile isSpace r) in *.
  assert (Hdot' : Str.forallb isDot r' = true).
  { rewrite Hr, forallb_append in Hdot. apply andb_true_iff in Hdot. tauto. }
  assert (Hclear : startsClear r') by apply dropWhile_clear.
  assert (Hww : Str.forallb isSpace (w ++ w') = true)
    by (rewrite forallb_append, Hw, Hw'; reflexivity).
  assert (Hlww : 1 <= String.length (w ++ w'))
    by (rewrite length_append; lia).
  destruct (FieldParser.catNoRegex_greedy d (w ++ w') r' Hd Hld Hww Hlww
                                          Hclear Hdot')
    as (m' & Hm' & H1 & H2).
  assert (Ht' : t = (d ++ (w ++ w') ++ r')%string)
    by (rewrite Ht, Hr, append_assoc; reflexivity).
  rewrite <- Ht', E in Hm'. inversion Hm'; subst m'.
  exists (w ++ w')%string. rewrite H1, H2. auto 10.
Qed.

(** After the digits and the white space of a text that ends clear, the
    rest is not empty and is clear at both ends. *)
Lemma course_clear (d w r : string) :
  endsClear (d ++ w ++ r) ->
  Str.forallb isSpace w = true -> 1 <= String.length w ->
  startsClear r ->
  r <> "" /\ trim r = r.
Proof.
  intros Hend Hw Hlw Hclear.
  assert (Hne : r <> "").
  { intros E. rewrite E, append_nil_r in Hend.
    apply endsClear_suffix in Hend;
      [|destruct w; [cbn in Hlw; lia | discriminate]].
    exact (spaces_not_endsClear w Hw Hlw Hend). }
  split; [exact Hne|].
  apply trim_fixed; [exact Hclear|].
  rewrite <- append_assoc in Hend. exact (endsClear_suffix _ _ Hend Hne).
Qed.

End FieldSplit.

Section FieldSplitFacts.
Variable host : Host.

(** X1: the course name the parser returns is never padded: it has no white
    space at either end, whichever way the cell was split; the category
    number is a run of digits, possibly empty; and the course name is empty
    only for a cell whose trimmed text is empty. *)
Theorem splitCatNoAndCourse_trimmed :
  forall value : Value,
    let strVal := trim (ToString host (orEmpty value)) in
    let catNo := fst (splitCatNoAndCourse host value) in
    let courseName := snd (splitCatNoAndCourse host value) in
    trim courseName = courseName
    /\ Str.forallb isDigit catNo = true
    /\ (courseName = "" <-> strVal = "").
Proof.
  intros value strVal. unfold splitCatNoAndCourse. fold strVal.
  destruct (exec false catNoRegex strVal) as [m|] eqn:E; cbn [fst snd].
  - destruct (FieldSplit.catNoRegex_exact strVal m E)
      as (w & Ht & Hd & Hld & Hw & Hlw & Hclear & Hdot).
    assert (Hend : endsClear strVal) by apply trim_endsClear.
    rewrite Ht in Hend.
    destruct (FieldSplit.course_clear _ w _ Hend Hw Hlw Hclear) as [Hne Htrim].
    split; [exact Htrim|]. split; [exact Hd|].
    split; [intros E2; contradiction|].
    intros E0. rewrite E0 in Ht.
    destruct (group 1 m); [cbn in Hld; lia | discriminate].
  - split; [apply trim_idempotent | split; [reflexivity | tauto]].
Qed.

(** X2: when the parser returns a category number, the trimmed cell text can be
    put together again from the two parts and the white space between
    them, and the course name is a non-empty single line. *)
Theorem splitCatNoAndCourse_rebuild :
  forall (value : Value) (catNo courseName : string),
    splitCatNoAndCourse host value = (catNo, courseName) ->
    catNo <> "" ->
    exists w,
      trim (ToString host (orEmpty value)) = (catNo ++ w ++ courseName)%string
      /\ Str.forallb isSpace w = true /\ 1 <= String.length w
      /\ Str.forallb isDot courseName = true
      /\ courseName <> "".
Proof.
  intros value catNo courseName. unfold splitCatNoAndCourse.
  set (strVal := trim (ToString host (orEmpty value))).
  destruct (exec false catNoRegex strVal) as [m|] eqn:E.
  - intros H _. inversion H; subst catNo courseName.
    destruct (FieldSplit.catNoRegex_exact strVal m E)
      as (w & Ht & Hd & Hld & Hw & Hlw & Hclear & Hdot).
    assert (Hend : endsClear strVal) by apply trim_endsClear.
    rewrite Ht in Hend.
    destruct (FieldSplit.course_clear _ w _ Hend Hw Hlw Hclear) as [Hne _].
    exists w. repeat split; assumption.
  - intros H Hne. inversion H. congruence.
Qed.

(** X3: a worksheet row is a session boundary exactly when its four cells have
    no text: splitting the combined cell never turns a cell with text into
    an empty course. *)
Theorem blank_row_iff :
  forall item : RowData,
    isTrulyBlankRow host (processRow host item) = true
    <-> cellText host (sem item) = ""
        /\ cellText host (catAndCourse item) = ""
        /\ cellText host (grade item) = ""
        /\ cellText host (semHrs item) = "".
Proof.
  intros item.
  assert (Hcourse : forall courseName,
             trim courseName = courseName ->
             cellText host (JSString courseName) = courseName).
  { intros courseName Htrim. unfold cellText, orEmpty. cbn [truthy ToString].
    destruct courseName; [reflexivity | exact Htrim]. }
  assert (Hn : forall s, nonEmpty s = false <-> s = "")
    by (intros [|c s]; cbn; split; congruence).
  unfold processRow, isTrulyBlankRow, splitCatNoAndCourse.
  fold (cellText host (catAndCourse item)).
  set (strVal := cellText host (catAndCourse item)).
  destruct (exec false catNoRegex strVal) as [m|] eqn:E;
    cbn [rawSem Course Grade SemHrs].
  - destruct (FieldSplit.catNoRegex_exact strVal m E)
      as (w & Ht & Hd & Hld & Hw & Hlw & Hclear & Hdot).
    assert (Hend : endsClear strVal) by apply trim_endsClear.
    rewrite Ht in Hend.
    destruct (FieldSplit.course_clear _ w _ Hend Hw Hlw Hclear) as [Hne Htrim].
    rewrite (Hcourse _ Htrim).
    assert (Hstr : strVal <> "").
    { rewrite Ht. destruct (group 1 m); [cbn in Hld; lia | discriminate]. }
    rewrite !andb_true_iff, !negb_true_iff, !Hn. tauto.
  - rewrite (Hcourse strVal
               (trim_idempotent (ToString host (orEmpty (catAndCourse item))))).
    rewrite !andb_true_iff, !negb_true_iff, !Hn. tauto.
Qed.

End FieldSplitFacts.

(* ================================================================== *)
(** * Grouping: nothing lost, nothing made up *)
(* ================================================================== *)

Section GroupingFacts.
Variable host : Host.

Lemma allEntries_set_new (g : GroupedData) (k : string) :
  JSObject.getOwn k g = None ->
  allEntries (JSObject.set k [] g) = allEntries g.
Proof.
  unfold allEntries. induction g as [|[k' v'] g IH]; cbn; [reflexivity|].
  destruct (String.eqb k k'); [discriminate|].
  intros H. cbn. rewrite (IH H). reflexivity.
Qed.

Lemma allEntries_set_push (g : GroupedData) (k : string)
      (bucket : list CourseEntry) (e : CourseEntry) :
  JSObject.getOwn k g = Some bucket ->
  Permutation (allEntries (JSObject.set k (bucket ++ [e]) g))
              (allEntries g ++ [e]).
Proof.
  unfold allEntries. induction g as [|[k' v'] g IH]; cbn; [discriminate|].
  destruct (String.eqb k k').
  - intros H. inversion H; subst v'. cbn.
    rewrite <- !app_assoc. apply Permutation_app_head.
    apply Permutation_app_comm.
  - intros H. cbn. rewrite <- app_assoc.
    apply Permutation_app_head. exact (IH H).
Qed.

Lemma groupStep_entries g cur row g' cur' :
  groupStep host (g, cur) row = Some (g', cur') ->
  Permutation (allEntries g')
              (allEntries g ++ List.map entryOf (filter (keptRow host) [row])).
Proof.
  unfold groupStep, keptRow. cbn [filter].
  destruct (isTrulyBlankRow host row).
  - intros H. inversion H; subst. cbn. rewrite app_nil_r. reflexivity.
  - cbn [negb andb].
    set (key := sessionKeyFor host cur row).
    set (g1 := if negb (JSObject.has key g) then JSObject.set key [] g else g).
    assert (H1 : allEntries g1 = allEntries g).
    { unfold g1, JSObject.has.
      destruct (JSObject.getOwn key g) eqn:E; cbn [negb]; [reflexivity|].
      destruct (includes JSObject.inherited key); cbn [negb]; [reflexivity|].
      apply allEntries_set_new, E. }
    destruct (isFooter (Course row)); cbn [negb].
    + intros H. inversion H; subst. rewrite H1. cbn. rewrite app_nil_r.
      reflexivity.
    + destruct (JSObject.getOwn key g1) as [bucket|] eqn:E; [|discriminate].
      intros H. inversion H; subst. cbn [List.map]. rewrite <- H1.
      apply allEntries_set_push, E.
Qed.

Lemma groupFrom_entries rows : forall g cur g' cur',
  groupFrom host (g, cur) rows = Some (g', cur') ->
  Permutation (allEntries g')
              (allEntries g ++ List.map entryOf (filter (keptRow host) rows)).
Proof.
  induction rows as [|row rows IH]; intros g cur g' cur' H; cbn [groupFrom] in H.
  - inversion H; subst. cbn. rewrite app_nil_r. reflexivity.
  - destruct (groupStep host (g, cur) row) as [[g1 cur1]|] eqn:E; [|discriminate].
    rewrite (IH _ _ _ _ H), (groupStep_entries _ _ _ _ _ E).
    rewrite <- app_assoc, <- map_app.
    change (row :: rows) with ([row] ++ rows). rewrite filter_app.
    reflexivity.
Qed.

(** X4: the buckets hold the kept rows and nothing else: taken together, the
    entries of all the buckets are the course fields of the rows that are
    neither blank nor footer lines, each row once. *)
Theorem groupRows_conserves :
  forall (processed : list Processed) (groupedData : GroupedData),
    groupRows host processed = Some groupedData ->
    Permutation (allEntries groupedData)
                (List.map entryOf (filter (keptRow host) processed)).
Proof.
  intros processed g. unfold groupRows.
  destruct (groupFrom host (JSObject.empty, None) processed) as [[g' cur']|] eqn:E;
    [|discriminate].
  intros H. inversion H; subst g'.
  exact (groupFrom_entries _ _ _ _ _ E).
Qed.

(** The key a row is filed under is the row's own trimmed session, the
    running key, or "NoSession". *)
Lemma sessionKeyFor_origin cur row :
  namesSession host row (sessionKeyFor host cur row)
  \/ cur = Some (sessionKeyFor host cur row)
  \/ sessionKeyFor host cur row = "NoSession".
Proof.
  unfold sessionKeyFor, namesSession.
  destruct (nonEmpty (cellText host (rawSem row))).
  - destruct (nonEmpty (trim (Sem row))); auto.
  - destruct cur as [k|]; [|auto]. destruct (nonEmpty k); auto.
Qed.

Lemma groupStep_keys g cur row g' cur' :
  groupStep host (g, cur) row = Some (g', cur') ->
  forall k, In k (List.map fst g') \/ cur' = Some k ->
            In k (List.map fst g) \/ cur = Some k \/ k = "NoSession"
            \/ namesSession host row k.
Proof.
  unfold groupStep.
  destruct (isTrulyBlankRow host row).
  - intros H. inversion H; subst. intros k [Hk|Hk]; [auto | discriminate].
  - set (key := sessionKeyFor host cur row).
    set (g1 := if negb (JSObject.has key g) then JSObject.set key [] g else g).
    assert (Hkey : forall k, k = key ->
                     cur = Some k \/ k = "NoSession" \/ namesSession host row k).
    { intros k ->. unfold key.
      destruct (sessionKeyFor_origin cur row) as [H|[H|H]]; auto. }
    assert (H1 : forall k, In k (List.map fst g1) ->
                           k = key \/ In k (List.map fst g)).
    { unfold g1. destruct (negb (JSObject.has key g)); [|auto].
      intros k. apply set_keys_In. }
    assert (H2 : forall k (gx : GroupedData),
               (In k (List.map fst gx) -> k = key \/ In k (List.map fst g)) ->
               In k (List.map fst gx) \/ Some key = Some k ->
               In k (List.map fst g) \/ cur = Some k \/ k = "NoSession"
               \/ namesSession host row k).
    { intros k gx Hgx [Hk|Hk].
      - destruct (Hgx Hk) as [E|Hin]; [right; apply Hkey, E | left; exact Hin].
      - right. apply Hkey. congruence. }
    destruct (negb (isFooter (Course row))).
    + destruct (JSObject.getOwn key g1) as [bucket|]; [|discriminate].
      intros H. inversion H; subst. intros k. apply H2.
      intros Hin. apply set_keys_In in Hin. destruct Hin as [E|Hin]; [auto|].
      apply H1, Hin.
    + intros H. inversion H; subst. intros k. apply H2, H1.
Qed.

Lemma groupFrom_keys rows : forall g cur g' cur',
  groupFrom host (g, cur) rows = Some (g', cur') ->
  forall k, In k (List.map fst g') \/ cur' = Some k ->
            In k (List.map fst g) \/ cur = Some k \/ k = "NoSession"
            \/ exists row, In row rows /\ namesSession host row k.
Proof.
  induction rows as [|row rows IH]; intros g cur g' cur' H k Hk;
    cbn [groupFrom] in H.
  - inversion H; subst. destruct Hk; auto.
  - destruct (groupStep host (g, cur) row) as [[g1 cur1]|] eqn:E; [|discriminate].
    destruct (IH _ _ _ _ H k Hk) as [H1|[H1|[H1|(r & Hr & H1)]]].
    + destruct (groupStep_keys _ _ _ _ _ E k (or_introl H1)) as [H2|[H2|[H2|H2]]];
        auto.
      right. right. right. exists row. split; [left; reflexivity | exact H2].
    + destruct (groupStep_keys _ _ _ _ _ E k (or_intror H1)) as [H2|[H2|[H2|H2]]];
        auto.
      right. right. right. exists row. split; [left; reflexivity | exact H2].
    + auto.
    + right. right. right. exists r. split; [right; exact Hr | exact H1].
Qed.

Lemma groupRows_keys rows g k :
  groupRows host rows = Some g -> In k (List.map fst g) ->
  k = "NoSession" \/ exists row, In row rows /\ namesSession host row k.
Proof.
  unfold groupRows.
  destruct (groupFrom host (JSObject.empty, None) rows) as [[g' cur']|] eqn:E;
    [|discriminate].
  intros H Hk. inversion H; subst g'.
  destruct (groupFrom_keys _ _ _ _ _ E k (or_introl Hk)) as [[]|[H1|H1]];
    [discriminate | exact H1].
Qed.

(** X5: no bucket is filed under a made-up key: every key of the grouping is
    "NoSession" or the trimmed session of a row that has session text. *)
Theorem bucket_keys_origin :
  forall (processed : list Processed) (groupedData : GroupedData) (k : string),
    groupRows host processed = Some groupedData ->
    In k (JSObject.keys groupedData) ->
    k = "NoSession"
    \/ exists row, In row processed /\ namesSession host row k.
Proof.
  intros processed g k Hg Hk. apply (groupRows_keys processed g k Hg).
  apply keys_In, Hk.
Qed.

Lemma groupFrom_succeeds rows : forall g cur,
  (forall row, In row rows ->
               includes JSObject.inherited (trim (Sem row)) = false) ->
  (forall k, cur = Some k -> includes JSObject.inherited k = false) ->
  exists st', groupFrom host (g, cur) rows = Some st'.
Proof.
  induction rows as [|row rows IH]; intros g cur Hrows Hcur; cbn [groupFrom].
  - eexists. reflexivity.
  - destruct (isTrulyBlankRow host row) eqn:Hb.
    + rewrite (groupStep_blank host g cur row Hb).
      apply IH; [intros r Hr; apply Hrows; right; exact Hr | discriminate].
    + assert (Hkey : includes JSObject.inherited (sessionKeyFor host cur row)
                     = false).
      { destruct (sessionKeyFor_origin cur row) as [[_ H]|[H|H]].
        - rewrite <- H. apply Hrows. left. reflexivity.
        - apply Hcur, H.
        - rewrite H. reflexivity. }
      destruct (groupStep_filed host g cur row Hb Hkey) as (g' & E & _).
      rewrite E. apply IH.
      * intros r Hr. apply Hrows. right. exact Hr.
      * intros k Hk. inversion Hk; subst k. exact Hkey.
Qed.

(** X6: grouping runs to its end when no row's session is a name that every
    object inherits. *)
Theorem groupRows_succeeds :
  forall processed : list Processed,
    (forall row, In row processed ->
                 includes JSObject.inherited (trim (Sem row)) = false) ->
    exists groupedData, groupRows host processed = Some groupedData.
Proof.
  intros processed H.
  destruct (groupFrom_succeeds processed JSObject.empty None H) as [st' E];
    [discriminate|].
  exists (fst st'). exact (f_equal (option_map fst) E).
Qed.

End GroupingFacts.

(* ================================================================== *)
(** * Academic years: the sessions a year holds *)
(* ================================================================== *)

Lemma addSession_held (academicYears : AcademicYears)
      (entry : string * list CourseEntry) (y label : string)
      (courses : list CourseEntry) :
  holds (addSession academicYears entry) y label courses ->
  holds academicYears y label courses
  \/ (entry = (label, courses) /\ y = year (getAcademicYear label)).
Proof.
  destruct entry as [label' courses']. unfold holds, addSession, JSObject.has.
  set (y' := year (getAcademicYear label')).
  intros (so & Hy & Hl).
  destruct (String.eqb y y') eqn:Ey.
  - apply String.eqb_eq in Ey. subst y.
    destruct (JSObject.getOwn y' academicYears) as [so'|] eqn:E'; cbn [negb] in Hy.
    + rewrite E', getOwn_set_same in Hy. inversion Hy; subst so.
      destruct (String.eqb label label') eqn:El.
      * apply String.eqb_eq in El. subst label'.
        rewrite getOwn_set_same in Hl. inversion Hl; subst. right. auto.
      * apply String.eqb_neq in El. rewrite getOwn_set_other in Hl by exact El.
        left. exists so'. auto.
    + assert (Hown := year_own label'). fold y' in Hown. rewrite Hown in Hy.
      cbn [negb] in Hy. rewrite getOwn_set_same in Hy.
      rewrite getOwn_set_same in Hy. inversion Hy; subst so.
      destruct (String.eqb label label') eqn:El.
      * apply String.eqb_eq in El. subst label'.
        cbn in Hl. rewrite String.eqb_refl in Hl. inversion Hl; subst.
        right. auto.
      * cbn in Hl. rewrite El in Hl. discriminate.
  - apply String.eqb_neq in Ey. left. exists so. split; [|exact Hl].
    destruct (JSObject.getOwn y' academicYears) as [so'|] eqn:E'; cbn [negb] in Hy.
    + rewrite E' in Hy. rewrite getOwn_set_other in Hy by exact Ey. exact Hy.
    + assert (Hown := year_own label'). fold y' in Hown. rewrite Hown in Hy.
      cbn [negb] in Hy. rewrite getOwn_set_same in Hy.
      rewrite !getOwn_set_other in Hy by exact Ey. exact Hy.
Qed.

Lemma fold_addSession_held (entries : list (string * list CourseEntry)) :
  forall (academicYears : AcademicYears) (y label : string)
         (courses : list CourseEntry),
    holds (fold_left addSession entries academicYears) y label courses ->
    holds academicYears y label courses
    \/ (In (label, courses) entries /\ y = year (getAcademicYear label)).
Proof.
  induction entries as [|e es IH]; intros ay y label courses H;
    cbn [fold_left] in H; [left; exact H|].
  destruct (IH _ _ _ _ H) as [H1|[H1 H2]].
  - destruct (addSession_held _ _ _ _ _ H1) as [H3|[H3 H4]]; [left; exact H3|].
    right. split; [left; exact H3 | exact H4].
  - right. split; [right; exact H1 | exact H2].
Qed.

Section AcademicYearsFacts.
Variable host : Host.

(** X7: the academic years hold exactly the buckets of the grouping, each in
    the year its label is classified under and in no other. *)
Theorem buildAcademicYears_sessions :
  forall (processed : list Processed) (groupedData : GroupedData)
         (y label : string) (courses : list CourseEntry),
    groupRows host processed = Some groupedData ->
    (holds (buildAcademicYears groupedData) y label courses
     <-> JSObject.getOwn label groupedData = Some courses
         /\ y = year (getAcademicYear label)).
Proof.
  intros processed g y label courses Hg.
  assert (Hnd := groupRows_NoDup host processed g Hg).
  split.
  - unfold buildAcademicYears. intros H.
    apply fold_addSession_held in H.
    destruct H as [(so & Hy & _)|[Hin Hy]]; [discriminate|].
    split; [|exact Hy].
    apply In_getOwn; [exact Hnd | apply entries_In, Hin].
  - intros [Hown ->]. apply buildAcademicYears_holds; assumption.
Qed.

End AcademicYearsFacts.

(* ================================================================== *)
(** * Pairing loop: how many rows, and which labels face each other *)
(* ================================================================== *)

Lemma queuePairs_length (ls rs : list string) :
  List.length (queuePairs ls rs) = Nat.max (List.length ls) (List.length rs).
Proof.
  revert rs. induction ls as [|l ls IH]; intros rs; cbn [queuePairs].
  - rewrite length_map. reflexivity.
  - destruct rs as [|r rs]; cbn [List.length]; rewrite IH; cbn; lia.
Qed.

Lemma keyText_shiftKey (k : string) : keyText (fst (shiftKey [k])) = k.
Proof. destruct k; reflexivity. Qed.

Lemma queuePairs_nth (ls rs : list string) : forall i,
  i < Nat.max (List.length ls) (List.length rs) ->
  exists lk rk,
    nth_error (queuePairs ls rs) i = Some (lk, rk)
    /\ keyText lk = nth i ls "" /\ keyText rk = nth i rs "".
Proof.
  revert rs. induction ls as [|l ls IH]; intros rs i Hi; cbn [queuePairs].
  - cbn [List.length Nat.max] in Hi.
    rewrite nth_error_map. destruct (nth_error rs i) as [r|] eqn:E.
    + eexists _, _. split; [reflexivity|]. cbn [keyText].
      split; [destruct i; reflexivity|].
      rewrite keyText_shiftKey. symmetry. apply nth_error_nth, E.
    + apply nth_error_None in E. lia.
  - destruct rs as [|r rs].
    + destruct i as [|i]; cbn [nth_error nth].
      * eexists _, _. split; [reflexivity|].
        split; [apply keyText_shiftKey | reflexivity].
      * destruct (IH [] i) as (lk & rk & E & Hl & Hr); [cbn in Hi |- *; lia|].
        exists lk, rk. split; [exact E|]. split; [exact Hl|].
        rewrite Hr. destruct i; reflexivity.
    + destruct i as [|i]; cbn [nth_error nth].
      * eexists _, _. split; [reflexivity|].
        split; apply keyText_shiftKey.
      * apply IH. cbn in Hi. lia.
Qed.

Lemma withSeparators_length (paired : list TableRow) :
  List.length (withSeparators paired) = 2 * List.length paired.
Proof.
  unfold withSeparators. induction paired as [|p ps IH]; cbn; [reflexivity|].
  cbn in IH. rewrite IH. lia.
Qed.

Lemma withSeparators_nth (paired : list TableRow) : forall i p,
  nth_error paired i = Some p ->
  nth_error (withSeparators paired) (2 * i) = Some p
  /\ nth_error (withSeparators paired) (2 * i + 1) = Some blankRow.
Proof.
  unfold withSeparators.
  induction paired as [|q qs IH]; intros i p H; [destruct i; discriminate|].
  destruct i as [|i].
  - cbn in H |- *. inversion H. auto.
  - cbn [nth_error] in H. destruct (IH i p H) as [H1 H2].
    replace (2 * S i) with (S (S (2 * i))) by lia.
    replace (S (S (2 * i)) + 1) with (S (S (2 * i + 1))) by lia.
    cbn [flat_map app nth_error]. auto.
Qed.

Lemma Forall2_nth_error {A B : Type} (R : A -> B -> Prop) xs ys :
  Forall2 R xs ys ->
  forall i x, nth_error xs i = Some x ->
              exists y, nth_error ys i = Some y /\ R x y.
Proof.
  induction 1 as [|x0 y0 xs ys H0 H IH]; intros i x E; [destruct i; discriminate|].
  destruct i as [|i]; cbn in E |- *.
  - inversion E; subst. eauto.
  - apply IH, E.
Qed.

Lemma Forall2_length_eq {A B : Type} (R : A -> B -> Prop) xs ys :
  Forall2 R xs ys -> List.length xs = List.length ys.
Proof. induction 1; cbn; congruence. Qed.

Section PairingFacts.
Variable host : Host.

(** X8: a year with m first-semester labels and n second-semester labels gives
    max(m, n) paired rows, each followed by its blank row; the i-th paired
    row shows the i-th first-semester label on the left and the i-th
    second-semester label on the right, and an empty session cell on the
    side that has run out. *)
Theorem yearRows_pairs_by_position :
  forall (academicYears : AcademicYears) (yearStr : string)
         (sessionsObj : JSObject.t (list CourseEntry)) (rows : list TableRow),
    JSObject.getOwn yearStr academicYears = Some sessionsObj ->
    yearRows host academicYears yearStr = Some rows ->
    let leftKeys := filter (test true semIRegex) (JSObject.keys sessionsObj) in
    let rightKeys := filter (test true semIIRegex) (JSObject.keys sessionsObj) in
    List.length rows
    = 2 * Nat.max (List.length leftKeys) (List.length rightKeys)
    /\ forall i,
        i < Nat.max (List.length leftKeys) (List.length rightKeys) ->
        exists p,
          nth_error rows (2 * i) = Some p
          /\ nth 0 p [] = [nth i leftKeys ""]
          /\ nth 5 p [] = [nth i rightKeys ""]
          /\ nth_error rows (2 * i + 1) = Some blankRow.
Proof.
  intros ay yearStr sessionsObj rows Hy Hrows leftKeys rightKeys.
  unfold yearRows in Hrows. rewrite Hy in Hrows.
  fold leftKeys rightKeys in Hrows.
  rewrite pairLoop_queuePairs in Hrows.
  destruct (traverse _ (queuePairs leftKeys rightKeys)) as [paired|] eqn:E;
    [|discriminate].
  cbn [option_map] in Hrows. inversion Hrows; subst rows.
  apply traverse_Some in E.
  assert (Hlen := Forall2_length_eq _ _ _ E).
  rewrite queuePairs_length in Hlen.
  split; [rewrite withSeparators_length; lia|].
  intros i Hi.
  destruct (queuePairs_nth leftKeys rightKeys i Hi) as (lk & rk & Hn & Hl & Hr).
  destruct (Forall2_nth_error _ _ _ E i _ Hn) as (p & Hp & Hpair).
  cbn [fst snd] in Hpair.
  destruct (withSeparators_nth paired i p Hp) as [H1 H2].
  exists p. split; [exact H1|]. split; [|split; [|exact H2]].
  - unfold pairedRow in Hpair.
    destruct (coursesOf sessionsObj lk), (coursesOf sessionsObj rk);
      try discriminate.
    inversion Hpair. cbn. unfold multiLineCell. rewrite Hl. reflexivity.
  - unfold pairedRow in Hpair.
    destruct (coursesOf sessionsObj lk), (coursesOf sessionsObj rk);
      try discriminate.
    inversion Hpair. cbn. unfold multiLineCell. rewrite Hr. reflexivity.
Qed.

Lemma forYears_fails academicYears years y :
  In y years -> yearRows host academicYears y = None ->
  forYears host academicYears years = None.
Proof.
  induction years as [|y0 years IH]; intros Hin Hy; [destruct Hin|].
  cbn [forYears]. destruct Hin as [->|Hin].
  - rewrite Hy. reflexivity.
  - destruct (yearRows host academicYears y0); [|reflexivity].
    rewrite (IH Hin Hy). reflexivity.
Qed.

(** X9: a year key that is not the decimal numeral of the integer it parses to
    ("08" for 8) is looked up under the numeral; when the object holds no
    year under that numeral, the lookup gives [undefined] and building the
    table throws. *)
Theorem noncanonical_year_throws :
  forall (academicYears : AcademicYears) (y : string) (n : Z),
    In y (JSObject.keys academicYears) ->
    y <> "Unknown" ->
    parseInt y = Some n ->
    JSObject.getOwn (ofZ n) academicYears = None ->
    buildRows host academicYears = None.
Proof.
  intros ay y n Hin Hne Hparse Hnone. unfold buildRows.
  rewrite (forYears_fails ay (sortedYears ay) (ofZ n)); [reflexivity| |].
  - unfold sortedYears. apply in_or_app. left. apply in_map.
    apply numericYears_In. exists y. split; [|exact Hparse].
    unfold allYearKeys. apply filter_In. split; [exact Hin|].
    apply negb_true_iff, String.eqb_neq, Hne.
  - unfold yearRows. rewrite Hnone, ofZ_own. reflexivity.
Qed.

End PairingFacts.

(* ================================================================== *)
(** * Numerals: the string of a year *)
(* ================================================================== *)

Lemma substring_forallb (p : ascii -> bool) (s : string) : forall n m,
  Str.forallb p s = true -> Str.forallb p (substring n m s) = true.
Proof.
  induction s as [|c s IH]; intros n m H.
  - destruct n, m; reflexivity.
  - cbn in H. apply andb_true_iff in H. destruct H as [Hc Hs].
    destruct n as [|n]; [destruct m as [|m]|]; cbn; [reflexivity| |].
    + rewrite Hc. exact (IH 0 m Hs).
    + exact (IH n m Hs).
Qed.

Lemma substring_length_le (s : string) : forall n m,
  String.length (substring n m s) <= m.
Proof.
  induction s as [|c s IH]; intros n m.
  - destruct n, m; cbn; lia.
  - destruct n as [|n]; [destruct m as [|m]|]; cbn; [lia| |].
    + specialize (IH 0 m). lia.
    + apply IH.
Qed.

Lemma substring_length (s : string) : forall n m,
  n + m <= String.length s -> String.length (substring n m s) = m.
Proof.
  induction s as [|c s IH]; intros n m H.
  - cbn in H. assert (n = 0) by lia. assert (m = 0) by lia. subst. reflexivity.
  - destruct n as [|n]; [destruct m as [|m]|]; cbn; [reflexivity| |].
    + f_equal. apply (IH 0 m). cbn in H. lia.
    + apply IH. cbn in H. lia.
Qed.

Lemma string_of_uint_digits (d : Decimal.uint) :
  Str.forallb isDigit (NilEmpty.string_of_uint d) = true.
Proof. induction d; cbn; try reflexivity; exact IHd. Qed.

Lemma ofZ_numeral (z : Z) : Str.forallb isNumeralChar (ofZ z) = true.
Proof.
  assert (H : forall s, Str.forallb isDigit s = true ->
                        Str.forallb isNumeralChar s = true).
  { induction s as [|c s IH]; cbn; [reflexivity|].
    intros H. apply andb_true_iff in H. destruct H as [Hc Hs].
    unfold isNumeralChar at 1. rewrite Hc, (IH Hs). reflexivity. }
  unfold ofZ. destruct (Z.to_int z) as [d|d]; cbn [NilZero.string_of_int].
  - apply H. destruct d; try reflexivity; apply (string_of_uint_digits (_ d)).
  - cbn [Str.forallb]. rewrite H; [reflexivity|].
    destruct d; try reflexivity; apply (string_of_uint_digits (_ d)).
Qed.

Lemma ofZ_digits (z : Z) : (0 <= z)%Z -> Str.forallb isDigit (ofZ z) = true.
Proof.
  intros Hz. unfold ofZ. destruct z as [|p|p]; [reflexivity| |lia].
  cbn [Z.to_int NilZero.string_of_int].
  destruct (Pos.to_uint p) as [|d|d|d|d|d|d|d|d|d|d]; try reflexivity;
    apply (string_of_uint_digits (_ d)).
Qed.

Lemma ofZ_two_digits (z : Z) : (10 <= z)%Z -> 2 <= String.length (ofZ z).
Proof.
  intros Hz. unfold ofZ. destruct z as [|p|p]; [lia| |lia].
  cbn [Z.to_int NilZero.string_of_int].
  assert (Hof := DecimalPos.Unsigned.of_to p).
  destruct (Pos.to_uint p) as [|d|d|d|d|d|d|d|d|d|d];
    [cbn in Hof; discriminate | | | | | | | | | | ];
    (destruct d; [cbn in Hof; inversion Hof; lia | cbn; lia ..]).
Qed.

(** The last two characters of the year's numeral, for a year of two
    digits or more, are two digits. *)
Lemma sliceLast_year (z : Z) :
  (10 <= z)%Z ->
  exists a b, sliceLast 2 (ofZ z) = String a (String b "")
              /\ isDigit a = true /\ isDigit b = true.
Proof.
  intros Hz. unfold sliceLast.
  assert (Hlen := ofZ_two_digits z Hz).
  assert (Hd := substring_forallb isDigit (ofZ z) (String.length (ofZ z) - 2) 2
                                  (ofZ_digits z ltac:(lia))).
  assert (Hl := substring_length (ofZ z) (String.length (ofZ z) - 2) 2 ltac:(lia)).
  destruct (substring (String.length (ofZ z) - 2) 2 (ofZ z)) as [|a [|b [|c r]]];
    try (cbn in Hl; lia).
  cbn in Hd. rewrite andb_true_r in Hd. apply andb_true_iff in Hd.
  exists a, b. tauto.
Qed.

Lemma isDigit_cases (c : ascii) :
  isDigit c = true ->
  In c ["0"; "1"; "2"; "3"; "4"; "5"; "6"; "7"; "8"; "9"]%char.
Proof.
  destruct c as [[] [] [] [] [] [] [] []]; vm_compute; intros H;
    solve [discriminate H | tauto].
Qed.

Lemma isNumeralChar_cases (c : ascii) :
  isNumeralChar c = true ->
  In c ["-"; "0"; "1"; "2"; "3"; "4"; "5"; "6"; "7"; "8"; "9"]%char.
Proof.
  destruct c as [[] [] [] [] [] [] [] []]; vm_compute; intros H;
    solve [discriminate H | tauto].
Qed.

(* ================================================================== *)
(** * Session labels of dates: how they are classified *)
(* ================================================================== *)

Ltac each_of H :=
  repeat (destruct H as [H|H]; [subst|]); [..|destruct H].

(** The label made for a month and a two-digit year, classified. *)
Lemma formatted_label_classified (m : Month) (a b : ascii) :
  isDigit a = true -> isDigit b = true ->
  let yy := String a (String b "") in
  let semester :=
    if includes ["Jan"; "Feb"; "Mar"; "Apr"; "May"; "Jun"] (monthShort m)
    then "Sem II" else "Sem I" in
  getAcademicYear (monthShort m ++ "-" ++ yy ++ " " ++ semester)
  = match m with
    | Aug | Sep | Oct | Nov | Dec => mkAcademicYear yy (Some SemI)
    | Jul => mkAcademicYear "Unknown" None
    | _ => mkAcademicYear (ofZ (digitsValue 0 yy - 1)) (Some SemII)
    end.
Proof.
  intros Ha Hb. apply isDigit_cases in Ha. apply isDigit_cases in Hb.
  each_of Ha; each_of Hb; destruct m; vm_compute; reflexivity.
Qed.

(** The label made for a July date, whatever the year's last characters. *)
Lemma july_label_unknown (yy : string) :
  Str.forallb isNumeralChar yy = true -> String.length yy <= 2 ->
  getAcademicYear ("Jul-" ++ yy ++ " Sem I") = mkAcademicYear "Unknown" None.
Proof.
  intros H Hl. destruct yy as [|a [|b [|c r]]]; [reflexivity| | |cbn in Hl; lia].
  - cbn in H. rewrite andb_true_r in H. apply isNumeralChar_cases in H.
    each_of H; vm_compute; reflexivity.
  - cbn in H. rewrite andb_true_r in H. apply andb_true_iff in H.
    destruct H as [Ha Hb].
    apply isNumeralChar_cases in Ha. apply isNumeralChar_cases in Hb.
    each_of Ha; each_of Hb; vm_compute; reflexivity.
Qed.

Lemma withSeparators_In_inv (paired : list TableRow) (p : TableRow) :
  In p (withSeparators paired) -> In p paired \/ p = blankRow.
Proof.
  unfold withSeparators. rewrite in_flat_map.
  intros (q & Hq & [<-|[<-|[]]]); auto.
Qed.

Section DateLabels.
Variable host : Host.

(** The label of a value that makes a valid date. *)
Lemma formatSession_date (value : Value) (date : Z) :
  newDate host value = Some date ->
  formatSession host value
  = (monthShort (getMonth host date) ++ "-"
       ++ sliceLast 2 (ofZ (getFullYear host date)) ++ " "
       ++ (if includes ["Jan"; "Feb"; "Mar"; "Apr"; "May"; "Jun"]
                       (monthShort (getMonth host date))
           then "Sem II" else "Sem I"))%string.
Proof. intros H. unfold formatSession. rewrite H. reflexivity. Qed.

(** X10: a date of August to December is filed under the last two digits of its
    year, a date of January to June under those digits less one; a date of
    July gets a first-semester label that neither pattern accepts, and is
    filed under "Unknown". *)
Theorem formatSession_classified :
  forall (value : Value) (date : Z),
    newDate host value = Some date ->
    (10 <= getFullYear host date)%Z ->
    let yy := sliceLast 2 (ofZ (getFullYear host date)) in
    getAcademicYear (formatSession host value)
    = match getMonth host date with
      | Aug | Sep | Oct | Nov | Dec => mkAcademicYear yy (Some SemI)
      | Jul => mkAcademicYear "Unknown" None
      | _ => mkAcademicYear (ofZ (digitsValue 0 yy - 1)) (Some SemII)
      end.
Proof.
  intros value date Hdate Hyear yy.
  rewrite (formatSession_date value date Hdate). fold yy.
  destruct (sliceLast_year _ Hyear) as (a & b & E & Ha & Hb).
  fold yy in E. rewrite E.
  exact (formatted_label_classified (getMonth host date) a b Ha Hb).
Qed.

(** X11: a session dated in July is never shown: its label is filed under
    "Unknown", and no row of any table the handler builds shows it. *)
Theorem july_session_never_shown :
  forall (value : Value) (date : Z),
    newDate host value = Some date ->
    getMonth host date = Jul ->
    classifiedUnknown (formatSession host value)
    /\ forall (sheet : list (nat * list Value)) (rows : list TableRow),
        handleGenerateTranscript host sheet = Some rows ->
        Forall (fun p => ~ shows p (formatSession host value)) rows.
Proof.
  intros value date Hdate Hjul.
  assert (Hlabel : formatSession host value
                   = ("Jul-" ++ sliceLast 2 (ofZ (getFullYear host date))
                        ++ " Sem I")%string).
  { unfold formatSession. rewrite Hdate, Hjul. reflexivity. }
  assert (Hunknown : classifiedUnknown (formatSession host value)).
  { unfold classifiedUnknown. rewrite Hlabel. apply july_label_unknown.
    - apply substring_forallb, ofZ_numeral.
    - apply substring_length_le. }
  split; [exact Hunknown|].
  intros sheet rows Hrows. unfold handleGenerateTranscript in Hrows.
  destruct (groupRows host _) as [g|]; [|discriminate].
  destruct (buildRows_shape host _ _ Hrows) as (paired & -> & Hpaired).
  assert (Hne : formatSession host value <> "")
    by (rewrite Hlabel; discriminate).
  constructor.
  - rewrite Hlabel. intros [H|H]; cbn in H; discriminate.
  - apply Forall_forall. intros p Hp.
    apply withSeparators_In_inv in Hp. destruct Hp as [Hp| ->].
    + intros Hshow. rewrite Forall_forall in Hpaired.
      exact (PairedRow_known host _ p (Hpaired p Hp) _ Hshow Hne Hunknown).
    + intros Hshow. apply blankRow_shows in Hshow. contradiction.
Qed.

(** X12: the label of a date is used as the session key as it stands, and a
    session cell that is no date names the session by its trimmed text; a
    row without session text goes on under the running key, or under
    "NoSession" when there is none. *)
Theorem sessionKey_of_row :
  forall (currentSessionKey : option string) (item : RowData),
    sessionKeyFor host currentSessionKey (processRow host item)
    = if nonEmpty (cellText host (sem item)) then
        match newDate host (sem item) with
        | Some _ => formatSession host (sem item)
        | None => cellText host (sem item)
        end
      else
        match currentSessionKey with
        | Some k => if nonEmpty k then k else "NoSession"
        | None => "NoSession"
        end.
Proof.
  intros cur item. unfold processRow.
  destruct (splitCatNoAndCourse host (catAndCourse item)) as [catNo courseName].
  unfold sessionKeyFor. cbn [rawSem Sem].
  destruct (nonEmpty (cellText host (sem item))) eqn:Hraw; [|reflexivity].
  unfold formatSession.
  destruct (newDate host (sem item)) as [date|].
  - set (monthAbbr := monthShort (getMonth host date)).
    set (yy := sliceLast 2 (ofZ (getFullYear host date))).
    set (semester := if includes _ monthAbbr then "Sem II" else "Sem I").
    assert (Htrim : trim (monthAbbr ++ "-" ++ yy ++ " " ++ semester)
                    = (monthAbbr ++ "-" ++ yy ++ " " ++ semester)%string).
    { apply trim_fixed.
      - unfold monthAbbr. destruct (getMonth host date); reflexivity.
      - unfold endsClear.
        rewrite <- !append_assoc, rev_append.
        unfold semester. destruct (includes _ monthAbbr); reflexivity. }
    rewrite Htrim.
    unfold monthAbbr. destruct (getMonth host date); reflexivity.
  - fold (cellText host (sem item)). rewrite Hraw. reflexivity.
Qed.

End DateLabels.

(* ================================================================== *)
(** * The table: no footer line, and when it is built *)
(* ================================================================== *)

Lemma trim_isFooter (course : string) : isFooter (trim course) = isFooter course.
Proof.
  unfold isFooter.
  rewrite !trim_toLowerCase, trim_idempotent. reflexivity.
Qed.

Lemma extractRows_reads (sheet : list (nat * list Value)) :
  extractRows sheet
  = extractRows
      (List.map (fun visited => (fst visited, firstn 5 (snd visited)))
                (filter (fun visited => 3 <=? fst visited) sheet)).
Proof.
  unfold extractRows.
  induction sheet as [|[rowNumber rowValues] sheet IH]; [reflexivity|].
  cbn [flat_map filter fst]. rewrite IH.
  destruct (3 <=? rowNumber) eqn:E; [|reflexivity].
  cbn [List.map flat_map fst snd]. rewrite E.
  rewrite !nth_firstn. reflexivity.
Qed.

Section TableFacts.
Variable host : Host.

Lemma cellText_string (s : string) : cellText host (JSString s) = trim s.
Proof. unfold cellText, orEmpty. destruct s; reflexivity. Qed.

Lemma footerFree_lines (courses : list CourseEntry) (line : string) :
  Forall (fun e => isFooter (entryCourse e) = false) courses ->
  In line (getColumnLines host courses KCourse) ->
  isFooter line = false.
Proof.
  intros Hfree Hin. unfold getColumnLines in Hin.
  apply filter_In in Hin. destruct Hin as [Hin _].
  apply in_map_iff in Hin. destruct Hin as (e & <- & He).
  cbn [column]. rewrite cellText_string, trim_isFooter.
  rewrite Forall_forall in Hfree. exact (Hfree e He).
Qed.

Lemma coursesOf_footerFree (g : GroupedData) (yearStr : string)
      (sessionsObj : JSObject.t (list CourseEntry)) (key : option string)
      (courses : list CourseEntry) :
  footerFree g ->
  JSObject.getOwn yearStr (buildAcademicYears g) = Some sessionsObj ->
  coursesOf sessionsObj key = Some courses ->
  Forall (fun e => isFooter (entryCourse e) = false) courses.
Proof.
  intros Hfree Hy Hc. destruct key as [k|]; cbn in Hc.
  - assert (Hheld : holds (buildAcademicYears g) yearStr k courses)
      by (exists sessionsObj; auto).
    unfold buildAcademicYears in Hheld. apply fold_addSession_held in Hheld.
    destruct Hheld as [(so & Hso & _)|[Hin _]]; [discriminate|].
    apply (proj1 (entries_In _ _)) in Hin. unfold footerFree in Hfree.
    rewrite Forall_forall in Hfree. exact (Hfree _ Hin).
  - inversion Hc. constructor.
Qed.

(** X13: no footer line reaches the table: in every row of every table the
    handler builds, no line of the two course cells passes the footer
    test. *)
Theorem table_has_no_footer_line :
  forall (sheet : list (nat * list Value)) (rows : list TableRow),
    handleGenerateTranscript host sheet = Some rows ->
    forall (p : TableRow) (line : string),
      In p rows -> In line (courseLines p) -> isFooter line = false.
Proof.
  intros sheet rows Hrows p line Hp Hline.
  unfold handleGenerateTranscript in Hrows.
  destruct (groupRows host _) as [g|] eqn:Hg; [|discriminate].
  assert (Hfree : footerFree g).
  { unfold groupRows in Hg.
    destruct (groupFrom host _ _) as [st'|] eqn:E; [|discriminate].
    inversion Hg; subst g.
    exact (groupFrom_footerFree host _ (JSObject.empty, None) st'
                                (Forall_nil _) E). }
  destruct (buildRows_shape host _ _ Hrows) as (paired & -> & Hpaired).
  destruct Hp as [<-|Hp].
  - cbn in Hline. destruct Hline as [<-|[<-|[]]]; reflexivity.
  - apply withSeparators_In_inv in Hp. destruct Hp as [Hp| ->].
    + rewrite Forall_forall in Hpaired.
      destruct (Hpaired p Hp)
        as (yearStr & sessionsObj & lk & rk & Hy & _ & _ & _ & Hrow).
      unfold pairedRow in Hrow.
      destruct (coursesOf sessionsObj lk) as [lc|] eqn:El; [|discriminate].
      destruct (coursesOf sessionsObj rk) as [rc|] eqn:Er; [|discriminate].
      inversion Hrow; subst p. unfold courseLines in Hline.
      cbn [cellGroup app nth multiLineCell] in Hline.
      apply in_app_or in Hline. destruct Hline as [Hline|Hline].
      * exact (footerFree_lines lc line
                 (coursesOf_footerFree g _ _ _ _ Hfree Hy El) Hline).
      * exact (footerFree_lines rc line
                 (coursesOf_footerFree g _ _ _ _ Hfree Hy Er) Hline).
    + cbn in Hline. destruct Hline as [<-|[<-|[]]]; reflexivity.
Qed.

(** X14: the handler builds its table whenever no row's session is a name that
    every object inherits and every session is classified under a year key
    that is "Unknown" or a numeral without leading zero. *)
Theorem handleGenerateTranscript_succeeds :
  forall sheet : list (nat * list Value),
    (forall row,
        In row (List.map (processRow host) (extractRows sheet)) ->
        includes JSObject.inherited (trim (Sem row)) = false
        /\ canonicalYear (year (getAcademicYear (trim (Sem row))))) ->
    exists rows, handleGenerateTranscript host sheet = Some rows.
Proof.
  intros sheet H. unfold handleGenerateTranscript.
  set (processed := List.map (processRow host) (extractRows sheet)) in *.
  destruct (groupFrom_succeeds host processed JSObject.empty None)
    as [st' E]; [intros row Hrow; apply H, Hrow | discriminate|].
  assert (Hg : groupRows host processed = Some (fst st'))
    by exact (f_equal (option_map fst) E).
  set (g := fst st') in *.
  rewrite Hg. apply buildRows_succeeds, canonical_keys.
  intros l Hl.
  destruct (groupRows_keys host processed g l Hg Hl)
    as [->|(row & Hrow & _ & <-)].
  - intros n Hn. vm_compute in Hn. discriminate.
  - apply H, Hrow.
Qed.

(** X15: rows 1 and 2 and the cells past the fifth are never read: the table
    depends on the rows numbered 3 and up, and in each on its first five
    values. *)
Theorem handleGenerateTranscript_reads :
  forall sheet : list (nat * list Value),
    handleGenerateTranscript host sheet
    = handleGenerateTranscript host
        (List.map (fun visited => (fst visited, firstn 5 (snd visited)))
                  (filter (fun visited => 3 <=? fst visited) sheet)).
Proof.
  intros sheet. unfold handleGenerateTranscript.
  rewrite <- extractRows_reads. reflexivity.
Qed.

End TableFacts.

(* ================================================================== *)
(** * Column lines: what a line is *)
(* ================================================================== *)

Section ColumnLineFacts.
Variable host : Host.

(** X16: every line of a column is the text of one record's field, trimmed; no
    line is empty and none has white space at either end. *)
Theorem getColumnLines_lines :
  forall (records : list CourseEntry) (columnKey : ColumnKey) (line : string),
    In line (getColumnLines host records columnKey) ->
    line <> ""
    /\ trim line = line
    /\ exists r, In r records /\ line = cellText host (column columnKey r).
Proof.
  intros records columnKey line H. unfold getColumnLines in H.
  apply filter_In in H. destruct H as [Hin Hne].
  apply in_map_iff in Hin. destruct Hin as (r & <- & Hr).
  split; [intros E; rewrite E in Hne; discriminate|].
  split; [apply trim_idempotent|].
  exists r. auto.
Qed.

(** X17: a bucket whose label one of the two patterns accepts is shown with all
    its column lines, on the left for a first-semester label and on the
    right for a second-semester one, when the year keys are numerals
    without leading zero. *)
Theorem classified_bucket_shown :
  forall (processed : list Processed) (groupedData : GroupedData)
         (label : string) (courses : list CourseEntry),
    groupRows host processed = Some groupedData ->
    JSObject.getOwn label groupedData = Some courses ->
    test true semIRegex label = true \/ test true semIIRegex label = true ->
    numeralYear (year (getAcademicYear label)) ->
    (forall l, In l (List.map fst groupedData) ->
               canonicalYear (year (getAcademicYear l))) ->
    exists rows p,
      buildRows host (buildAcademicYears groupedData) = Some rows
      /\ In p rows
      /\ (firstn 5 p = cellGroup host (Some label) courses
          \/ skipn 5 p = cellGroup host (Some label) courses).
Proof.
  intros processed g label courses Hg Hown Htest Hnum Hcanon.
  exact (bucket_shown host g label courses (groupRows_NoDup host processed g Hg)
                      Hown Htest Hnum Hcanon).
Qed.

End ColumnLineFacts.

(* ================================================================== *)
(** * Year order: every year once *)
(* ================================================================== *)

Lemma map_ofZ_parsed (keys : list string) :
  (forall k, In k keys -> canonicalYear k) ->
  List.map ofZ (parsedYears keys)
  = filter (fun y => negb (isNaN (parseInt y))) keys.
Proof.
  unfold parsedYears. induction keys as [|k keys IH]; intros H; [reflexivity|].
  cbn [flat_map filter]. rewrite map_app, IH by (intros k' Hk'; apply H; right; exact Hk').
  destruct (parseInt k) as [n|] eqn:E; cbn; [|reflexivity].
  rewrite (H k (or_introl eq_refl) n E). reflexivity.
Qed.

(** X18: with year keys that are numerals without leading zero, the loop visits
    every year other than "Unknown" exactly once. *)
Theorem sortedYears_each_once :
  forall academicYears : AcademicYears,
    (forall k, In k (JSObject.keys academicYears) -> canonicalYear k) ->
    Permutation (sortedYears academicYears) (allYearKeys academicYears).
Proof.
  intros ay H. unfold sortedYears, numericYears, leftoverYearKeys.
  fold (parsedYears (allYearKeys ay)).
  rewrite (Permutation_map ofZ (sortNumbers_perm (parsedYears (allYearKeys ay)))).
  rewrite map_ofZ_parsed.
  - etransitivity; [apply Permutation_app_comm|].
    apply (filter_split_perm (fun y => isNaN (parseInt y))).
  - intros k Hk. apply H. unfold allYearKeys in Hk. apply filter_In in Hk. tauto.
Qed.

(* ================================================================== *)
(** * File names: which files are converted, which refused *)
(* ================================================================== *)

Lemma substring_skip (a b : string) (m : nat) :
  substring (String.length a) m (a ++ b) = substring 0 m b.
Proof. induction a as [|c a IH]; [reflexivity | exact IH]. Qed.

Lemma substring_whole (s : string) : substring 0 (String.length s) s = s.
Proof. induction s as [|c s IH]; cbn; [reflexivity | rewrite IH; reflexivity]. Qed.

Lemma substring_split (s : string) : forall n,
  n <= String.length s ->
  s = (substring 0 n s ++ substring n (String.length s - n) s)%string.
Proof.
  induction s as [|c s IH]; intros n Hn.
  - cbn in Hn. assert (n = 0) by lia. subst. reflexivity.
  - destruct n as [|n].
    + cbn [substring append]. rewrite Nat.sub_0_r.
      change (String.length (String c s)) with (S (String.length s)).
      cbn [substring]. rewrite substring_whole. reflexivity.
    + cbn [substring append String.length Nat.sub]. f_equal.
      apply IH. cbn in Hn. lia.
Qed.

(** [endsWith] holds exactly of the strings that are a stem followed by
    the searched text. *)
Lemma endsWith_iff (s p : string) :
  endsWith s p = true <-> exists stem, s = (stem ++ p)%string.
Proof.
  unfold endsWith. rewrite andb_true_iff, Nat.leb_le, String.eqb_eq. split.
  - intros [Hlen E].
    exists (substring 0 (String.length s - String.length p) s).
    assert (Hs := substring_split s (String.length s - String.length p)
                                  ltac:(lia)).
    replace (String.length s - (String.length s - String.length p))
      with (String.length p) in Hs by lia.
    rewrite E in Hs. exact Hs.
  - intros [stem ->]. rewrite length_append. split; [lia|].
    replace (String.length stem + String.length p - String.length p)
      with (String.length stem) by lia.
    rewrite substring_skip. apply substring_whole.
Qed.

(** X19: a file goes through the .xls conversion exactly when its name, in
    lower case, is a stem followed by ".xls"; such a file passes the
    workbook checker's guard, and a name ending in ".xlsx" is never
    converted. *)
Theorem convertedFirst_iff :
  forall name : string,
    (convertedFirst name = true
     <-> exists stem, toLowerCase name = (stem ++ ".xls")%string)
    /\ (convertedFirst name = true -> refusedByName name = false)
    /\ (endsWith (toLowerCase name) ".xlsx" = true ->
        convertedFirst name = false /\ refusedByName name = false).
Proof.
  intros name. unfold convertedFirst, refusedByName.
  split; [apply endsWith_iff|]. split.
  - intros ->. apply andb_false_r.
  - intros Hx. rewrite Hx. split; [|reflexivity].
    destruct (endsWith (toLowerCase name) ".xls") eqn:Hs; [|reflexivity].
    apply endsWith_iff in Hx. apply endsWith_iff in Hs.
    destruct Hx as [a Ha]. destruct Hs as [b Hb].
    rewrite Ha in Hb. apply (f_equal Str.rev) in Hb.
    rewrite !rev_append in Hb. cbn in Hb. discriminate.
Qed.

(* ================================================================== *)
(** * Numerals: the value of a year's last two digits *)
(* ================================================================== *)

Local Open Scope Z_scope.

Lemma digitsValue_linear (s : string) : forall acc : Z,
  digitsValue acc s
  = acc * 10 ^ Z.of_nat (String.length s) + digitsValue 0 s.
Proof.
  induction s as [|c s IH]; intros acc; cbn [digitsValue String.length].
  - cbn. lia.
  - rewrite (IH (10 * acc + digitValue c)), (IH (10 * 0 + digitValue c)).
    rewrite Nat2Z.inj_succ, Z.pow_succ_r by lia. ring.
Qed.

Lemma digitsValue_append (a b : string) :
  digitsValue 0 (a ++ b)
  = digitsValue 0 a * 10 ^ Z.of_nat (String.length b) + digitsValue 0 b.
Proof.
  assert (H : forall acc, digitsValue acc (a ++ b)%string
                          = digitsValue (digitsValue acc a) b).
  { induction a as [|c a IH]; intros acc; cbn; [reflexivity | apply IH]. }
  rewrite H. apply digitsValue_linear.
Qed.

Lemma digitsValue_of_uint_acc (d : Decimal.uint) : forall acc : positive,
  digitsValue (Z.pos acc) (NilEmpty.string_of_uint d)
  = Z.pos (Pos.of_uint_acc d acc).
Proof.
  induction d; intros acc; cbn [NilEmpty.string_of_uint digitsValue Pos.of_uint_acc];
    [reflexivity | ..];
    rewrite <- IHd; f_equal;
    match goal with
    | |- _ + digitValue ?c = _ =>
        let v := eval vm_compute in (digitValue c) in
        change (digitValue c) with v
    end; lia.
Qed.

Lemma digitsValue_of_uint (d : Decimal.uint) :
  digitsValue 0 (NilEmpty.string_of_uint d) = Z.of_N (Pos.of_uint d).
Proof.
  induction d; cbn [NilEmpty.string_of_uint digitsValue Pos.of_uint];
    [reflexivity | exact IHd | ..];
    apply (digitsValue_of_uint_acc d).
Qed.

(** Reading the numeral of an integer that is not negative gives the
    integer back. *)
Lemma ofZ_value (z : Z) : 0 <= z -> digitsValue 0 (ofZ z) = z.
Proof.
  intros Hz. unfold ofZ. destruct z as [|p|p]; [reflexivity| |lia].
  cbn [Z.to_int NilZero.string_of_int].
  assert (Hof := DecimalPos.Unsigned.of_to p).
  assert (E : NilZero.string_of_uint (Pos.to_uint p)
              = NilEmpty.string_of_uint (Pos.to_uint p)).
  { destruct (Pos.to_uint p); [cbn in Hof; discriminate | reflexivity ..]. }
  rewrite E, digitsValue_of_uint, Hof. reflexivity.
Qed.

Lemma digit_value_bound (c : ascii) : isDigit c = true -> 0 <= digitValue c <= 9.
Proof.
  intros H. apply isDigit_cases in H.
  repeat (destruct H as [H|H]; [subst; vm_compute; split; discriminate|]).
  destruct H.
Qed.

(** The last two characters of a year's numeral read as the year modulo
    one hundred. *)
Lemma sliceLast_year_value (z : Z) :
  10 <= z -> digitsValue 0 (sliceLast 2 (ofZ z)) = z mod 100.
Proof.
  intros Hz.
  destruct (sliceLast_year z Hz) as (a & b & E & Ha & Hb).
  assert (Hlen := ofZ_two_digits z Hz).
  assert (Hsplit := substring_split (ofZ z) (String.length (ofZ z) - 2)
                                    ltac:(lia)).
  replace (String.length (ofZ z) - (String.length (ofZ z) - 2))%nat with 2%nat
    in Hsplit by lia.
  unfold sliceLast in E. rewrite E in Hsplit.
  assert (Hval := ofZ_value z ltac:(lia)).
  rewrite Hsplit, digitsValue_append in Hval.
  unfold sliceLast. rewrite E.
  assert (Ba := digit_value_bound a Ha). assert (Bb := digit_value_bound b Hb).
  cbn [digitsValue String.length] in Hval |- *.
  change (10 ^ Z.of_nat 2) with 100 in Hval.
  apply Z.mod_unique_pos
    with (q := digitsValue 0 (substring 0 (String.length (ofZ z) - 2) (ofZ z)));
    lia.
Qed.

Lemma two_digit_numeral (a b : ascii) :
  isDigit a = true -> isDigit b = true ->
  10 <= digitsValue 0 (String a (String b "")) ->
  ofZ (digitsValue 0 (String a (String b ""))) = String a (String b "").
Proof.
  intros Ha Hb. apply isDigit_cases in Ha. apply isDigit_cases in Hb.
  each_of Ha; each_of Hb; vm_compute; intros H;
    solve [reflexivity | exfalso; apply H; reflexivity].
Qed.

(** For a year whose last two digits make 10 or more, the last two
    characters of its numeral are the numeral of the year modulo one
    hundred. *)
Lemma sliceLast_year_numeral (z : Z) :
  10 <= z -> 10 <= z mod 100 -> sliceLast 2 (ofZ z) = ofZ (z mod 100).
Proof.
  intros Hz Hm. rewrite <- (sliceLast_year_value z Hz) in Hm |- *.
  destruct (sliceLast_year z Hz) as (a & b & E & Ha & Hb).
  rewrite E in Hm |- *. symmetry. apply two_digit_numeral; assumption.
Qed.

Section SchoolYear.
Variable host : Host.

(** X20: the purpose of the pairing: a session dated in the autumn of a year and
    a session dated in the spring of the next year are filed under the same
    academic year, the last two digits of the autumn's year, when those
    digits make a number from 10 to 98. *)
Theorem autumn_spring_same_year :
  forall (autumn spring : Value) (d1 d2 : Z),
    newDate host autumn = Some d1 ->
    newDate host spring = Some d2 ->
    In (getMonth host d1) [Aug; Sep; Oct; Nov; Dec] ->
    In (getMonth host d2) [Jan; Feb; Mar; Apr; May; Jun] ->
    getFullYear host d2 = getFullYear host d1 + 1 ->
    0 <= getFullYear host d1 ->
    10 <= getFullYear host d1 mod 100 <= 98 ->
    getAcademicYear (formatSession host autumn)
    = mkAcademicYear (ofZ (getFullYear host d1 mod 100)) (Some SemI)
    /\ getAcademicYear (formatSession host spring)
       = mkAcademicYear (ofZ (getFullYear host d1 mod 100)) (Some SemII).
Proof.
  intros autumn spring d1 d2 H1 H2 Hm1 Hm2 Hnext Hpos Hrange.
  set (y := getFullYear host d1) in *.
  assert (Hy : 10 <= y).
  { destruct (Z_lt_le_dec y 10) as [Hlt|]; [|assumption].
    rewrite Z.mod_small in Hrange by lia. lia. }
  assert (Hmod : (y + 1) mod 100 = y mod 100 + 1).
  { assert (Hdm := Z.div_mod y 100 ltac:(lia)).
    symmetry. apply Z.mod_unique_pos with (q := y / 100); lia. }
  split.
  - rewrite (formatSession_date host autumn d1 H1). fold y.
    rewrite (sliceLast_year_numeral y Hy) by lia.
    destruct (sliceLast_year y Hy) as (a & b & E & Ha & Hb).
    rewrite (sliceLast_year_numeral y Hy) in E by lia. rewrite E.
    assert (Hc := formatted_label_classified (getMonth host d1) a b Ha Hb).
    cbv zeta in Hc. rewrite Hc.
    cbn in Hm1. destruct (getMonth host d1); try reflexivity;
      exfalso; repeat (destruct Hm1 as [Hm1|Hm1]; [discriminate|]); exact Hm1.
  - rewrite (formatSession_date host spring d2 H2), Hnext. fold y.
    destruct (sliceLast_year (y + 1) ltac:(lia)) as (a & b & E & Ha & Hb).
    assert (Hv := sliceLast_year_value (y + 1) ltac:(lia)).
    rewrite E in Hv |- *.
    assert (Hc := formatted_label_classified (getMonth host d2) a b Ha Hb).
    cbv zeta in Hc. rewrite Hc, Hv, Hmod.
    replace (y mod 100 + 1 - 1) with (y mod 100) by lia.
    cbn in Hm2. destruct (getMonth host d2); try reflexivity;
      exfalso; repeat (destruct Hm2 as [Hm2|Hm2]; [discriminate|]); exact Hm2.
Qed.

End SchoolYear.

Local Close Scope Z_scope.

(* ================================================================== *)
(** * Grouping: blank rows, and session names that objects inherit *)
(* ================================================================== *)

Section GroupingEdges.
Variable host : Host.

(** X21: blank rows at the start or at the end of the sheet change nothing, and
    two blank rows in a row act as one. *)
Theorem blank_rows_collapse :
  forall (before after : list Processed) (blank1 blank2 : Processed),
    isTrulyBlankRow host blank1 = true ->
    isTrulyBlankRow host blank2 = true ->
    groupRows host (before ++ blank1 :: blank2 :: after)
    = groupRows host (before ++ blank1 :: after)
    /\ groupRows host (before ++ [blank1]) = groupRows host before
    /\ groupRows host (blank1 :: after) = groupRows host after.
Proof.
  intros before after blank1 blank2 H1 H2. unfold groupRows.
  rewrite !groupFrom_app.
  destruct (groupFrom host (JSObject.empty, None) before) as [[g cur]|].
  - cbn [groupFrom]. rewrite !groupStep_blank by assumption. auto.
  - cbn [groupFrom]. rewrite !groupStep_blank by assumption. auto.
Qed.

Lemma groupStep_own g cur row g' cur' :
  (forall k, In k (List.map fst g) -> includes JSObject.inherited k = false) ->
  groupStep host (g, cur) row = Some (g', cur') ->
  forall k, In k (List.map fst g') -> includes JSObject.inherited k = false.
Proof.
  intros Hown. unfold groupStep.
  destruct (isTrulyBlankRow host row).
  - intros H. inversion H; subst. exact Hown.
  - set (key := sessionKeyFor host cur row).
    set (g1 := if negb (JSObject.has key g) then JSObject.set key [] g else g).
    assert (H1 : forall k, In k (List.map fst g1) ->
                           includes JSObject.inherited k = false).
    { unfold g1, JSObject.has.
      destruct (JSObject.getOwn key g) eqn:E; cbn [negb]; [exact Hown|].
      destruct (includes JSObject.inherited key) eqn:Ei; cbn [negb];
        [exact Hown|].
      intros k Hk. apply set_keys_In in Hk.
      destruct Hk as [->|Hk]; [exact Ei | exact (Hown k Hk)]. }
    destruct (negb (isFooter (Course row))).
    + destruct (JSObject.getOwn key g1) as [bucket|] eqn:E; [|discriminate].
      intros H. inversion H; subst. intros k Hk.
      apply set_keys_In in Hk. destruct Hk as [->|Hk]; [|exact (H1 k Hk)].
      apply H1. apply getOwn_In in E.
      apply in_map_iff. exists (key, bucket). auto.
    + intros H. inversion H; subst. exact H1.
Qed.

Lemma groupFrom_own rows : forall g cur g' cur',
  (forall k, In k (List.map fst g) -> includes JSObject.inherited k = false) ->
  groupFrom host (g, cur) rows = Some (g', cur') ->
  forall k, In k (List.map fst g') -> includes JSObject.inherited k = false.
Proof.
  induction rows as [|row rows IH]; intros g cur g' cur' Hown H;
    cbn [groupFrom] in H.
  - inversion H; subst. exact Hown.
  - destruct (groupStep host (g, cur) row) as [[g1 cur1]|] eqn:E; [|discriminate].
    exact (IH _ _ _ _ (groupStep_own _ _ _ _ _ Hown E) H).
Qed.

(** X22: a course row whose session is a name that every object inherits
    ("constructor", "toString", ...) ends the run: the bucket lookup finds
    the inherited value, which has no [push]. *)
Theorem inherited_session_throws :
  forall (processed : list Processed) (row : Processed) (label : string),
    In row processed ->
    isTrulyBlankRow host row = false ->
    isFooter (Course row) = false ->
    namesSession host row label ->
    includes JSObject.inherited label = true ->
    groupRows host processed = None.
Proof.
  intros processed row label Hin Hblank Hfooter [Hraw Hlabel] Hinh.
  apply in_split in Hin. destruct Hin as (before & after & ->).
  unfold groupRows. rewrite groupFrom_app.
  destruct (groupFrom host (JSObject.empty, None) before) as [[g cur]|] eqn:E;
    [|reflexivity].
  assert (Hown : forall k, In k (List.map fst g) ->
                           includes JSObject.inherited k = false).
  { apply (groupFrom_own before JSObject.empty None g cur); [|exact E].
    intros k []. }
  assert (Hkey : sessionKeyFor host cur row = label).
  { unfold sessionKeyFor. rewrite Hraw, Hlabel.
    destruct label; [discriminate Hinh | reflexivity]. }
  assert (Hnone : JSObject.getOwn label g = None).
  { destruct (JSObject.getOwn label g) as [bucket|] eqn:Eo; [|reflexivity].
    apply getOwn_In in Eo.
    assert (Hk : In label (List.map fst g))
      by (apply in_map_iff; exists (label, bucket); auto).
    rewrite (Hown label Hk) in Hinh. discriminate. }
  cbn [groupFrom]. unfold groupStep. rewrite Hblank, Hkey.
  unfold JSObject.has. rewrite Hnone, Hinh, Hfooter. cbn [negb].
  rewrite Hnone. reflexivity.
Qed.

End GroupingEdges.

(* ================================================================== *)
(** * Further properties on sample inputs *)
(* ================================================================== *)

Lemma groupRows_conserves_witness :
  groupRows UTC.host sampleProcessed
  = Some [("Aug-18 Sem I", [sampleEntry "Intro" "101" "A";
                            sampleEntry "Greek" "102" "B"]);
          ("NoSession", []);
          ("Jan-19 Sem II", [sampleEntry "Hebrew" "201" "A"])]
  /\ Permutation
       (allEntries [("Aug-18 Sem I", [sampleEntry "Intro" "101" "A";
                                      sampleEntry "Greek" "102" "B"]);
                    ("NoSession", []);
                    ("Jan-19 Sem II", [sampleEntry "Hebrew" "201" "A"])])
       (List.map entryOf (filter (keptRow UTC.host) sampleProcessed)).
Proof.
  split; [reflexivity|].
  apply (groupRows_conserves UTC.host sampleProcessed). reflexivity.
Defined.

Lemma groupRows_succeeds_witness :
  exists groupedData, groupRows UTC.host sampleProcessed = Some groupedData.
Proof.
  apply (groupRows_succeeds UTC.host sampleProcessed).
  intros row [<-|[<-|[<-|[<-|[<-|[]]]]]]; reflexivity.
Defined.

Lemma buildAcademicYears_sessions_witness :
  holds (buildAcademicYears
           [("Aug-18 Sem I", [sampleEntry "Intro" "101" "A";
                              sampleEntry "Greek" "102" "B"]);
            ("NoSession", []);
            ("Jan-19 Sem II", [sampleEntry "Hebrew" "201" "A"])])
        "18" "Jan-19 Sem II" [sampleEntry "Hebrew" "201" "A"]
  <-> JSObject.getOwn "Jan-19 Sem II"
        [("Aug-18 Sem I", [sampleEntry "Intro" "101" "A";
                           sampleEntry "Greek" "102" "B"]);
         ("NoSession", []);
         ("Jan-19 Sem II", [sampleEntry "Hebrew" "201" "A"])]
      = Some [sampleEntry "Hebrew" "201" "A"]
      /\ "18" = year (getAcademicYear "Jan-19 Sem II").
Proof.
  apply (buildAcademicYears_sessions UTC.host sampleProcessed). reflexivity.
Defined.

Lemma formatSession_classified_witness :
  getAcademicYear (formatSession UTC.host (JSString "2018-08-20"))
  = mkAcademicYear "18" (Some SemI)
  /\ getAcademicYear (formatSession UTC.host (JSString "2019-01-15"))
     = mkAcademicYear "18" (Some SemII).
Proof.
  split.
  - apply (formatSession_classified UTC.host (JSString "2018-08-20")
                                    1534723200000%Z);
      [reflexivity | vm_compute; discriminate].
  - apply (formatSession_classified UTC.host (JSString "2019-01-15")
                                    1547510400000%Z);
      [reflexivity | vm_compute; discriminate].
Defined.

Lemma july_session_never_shown_witness :
  formatSession UTC.host (JSString "2018-07-02") = "Jul-18 Sem I"
  /\ classifiedUnknown "Jul-18 Sem I"
  /\ forall (sheet : list (nat * list Value)) (rows : list TableRow),
      handleGenerateTranscript UTC.host sheet = Some rows ->
      Forall (fun p => ~ shows p "Jul-18 Sem I") rows.
Proof.
  split; [reflexivity|].
  apply (july_session_never_shown UTC.host (JSString "2018-07-02")
                                  1530489600000%Z); reflexivity.
Defined.

Lemma yearRows_pairs_by_position_witness :
  List.length
    [[["Aug-18 Sem I"]; ["Intro"]; ["101"]; ["A"]; ["3"];
      ["Jan-19 Sem II"]; ["Greek"]; ["102"]; ["B"]; ["3"]];
     blankRow]
  = 2 * Nat.max
          (List.length (filter (test true semIRegex)
                               (JSObject.keys [("Aug-18 Sem I", [sampleEntry "Intro" "101" "A"]);
                                               ("Jan-19 Sem II", [sampleEntry "Greek" "102" "B"])])))
          (List.length (filter (test true semIIRegex)
                               (JSObject.keys [("Aug-18 Sem I", [sampleEntry "Intro" "101" "A"]);
                                               ("Jan-19 Sem II", [sampleEntry "Greek" "102" "B"])])))
  /\ exists p,
      nth_error
        [[["Aug-18 Sem I"]; ["Intro"]; ["101"]; ["A"]; ["3"];
          ["Jan-19 Sem II"]; ["Greek"]; ["102"]; ["B"]; ["3"]];
         blankRow] (2 * 0) = Some p
      /\ nth 0 p [] = ["Aug-18 Sem I"]
      /\ nth 5 p [] = ["Jan-19 Sem II"].
Proof.
  destruct (yearRows_pairs_by_position UTC.host
              (buildAcademicYears sampleBuckets) "18"
              [("Aug-18 Sem I", [sampleEntry "Intro" "101" "A"]);
               ("Jan-19 Sem II", [sampleEntry "Greek" "102" "B"])]
              [[["Aug-18 Sem I"]; ["Intro"]; ["101"]; ["A"]; ["3"];
                ["Jan-19 Sem II"]; ["Greek"]; ["102"]; ["B"]; ["3"]];
               blankRow] eq_refl eq_refl) as [Hlen Hpos].
  split; [exact Hlen|].
  destruct (Hpos 0 ltac:(vm_compute; lia)) as (p & Hp & Hl & Hr & _).
  exists p. auto.
Defined.

Lemma noncanonical_year_throws_witness :
  In "08" (JSObject.keys (buildAcademicYears
                            [("Aug-08 Sem I", [sampleEntry "Intro" "101" "A"])]))
  /\ parseInt "08" = Some 8%Z
  /\ buildRows UTC.host
       (buildAcademicYears [("Aug-08 Sem I", [sampleEntry "Intro" "101" "A"])])
     = None.
Proof.
  split; [vm_compute; left; reflexivity|]. split; [reflexivity|].
  apply (noncanonical_year_throws UTC.host _ "08" 8%Z).
  - vm_compute. left. reflexivity.
  - discriminate.
  - reflexivity.
  - reflexivity.
Defined.

Lemma table_has_no_footer_line_witness :
  handleGenerateTranscript UTC.host sampleSheet
  = Some [headerRow;
          [["Aug-18 Sem I"]; ["Intro to Theology"; "Greek I"]; ["101"; "102"];
           ["A"; "B"]; ["3"; "3"];
           ["Jan-19 Sem II"]; ["Hebrew"]; ["201"]; ["A-"]; ["3"]];
          blankRow]
  /\ forall (p : TableRow) (line : string),
      In p [headerRow;
            [["Aug-18 Sem I"]; ["Intro to Theology"; "Greek I"]; ["101"; "102"];
             ["A"; "B"]; ["3"; "3"];
             ["Jan-19 Sem II"]; ["Hebrew"]; ["201"]; ["A-"]; ["3"]];
            blankRow] ->
      In line (courseLines p) -> isFooter line = false.
Proof.
  split; [reflexivity|].
  apply (table_has_no_footer_line UTC.host sampleSheet). reflexivity.
Defined.

Lemma handleGenerateTranscript_succeeds_witness :
  exists rows, handleGenerateTranscript UTC.host sampleSheet = Some rows.
Proof.
  apply (handleGenerateTranscript_succeeds UTC.host sampleSheet).
  intros row [<-|[<-|[<-|[<-|[]]]]];
    (split; [reflexivity|]);
    intros n Hn; vm_compute in Hn; inversion Hn; reflexivity.
Defined.

Lemma getColumnLines_lines_witness :
  In "3" (getColumnLines UTC.host
            [mkCourseEntry "Chapel" "" (JSString "P") (JSString " 3 ")] KSemHrs)
  /\ "3" <> ""
  /\ trim "3" = "3"
  /\ exists r,
      In r [mkCourseEntry "Chapel" "" (JSString "P") (JSString " 3 ")]
      /\ "3" = cellText UTC.host (column KSemHrs r).
Proof.
  split; [left; reflexivity|].
  apply (getColumnLines_lines UTC.host
           [mkCourseEntry "Chapel" "" (JSString "P") (JSString " 3 ")] KSemHrs).
  left. reflexivity.
Defined.

Lemma classified_bucket_shown_witness :
  exists rows p,
    buildRows UTC.host
      (buildAcademicYears
         [("Aug-18 Sem I", [sampleEntry "Intro" "101" "A";
                            sampleEntry "Greek" "102" "B"]);
          ("NoSession", []);
          ("Jan-19 Sem II", [sampleEntry "Hebrew" "201" "A"])])
    = Some rows
    /\ In p rows
    /\ (firstn 5 p
        = cellGroup UTC.host (Some "Jan-19 Sem II")
                    [sampleEntry "Hebrew" "201" "A"]
        \/ skipn 5 p
           = cellGroup UTC.host (Some "Jan-19 Sem II")
                       [sampleEntry "Hebrew" "201" "A"]).
Proof.
  apply (classified_bucket_shown UTC.host sampleProcessed
           [("Aug-18 Sem I", [sampleEntry "Intro" "101" "A";
                              sampleEntry "Greek" "102" "B"]);
            ("NoSession", []);
            ("Jan-19 Sem II", [sampleEntry "Hebrew" "201" "A"])]
           "Jan-19 Sem II" [sampleEntry "Hebrew" "201" "A"]).
  - reflexivity.
  - reflexivity.
  - right. reflexivity.
  - exists 18%Z. split; reflexivity.
  - intros l [<-|[<-|[<-|[]]]] n Hn; vm_compute in Hn; inversion Hn;
      reflexivity.
Defined.

Lemma sortedYears_each_once_witness :
  Permutation (sortedYears (buildAcademicYears sampleBuckets))
              (allYearKeys (buildAcademicYears sampleBuckets)).
Proof.
  apply (sortedYears_each_once (buildAcademicYears sampleBuckets)).
  intros k Hk. vm_compute in Hk.
  destruct Hk as [<-|[<-|[]]]; intros n Hn; vm_compute in Hn; inversion Hn;
    reflexivity.
Defined.

Lemma bucket_keys_origin_witness :
  "Jan-19 Sem II" = "NoSession"
  \/ exists row, In row sampleProcessed
                 /\ namesSession UTC.host row "Jan-19 Sem II".
Proof.
  apply (bucket_keys_origin UTC.host sampleProcessed
           [("Aug-18 Sem I", [sampleEntry "Intro" "101" "A";
                              sampleEntry "Greek" "102" "B"]);
            ("NoSession", []);
            ("Jan-19 Sem II", [sampleEntry "Hebrew" "201" "A"])]).
  - reflexivity.
  - vm_compute. tauto.
Defined.

Lemma splitCatNoAndCourse_rebuild_witness :
  splitCatNoAndCourse UTC.host (JSString " 101   Intro to Theology ")
  = ("101", "Intro to Theology")
  /\ "101" <> ""
  /\ exists w,
      trim (ToString UTC.host (orEmpty (JSString " 101   Intro to Theology ")))
      = ("101" ++ w ++ "Intro to Theology")%string
      /\ Str.forallb isSpace w = true /\ 1 <= String.length w
      /\ Str.forallb isDot "Intro to Theology" = true
      /\ "Intro to Theology" <> "".
Proof.
  split; [reflexivity|]. split; [discriminate|].
  apply (splitCatNoAndCourse_rebuild UTC.host
           (JSString " 101   Intro to Theology ") "101" "Intro to Theology").
  - reflexivity.
  - discriminate.
Defined.

Lemma autumn_spring_same_year_witness :
  getAcademicYear (formatSession UTC.host (JSString "2018-08-20"))
  = mkAcademicYear "18" (Some SemI)
  /\ getAcademicYear (formatSession UTC.host (JSString "2019-01-15"))
     = mkAcademicYear "18" (Some SemII).
Proof.
  apply (autumn_spring_same_year UTC.host (JSString "2018-08-20")
           (JSString "2019-01-15") 1534723200000%Z 1547510400000%Z);
    try reflexivity.
  - vm_compute. tauto.
  - vm_compute. tauto.
  - vm_compute. discriminate.
  - vm_compute. split; discriminate.
Defined.

Lemma blank_rows_collapse_witness :
  groupRows UTC.host ([sampleRow "Aug-18 Sem I" "Intro" "101" "A"]
                        ++ blankProcessed :: blankProcessed
                        :: [continuationRow "Greek" "102" "B"])
  = groupRows UTC.host ([sampleRow "Aug-18 Sem I" "Intro" "101" "A"]
                          ++ blankProcessed
                          :: [continuationRow "Greek" "102" "B"])
  /\ groupRows UTC.host ([sampleRow "Aug-18 Sem I" "Intro" "101" "A"]
                           ++ [blankProcessed])
     = groupRows UTC.host [sampleRow "Aug-18 Sem I" "Intro" "101" "A"]
  /\ groupRows UTC.host (blankProcessed :: [continuationRow "Greek" "102" "B"])
     = groupRows UTC.host [continuationRow "Greek" "102" "B"].
Proof.
  apply (blank_rows_collapse UTC.host
           [sampleRow "Aug-18 Sem I" "Intro" "101" "A"]
           [continuationRow "Greek" "102" "B"]
           blankProcessed blankProcessed); reflexivity.
Defined.

Lemma inherited_session_throws_witness :
  groupRows UTC.host [sampleRow "Aug-18 Sem I" "Intro" "101" "A";
                      sampleRow "constructor" "Greek" "102" "B"]
  = None.
Proof.
  apply (inherited_session_throws UTC.host _
           (sampleRow "constructor" "Greek" "102" "B") "constructor").
  - right. left. reflexivity.
  - reflexivity.
  - reflexivity.
  - split; reflexivity.
  - reflexivity.
Defined.
